(** * Hybrid recommendation engine (build-ml-model.py): a shallow embedding

    The development follows the four classes of the source file:
    [DataProcessor], [CollaborativeFilteringModel], [ContentBasedModel] and
    [HybridRecommendationEngine].  Python integers are [Z] (negative list
    indices wrap around, as in Python and NumPy), floating-point scores are
    exact rationals [Q], dictionaries are [gmap], sets are [gset], and a
    raised exception is the [Raise] case of [result].

    What the source takes from its libraries without defining it (the
    truncated SVD, TF-IDF with cosine similarity, [np.argsort], the
    iteration order of a Python [set]) are the fields of the class
    [Runtime]; what the proofs need to know about them is [RuntimeSpec]. *)

From Stdlib Require Import QArith Qabs Lqa.
From stdpp Require Import gmap strings list fin_maps sorting.

Local Open Scope Z_scope.

(** ** Python values and control flow *)

Inductive exn : Type :=
  | KeyError
  | IndexError
  | ValueError
  | TypeError
  | AttributeError.

Inductive result (A : Type) : Type :=
  | Ok (a : A)
  | Raise (e : exn).

Arguments Ok {A} a.
Arguments Raise {A} e.

#[global] Instance result_bind : MBind result :=
  λ A B (k : A → result B) (r : result A),
    match r with
    | Ok a => k a
    | Raise e => Raise e
    end.

#[global] Instance result_ret : MRet result := λ A, Ok.

Fixpoint mapM_result {A B : Type} (f : A → result B) (l : list A) : result (list B) :=
  match l with
  | [] => Ok []
  | a :: l' => b ← f a; bs ← mapM_result f l'; Ok (b :: bs)
  end.

(** [len(x)] where the attribute [x] may still be [None]. *)
Definition py_len {A : Type} (o : option (list A)) : result Z :=
  match o with
  | Some l => Ok (Z.of_nat (length l))
  | None => Raise TypeError
  end.

(** [x[...]] where the attribute [x] may still be [None]. *)
Definition subscriptable {A : Type} (o : option A) : result A :=
  match o with
  | Some a => Ok a
  | None => Raise TypeError
  end.

(** [l[i]] for a list or a NumPy array: a negative index counts from the
    end, anything outside [-len, len) raises [IndexError]. *)
Definition getitem {A : Type} (l : list A) (i : Z) : result A :=
  let n := Z.of_nat (length l) in
  let j := if i <? 0 then i + n else i in
  if (0 <=? j) && (j <? n) then
    match l !! Z.to_nat j with
    | Some a => Ok a
    | None => Raise IndexError
    end
  else Raise IndexError.

(** [l[:n]]: a negative bound drops that many elements from the end. *)
Definition slice_to {A : Type} (l : list A) (n : Z) : list A :=
  if n <? 0 then take (Z.to_nat (Z.of_nat (length l) + n)) l
  else take (Z.to_nat n) l.

(** [d[k]] for a dictionary. *)
Definition dict_getitem `{Countable K} {V : Type} (d : gmap K V) (k : K) : result V :=
  match d !! k with
  | Some v => Ok v
  | None => Raise KeyError
  end.

(** [d.get(k, dflt)]. *)
Definition dict_get `{Countable K} {V : Type} (d : gmap K V) (k : K) (dflt : V) : V :=
  default dflt (d !! k).

(** [{k: v for k, v in l}]: a later binding of a key overwrites an earlier one. *)
Definition dict_of `{Countable K} {V : Type} (l : list (K * V)) : gmap K V :=
  foldl (λ d kv, <[kv.1 := kv.2]> d) ∅ l.

Fixpoint enumerate_from {A : Type} (k : Z) (l : list A) : list (Z * A) :=
  match l with
  | [] => []
  | a :: l' => (k, a) :: enumerate_from (k + 1) l'
  end.

Definition enumerate {A : Type} (l : list A) : list (Z * A) := enumerate_from 0 l.

(** ** Numbers *)

Definition Qltb (x y : Q) : bool := negb (Qle_bool y x).

(** Python's [min(a, b)] and [max(a, b)]: the first argument is kept
    unless the second is strictly smaller (strictly larger). *)
Definition py_min (a b : Q) : Q := if Qltb b a then b else a.
Definition py_max (a b : Q) : Q := if Qltb a b then b else a.

Definition Qsum (l : list Q) : Q := foldl Qplus (0 # 1)%Q l.

(** [np.mean]; the quotient by an empty count is [0] here ([nan] in NumPy,
    which the rationals do not have). *)
Definition np_mean (l : list Q) : Q := (Qsum l / inject_Z (Z.of_nat (length l)))%Q.

(** [list.sort(key=..., reverse=True)]: descending by key, and stable, so
    entries with equal keys stay in their original order. *)
Fixpoint insert_desc {A : Type} (key : A → Q) (x : A) (l : list A) : list A :=
  match l with
  | [] => [x]
  | y :: l' => if Qltb (key x) (key y) then y :: insert_desc key x l' else x :: y :: l'
  end.

Definition sort_desc {A : Type} (key : A → Q) (l : list A) : list A :=
  foldr (insert_desc key) [] l.

(** ** Tables *)

(** A row of the interactions table.  The [rating] column is optional for
    the table as a whole ([has_rating]); when it is absent the field
    [rating] of a row carries no information. *)
Record Row : Type := {
  user_id : string;
  item_id : string;
  rating : Q
}.

Record DataFrame : Type := {
  has_rating : bool;
  rows : list Row
}.

(** A row after [preprocess_interactions] added the two index columns. *)
Record EncodedRow : Type := {
  raw : Row;
  user_idx : Z;
  item_idx : Z
}.

Record EncodedFrame : Type := {
  enc_has_rating : bool;
  enc_rows : list EncodedRow
}.

(** The items table: one dictionary from column name to text per item. *)
Definition ItemsFrame : Type := list (gmap string string).

(** [scipy.sparse.csr_matrix] built from coordinate triples. *)
Record csr_matrix : Type := {
  shape : Z * Z;
  entries : list (Z * Z * Q)
}.

Definition matrix_data (m : csr_matrix) : list Q := (λ e, e.2) <$> m.(entries).

(** [m.sum(axis=1)] restricted to row [u], and [m.sum(axis=0)] to column [i]. *)
Definition row_entries (m : csr_matrix) (u : Z) : list Q :=
  (λ e, e.2) <$> filter (λ e, e.1.1 = u) m.(entries).
Definition col_entries (m : csr_matrix) (i : Z) : list Q :=
  (λ e, e.2) <$> filter (λ e, e.1.2 = i) m.(entries).

Definition indices (n : Z) : list Z := Z.of_nat <$> seq 0 (Z.to_nat n).

Definition sum_axis1 (m : csr_matrix) : list Q :=
  (λ u, Qsum (row_entries m u)) <$> indices m.(shape).1.
Definition sum_axis0 (m : csr_matrix) : list Q :=
  (λ i, Qsum (col_entries m i)) <$> indices m.(shape).2.

Definition count_positive (l : list Q) : Q :=
  inject_Z (Z.of_nat (length (filter (λ x, Qltb (0 # 1) x = true) l))).

(** [(m > 0).sum(axis=1)] and [(m > 0).sum(axis=0)]. *)
Definition positive_axis1 (m : csr_matrix) : list Q :=
  (λ u, count_positive (row_entries m u)) <$> indices m.(shape).1.
Definition positive_axis0 (m : csr_matrix) : list Q :=
  (λ i, count_positive (col_entries m i)) <$> indices m.(shape).2.

(** [np.divide(s, c, out=np.zeros_like(s), where=c != 0)]. *)
Definition np_divide_where (s c : list Q) : list Q :=
  zip_with (λ x y, if Qeq_bool y (0 # 1) then (0 # 1)%Q else (x / y)%Q) s c.

(** ** The libraries behind the source *)

(** A metric returned by [evaluate]: a rational, the square root of a
    rational ([np.sqrt], kept symbolic), or [float('inf')]. *)
Inductive Float : Type :=
  | Finite (q : Q)
  | SquareRoot (q : Q)
  | Infinity.

Record Metrics : Type := {
  rmse : Float;
  mae : Float
}.

Definition Qabs_diff (a p : Q) : Q := Qabs (a - p).

(** [sklearn.metrics.mean_squared_error(actual, predictions)]. *)
Definition mean_squared_error (actual predictions : list Q) : Q :=
  np_mean (zip_with (λ a p, ((a - p) * (a - p))%Q) actual predictions).

(** Modelled from the spec: the source file breaks off inside the
    expression [mae = np.mean(np.abs(np.array(actual ...] at the end of
    [evaluate]; the rest of that expression and the returned dictionary
    [{rmse, mae}] follow the specification ("compute RMSE and MAE of
    predictions versus actuals"). *)
Definition mean_absolute_error (actual predictions : list Q) : Q :=
  np_mean (zip_with Qabs_diff actual predictions).

Class Runtime : Type := {
  (** [list(s)] and [for x in s] for a Python set of integers. *)
  set_iter : gset Z → list Z;
  (** [np.argsort(a)]. *)
  np_argsort : list Q → list Z;
  (** [TruncatedSVD(n_components, random_state)]: [fit_transform(m)]
      together with [components_.T]. *)
  truncated_svd : Z → Z → csr_matrix → result (list (list Q) * list (list Q));
  (** [TfidfVectorizer(max_features, ...).fit_transform] followed by
      [cosine_similarity]. *)
  tfidf_cosine : Z → list string → result (list (list Q))
}.

(** ** DataProcessor *)

Module DataProcessor.

Record t : Type := {
  min_interactions : Z;
  user_encoder : gmap string Z;
  item_encoder : gmap string Z;
  user_decoder : gmap Z string;
  item_decoder : gmap Z string
}.

(** [__init__(min_interactions=5)]. *)
Definition init (min_interactions : Z) : t :=
  {| min_interactions := min_interactions;
     user_encoder := ∅; item_encoder := ∅;
     user_decoder := ∅; item_decoder := ∅ |}.

(** [df.drop_duplicates(['user_id', 'item_id'])]: the first row of every
    (user, item) pair is kept. *)
Fixpoint drop_duplicates_from (seen : gset (string * string)) (l : list Row) : list Row :=
  match l with
  | [] => []
  | r :: l' =>
      if decide ((user_id r, item_id r) ∈ seen) then drop_duplicates_from seen l'
      else r :: drop_duplicates_from ({[(user_id r, item_id r)]} ∪ seen) l'
  end.

Definition drop_duplicates (l : list Row) : list Row := drop_duplicates_from ∅ l.

(** [col.value_counts()]. *)
Definition value_counts (col : list string) : gmap string Z :=
  foldl (λ d x, <[x := dict_get d x 0 + 1]> d) ∅ col.

(** [counts[counts >= min_interactions].index]. *)
Definition at_least (min_interactions : Z) (counts : gmap string Z) : gset string :=
  dom (filter (λ kv, min_interactions ≤ kv.2) counts).

(** [col.unique()]: the distinct values in order of first appearance. *)
Fixpoint unique_from (seen : gset string) (col : list string) : list string :=
  match col with
  | [] => []
  | x :: col' =>
      if decide (x ∈ seen) then unique_from seen col'
      else x :: unique_from ({[x]} ∪ seen) col'
  end.

Definition unique (col : list string) : list string := unique_from ∅ col.

(** [col.map(encoder)] at one key.  pandas yields NaN for a key the
    dictionary lacks; the callers only map keys of the dictionary
    (lemmas [preprocess_user_idx] and [preprocess_item_idx]). *)
Definition series_map (encoder : gmap string Z) (k : string) : Z :=
  default 0 (encoder !! k).

Definition swap_pair {A B : Type} (p : A * B) : B * A := (p.2, p.1).

Definition filter_valid (valid_users valid_items : gset string) (l : list Row) : list Row :=
  filter (λ r, user_id r ∈ valid_users ∧ item_id r ∈ valid_items) l.

Definition preprocess_interactions (self : t) (interactions_df : DataFrame)
  : t * EncodedFrame :=
  let df := drop_duplicates interactions_df.(rows) in
  let user_counts := value_counts (user_id <$> df) in
  let item_counts := value_counts (item_id <$> df) in
  let valid_users := at_least self.(min_interactions) user_counts in
  let valid_items := at_least self.(min_interactions) item_counts in
  let df := filter_valid valid_users valid_items df in
  let unique_users := unique (user_id <$> df) in
  let unique_items := unique (item_id <$> df) in
  let user_encoder := dict_of (swap_pair <$> enumerate unique_users) in
  let item_encoder := dict_of (swap_pair <$> enumerate unique_items) in
  (* encoder.items() runs in insertion order, the order of enumerate *)
  let user_decoder := dict_of (enumerate unique_users) in
  let item_decoder := dict_of (enumerate unique_items) in
  ({| min_interactions := self.(min_interactions);
      user_encoder := user_encoder; item_encoder := item_encoder;
      user_decoder := user_decoder; item_decoder := item_decoder |},
   {| enc_has_rating := interactions_df.(has_rating);
      enc_rows := (λ r, {| raw := r;
                           user_idx := series_map user_encoder (user_id r);
                           item_idx := series_map item_encoder (item_id r) |}) <$> df |}).

Definition create_interaction_matrix (self : t) (interactions_df : EncodedFrame)
  : csr_matrix :=
  let n_users := Z.of_nat (size self.(user_encoder)) in
  let n_items := Z.of_nat (size self.(item_encoder)) in
  {| shape := (n_users, n_items);
     entries := (λ r, (user_idx r, item_idx r,
                       if interactions_df.(enc_has_rating) then rating (raw r)
                       else (1 # 1)%Q)) <$> interactions_df.(enc_rows) |}.

End DataProcessor.

(** ** CollaborativeFilteringModel *)

Module CollaborativeFilteringModel.

Record t : Type := {
  n_components : Z;
  random_state : Z;
  user_factors : option (list (list Q));
  item_factors : option (list (list Q));
  global_mean : option Q;
  user_biases : option (list Q);
  item_biases : option (list Q)
}.

(** [__init__(n_components=50, random_state=42)]. *)
Definition init (n_components random_state : Z) : t :=
  {| n_components := n_components; random_state := random_state;
     user_factors := None; item_factors := None; global_mean := None;
     user_biases := None; item_biases := None |}.

Definition fit `{Runtime} (self : t) (interaction_matrix : csr_matrix) : t * result unit :=
  let gm := np_mean (matrix_data interaction_matrix) in
  let user_sums := sum_axis1 interaction_matrix in
  let user_counts := positive_axis1 interaction_matrix in
  let ub := (λ x, (x - gm)%Q) <$> np_divide_where user_sums user_counts in
  let item_sums := sum_axis0 interaction_matrix in
  let item_counts := positive_axis0 interaction_matrix in
  let ib := (λ x, (x - gm)%Q) <$> np_divide_where item_sums item_counts in
  match truncated_svd self.(n_components) self.(random_state) interaction_matrix with
  | Raise e =>
      ({| n_components := self.(n_components); random_state := self.(random_state);
          user_factors := self.(user_factors); item_factors := self.(item_factors);
          global_mean := Some gm; user_biases := Some ub; item_biases := Some ib |},
       Raise e)
  | Ok (uf, itf) =>
      ({| n_components := self.(n_components); random_state := self.(random_state);
          user_factors := Some uf; item_factors := Some itf;
          global_mean := Some gm; user_biases := Some ub; item_biases := Some ib |},
       Ok ())
  end.

(** [np.dot] of two vectors. *)
Definition np_dot (a b : list Q) : result Q :=
  if (length a =? length b)%nat then Ok (Qsum (zip_with Qmult a b))
  else Raise ValueError.

(** [a += b] for vectors: [b] of the same length, or of length one
    (broadcast). *)
Definition np_iadd (a b : list Q) : result (list Q) :=
  if (length b =? length a)%nat then Ok (zip_with Qplus a b)
  else match b with
       | [x] => Ok ((λ y, (y + x)%Q) <$> a)
       | _ => Raise ValueError
       end.

(** [max(0, min(5, x))]. *)
Definition clamp (x : Q) : Q := py_max (0 # 1) (py_min (5 # 1) x).

Definition predict (self : t) (user_idx item_idx : Z) : result Q :=
  n_users ← py_len self.(user_factors);
  out_of_range ←
    (if user_idx >=? n_users then Ok true
     else n_items ← py_len self.(item_factors); Ok (item_idx >=? n_items));
  if out_of_range : bool then
    (* [global_mean] is assigned before [user_factors] in [fit]: it is
       never [None] once [len(self.user_factors)] has succeeded *)
    subscriptable self.(global_mean)
  else
    ubs ← subscriptable self.(user_biases);
    ub ← getitem ubs user_idx;
    gm ← subscriptable self.(global_mean);
    ibs ← subscriptable self.(item_biases);
    ib ← getitem ibs item_idx;
    ufs ← subscriptable self.(user_factors);
    uf ← getitem ufs user_idx;
    itfs ← subscriptable self.(item_factors);
    itf ← getitem itfs item_idx;
    d ← np_dot uf itf;
    Ok (clamp (gm + ub + ib + d)%Q).

Definition get_user_recommendations (self : t) (user_idx : Z) (n_recommendations : Z)
    (exclude_seen : option (gset Z)) : result (list (Z * Q)) :=
  n_users ← py_len self.(user_factors);
  if user_idx >=? n_users then Ok []
  else
    let exclude_seen := default ∅ exclude_seen in
    ufs ← subscriptable self.(user_factors);
    user_vector ← getitem ufs user_idx;
    itfs ← subscriptable self.(item_factors);
    scores ← mapM_result (λ row, np_dot row user_vector) itfs;
    ibs ← subscriptable self.(item_biases);
    scores ← np_iadd scores ibs;
    ubs ← subscriptable self.(user_biases);
    ub ← getitem ubs user_idx;
    gm ← subscriptable self.(global_mean);
    let scores := (λ s, (s + (ub + gm))%Q) <$> scores in
    let item_scores := filter (λ p, p.1 ∉ exclude_seen) (enumerate scores) in
    Ok (slice_to (sort_desc snd item_scores) n_recommendations).

End CollaborativeFilteringModel.

(** ** ContentBasedModel *)

Module ContentBasedModel.

Record t : Type := {
  max_features : Z;
  item_similarity_matrix : option (list (list Q))
}.

(** [__init__(max_features=5000)]. *)
Definition init (max_features : Z) : t :=
  {| max_features := max_features; item_similarity_matrix := None |}.

(** [' '.join(...)] over the feature columns of one item. *)
Definition combined_features (feature_cols : list string) (item : gmap string string)
  : result string :=
  texts ← mapM_result (dict_getitem item) feature_cols;
  Ok (String.concat " " texts).

Definition fit `{Runtime} (self : t) (items_df : ItemsFrame) (feature_cols : list string)
  : t * result unit :=
  match mapM_result (combined_features feature_cols) items_df with
  | Raise e => (self, Raise e)
  | Ok texts =>
      match tfidf_cosine self.(max_features) texts with
      | Raise e => (self, Raise e)
      | Ok sim =>
          ({| max_features := self.(max_features);
              item_similarity_matrix := Some sim |}, Ok ())
      end
  end.

Definition get_similar_items (self : t) (item_idx : Z) (n_similar : Z)
  : result (list (Z * Q)) :=
  match self.(item_similarity_matrix) with
  | None => Raise AttributeError
  | Some m =>
      if item_idx >=? Z.of_nat (length m) then Ok []
      else
        similarities ← getitem m item_idx;
        let similar_items := filter (λ p, p.1 ≠ item_idx) (enumerate similarities) in
        Ok (slice_to (sort_desc snd similar_items) n_similar)
  end.

End ContentBasedModel.

(** ** HybridRecommendationEngine *)

Inductive Method : Type :=
  | hybrid
  | popular.

Record Recommendation : Type := {
  rec_item_id : string;
  score : Q;
  cf_score : Q;
  cb_score : Q;
  method : Method
}.

Module HybridRecommendationEngine.

Record t : Type := {
  cf_weight : Q;
  cb_weight : Q;
  data_processor : DataProcessor.t;
  cf_model : CollaborativeFilteringModel.t;
  cb_model : ContentBasedModel.t;
  interaction_matrix : option csr_matrix;
  user_item_interactions : gmap Z (gset Z);
  is_trained : bool
}.

(** [__init__(cf_weight=0.7, cb_weight=0.3)]. *)
Definition init (cf_weight cb_weight : Q) : t :=
  {| cf_weight := cf_weight; cb_weight := cb_weight;
     data_processor := DataProcessor.init 5;
     cf_model := CollaborativeFilteringModel.init 50 42;
     cb_model := ContentBasedModel.init 5000;
     interaction_matrix := None;
     user_item_interactions := ∅;
     is_trained := false |}.

(** The loop over [interactions_clean.iterrows()] in [train]: it adds to the
    sets already stored in [self.user_item_interactions]. *)
Definition store_interactions (uii : gmap Z (gset Z)) (clean : list EncodedRow)
  : gmap Z (gset Z) :=
  foldl (λ d row, <[user_idx row := {[item_idx row]} ∪ dict_get d (user_idx row) ∅]> d)
        uii clean.

Definition train `{Runtime} (self : t) (interactions_df : DataFrame)
    (items_df : ItemsFrame) (content_features : list string) : t * result unit :=
  let '(dp, interactions_clean) :=
    DataProcessor.preprocess_interactions self.(data_processor) interactions_df in
  let matrix := DataProcessor.create_interaction_matrix dp interactions_clean in
  let uii := store_interactions self.(user_item_interactions)
                                interactions_clean.(enc_rows) in
  let '(cf, r) := CollaborativeFilteringModel.fit self.(cf_model) matrix in
  match r with
  | Raise e =>
      ({| cf_weight := self.(cf_weight); cb_weight := self.(cb_weight);
          data_processor := dp; cf_model := cf; cb_model := self.(cb_model);
          interaction_matrix := Some matrix; user_item_interactions := uii;
          is_trained := self.(is_trained) |}, Raise e)
  | Ok _ =>
      let '(cb, r) := ContentBasedModel.fit self.(cb_model) items_df content_features in
      match r with
      | Raise e =>
          ({| cf_weight := self.(cf_weight); cb_weight := self.(cb_weight);
              data_processor := dp; cf_model := cf; cb_model := cb;
              interaction_matrix := Some matrix; user_item_interactions := uii;
              is_trained := self.(is_trained) |}, Raise e)
      | Ok _ =>
          ({| cf_weight := self.(cf_weight); cb_weight := self.(cb_weight);
              data_processor := dp; cf_model := cf; cb_model := cb;
              interaction_matrix := Some matrix; user_item_interactions := uii;
              is_trained := true |}, Ok ())
      end
  end.

(** The content-based scores of [get_recommendations]: the similarities of
    the neighbours of up to five seen items, summed per candidate. *)
Definition add_similar (seen_items : gset Z) (cb_scores : gmap Z Q) (p : Z * Q)
  : gmap Z Q :=
  if decide (p.1 ∉ seen_items)
  then <[p.1 := (dict_get cb_scores p.1 (0 # 1) + p.2)%Q]> cb_scores
  else cb_scores.

Fixpoint content_scores (cb : ContentBasedModel.t) (seen_items : gset Z)
    (seeds : list Z) (cb_scores : gmap Z Q) : result (gmap Z Q) :=
  match seeds with
  | [] => Ok cb_scores
  | seen_item :: seeds' =>
      similar_items ← ContentBasedModel.get_similar_items cb seen_item 20;
      content_scores cb seen_items seeds'
                     (foldl (add_similar seen_items) cb_scores similar_items)
  end.

(** One entry of [hybrid_scores]: [(item_idx, hybrid_score, cf_score, cb_score)]. *)
Definition fuse (cf_weight cb_weight : Q) (cf_scores cb_scores : gmap Z Q) (item_idx : Z)
  : Z * Q * Q * Q :=
  let cf_score := dict_get cf_scores item_idx (0 # 1)%Q in
  let cb_score := dict_get cb_scores item_idx (0 # 1)%Q in
  (item_idx, (cf_weight * cf_score + cb_weight * cb_score)%Q, cf_score, cb_score).

Definition hybrid_scores `{Runtime} (cf_weight cb_weight : Q)
    (cf_scores cb_scores : gmap Z Q) : list (Z * Q * Q * Q) :=
  let all_items := dom cf_scores ∪ dom cb_scores in
  sort_desc (λ x, x.1.1.2)
            (fuse cf_weight cb_weight cf_scores cb_scores <$> set_iter all_items).

Definition format_hybrid (dp : DataProcessor.t) (x : Z * Q * Q * Q)
  : result Recommendation :=
  item_id ← dict_getitem dp.(DataProcessor.item_decoder) x.1.1.1;
  Ok {| rec_item_id := item_id; score := x.1.1.2; cf_score := x.1.2;
        cb_score := x.2; method := hybrid |}.

Definition _get_popular_items `{Runtime} (self : t) (n_items : Z)
  : result (list Recommendation) :=
  match self.(interaction_matrix) with
  | None => Raise AttributeError
  | Some matrix =>
      let item_popularity := sum_axis0 matrix in
      let popular_items := slice_to (reverse (np_argsort item_popularity)) n_items in
      mapM_result
        (λ item_idx,
           item_id ← dict_getitem self.(data_processor).(DataProcessor.item_decoder) item_idx;
           pop ← getitem item_popularity item_idx;
           Ok {| rec_item_id := item_id; score := pop; cf_score := (0 # 1)%Q;
                 cb_score := (0 # 1)%Q; method := popular |})
        popular_items
  end.

(** [cf_scores] of [get_recommendations]. *)
Definition cf_candidates (self : t) (user_idx : Z) (n_recommendations : Z)
  : result (gmap Z Q) :=
  let seen_items := dict_get self.(user_item_interactions) user_idx ∅ in
  cf_recs ← CollaborativeFilteringModel.get_user_recommendations
               self.(cf_model) user_idx (n_recommendations * 2) (Some seen_items);
  Ok (dict_of cf_recs).

(** [cb_scores] of [get_recommendations]. *)
Definition cb_candidates `{Runtime} (self : t) (user_idx : Z) : result (gmap Z Q) :=
  let seen_items := dict_get self.(user_item_interactions) user_idx ∅ in
  if decide (seen_items ≠ ∅)
  then content_scores self.(cb_model) seen_items (slice_to (set_iter seen_items) 5) ∅
  else Ok ∅.

Definition get_recommendations `{Runtime} (self : t) (user_id : string)
    (n_recommendations : Z) : result (list Recommendation) :=
  if negb self.(is_trained) then Raise ValueError
  else
    match self.(data_processor).(DataProcessor.user_encoder) !! user_id with
    | Some user_idx =>
        cf_scores ← cf_candidates self user_idx n_recommendations;
        cb_scores ← cb_candidates self user_idx;
        let ranked := hybrid_scores self.(cf_weight) self.(cb_weight) cf_scores cb_scores in
        mapM_result (format_hybrid self.(data_processor))
                    (slice_to ranked n_recommendations)
    | None => _get_popular_items self n_recommendations
    end.

Definition evaluate `{Runtime} (self : t) (test_interactions : DataFrame)
  : result Metrics :=
  if negb self.(is_trained) then Raise ValueError
  else
    let dp := self.(data_processor) in
    let test_clean :=
      filter (λ r, user_id r ∈ dom dp.(DataProcessor.user_encoder)
                   ∧ item_id r ∈ dom dp.(DataProcessor.item_encoder))
             test_interactions.(rows) in
    match test_clean with
    | [] => Ok {| rmse := Infinity; mae := Infinity |}
    | _ =>
        predictions ←
          mapM_result
            (λ r, CollaborativeFilteringModel.predict self.(cf_model)
                    (DataProcessor.series_map dp.(DataProcessor.user_encoder) (user_id r))
                    (DataProcessor.series_map dp.(DataProcessor.item_encoder) (item_id r)))
            test_clean;
        let actual :=
          (λ r, if test_interactions.(has_rating) then rating r else (1 # 1)%Q)
            <$> test_clean in
        Ok {| rmse := SquareRoot (mean_squared_error actual predictions);
              mae := Finite (mean_absolute_error actual predictions) |}
    end.

(** An engine is in the state Trained when its flag is set and a call of
    [train] has left it, whether that call returned normally or raised
    (a retrain that fails leaves the flag of the earlier run set). *)
Definition Trained `{Runtime} (e : t) : Prop :=
  e.(is_trained) = true ∧
  ∃ (e0 : t) (interactions_df : DataFrame) (items_df : ItemsFrame)
    (content_features : list string) (r : result unit),
    train e0 interactions_df items_df content_features = (e, r).

(** The last call of [train] on the engine returned normally. *)
Definition FullyTrained `{Runtime} (e : t) : Prop :=
  ∃ (e0 : t) (interactions_df : DataFrame) (items_df : ItemsFrame)
    (content_features : list string),
    train e0 interactions_df items_df content_features = (e, Ok ()).

End HybridRecommendationEngine.

(** ** What the proofs assume of the libraries *)

(** [a[i]] for an index known to be in range. *)
Definition at_index (a : list Q) (i : Z) : option Q := a !! Z.to_nat i.

Class RuntimeSpec `{Runtime} : Prop := {
  (** iterating over a set visits every member once, in some order *)
  set_iter_perm : ∀ s : gset Z, set_iter s ≡ₚ elements s;
  (** [np.argsort] returns a permutation of the positions ... *)
  np_argsort_perm : ∀ a : list Q, np_argsort a ≡ₚ indices (Z.of_nat (length a));
  (** ... along which the values do not decrease *)
  np_argsort_sorted : ∀ (a : list Q) (i j : nat) (x y : Z) (vx vy : Q),
    (i ≤ j)%nat → np_argsort a !! i = Some x → np_argsort a !! j = Some y →
    at_index a x = Some vx → at_index a y = Some vy → (vx <= vy)%Q;
  (** the factor matrices have one row per user and per item, and
      [n_components] columns *)
  truncated_svd_shape : ∀ (k seed : Z) (m : csr_matrix) (uf itf : list (list Q)),
    0 ≤ m.(shape).1 → 0 ≤ m.(shape).2 →
    truncated_svd k seed m = Ok (uf, itf) →
    Z.of_nat (length uf) = m.(shape).1 ∧ Z.of_nat (length itf) = m.(shape).2 ∧
    Forall (λ row, length row = Z.to_nat k) uf ∧
    Forall (λ row, length row = Z.to_nat k) itf
}.

(** ** A reference runtime and the scenario of the specification *)

Fixpoint insert_asc {A : Type} (key : A → Q) (x : A) (l : list A) : list A :=
  match l with
  | [] => [x]
  | y :: l' => if Qltb (key y) (key x) then y :: insert_asc key x l' else x :: y :: l'
  end.

Definition sort_asc {A : Type} (key : A → Q) (l : list A) : list A :=
  foldr (insert_asc key) [] l.

(** A stable [argsort]. *)
Definition stable_argsort (a : list Q) : list Z := fst <$> sort_asc snd (enumerate a).

(** A stand-in for the factorisation with the right shapes: the first
    latent coordinate of a user (an item) is the row (column) sum scaled by
    one tenth, the others are zero. *)
Definition rank_one_factors (k : Z) (sums : list Q) : list (list Q) :=
  (λ s, take (Z.to_nat k) ((s / (10 # 1))%Q :: replicate (Z.to_nat k - 1) (0 # 1)%Q)) <$> sums.

Definition rank_one_svd (k seed : Z) (m : csr_matrix)
  : result (list (list Q) * list (list Q)) :=
  if (k <=? 0) || (m.(shape).2 <? k) then Raise ValueError
  else Ok (rank_one_factors k (sum_axis1 m), rank_one_factors k (sum_axis0 m)).

(** A stand-in for the content similarity: [1] between items with the same
    text, one half otherwise; an empty table is rejected. *)
Definition text_similarity (max_features : Z) (texts : list string)
  : result (list (list Q)) :=
  match texts with
  | [] => Raise ValueError
  | _ => Ok ((λ s, (λ s', if decide (s = s') then (1 # 1)%Q else (1 # 2)%Q) <$> texts)
               <$> texts)
  end.

#[global] Instance reference_runtime : Runtime :=
  {| set_iter := elements;
     np_argsort := stable_argsort;
     truncated_svd := rank_one_svd;
     tfidf_cosine := text_similarity |}.

Definition mk_row (u i : string) (r : Z) : Row :=
  {| user_id := u; item_id := i; rating := inject_Z r |}.

(** interactions [(u1,i1,5), (u1,i2,3), (u2,i1,4), (u2,i3,2)] *)
Definition scenario_interactions : DataFrame :=
  {| has_rating := true;
     rows := [mk_row "u1" "i1" 5; mk_row "u1" "i2" 3; mk_row "u2" "i1" 4; mk_row "u2" "i3" 2] |}.

Definition scenario_items : ItemsFrame :=
  [ {[ "title" := "red shoes" ]}; {[ "title" := "red shoes" ]}; {[ "title" := "blue hat" ]} ].

Definition with_min_interactions (e : HybridRecommendationEngine.t) (n : Z)
  : HybridRecommendationEngine.t :=
  let dp := e.(HybridRecommendationEngine.data_processor) in
  {| HybridRecommendationEngine.cf_weight := e.(HybridRecommendationEngine.cf_weight);
     HybridRecommendationEngine.cb_weight := e.(HybridRecommendationEngine.cb_weight);
     HybridRecommendationEngine.data_processor :=
       {| DataProcessor.min_interactions := n;
          DataProcessor.user_encoder := dp.(DataProcessor.user_encoder);
          DataProcessor.item_encoder := dp.(DataProcessor.item_encoder);
          DataProcessor.user_decoder := dp.(DataProcessor.user_decoder);
          DataProcessor.item_decoder := dp.(DataProcessor.item_decoder) |};
     HybridRecommendationEngine.cf_model := e.(HybridRecommendationEngine.cf_model);
     HybridRecommendationEngine.cb_model := e.(HybridRecommendationEngine.cb_model);
     HybridRecommendationEngine.interaction_matrix :=
       e.(HybridRecommendationEngine.interaction_matrix);
     HybridRecommendationEngine.user_item_interactions :=
       e.(HybridRecommendationEngine.user_item_interactions);
     HybridRecommendationEngine.is_trained := e.(HybridRecommendationEngine.is_trained) |}.

(** The engine of the scenario: weights 0.7 and 0.3, [min_interactions = 1],
    two latent components. *)
Definition scenario_untrained : HybridRecommendationEngine.t :=
  let e := with_min_interactions (HybridRecommendationEngine.init (7 # 10) (3 # 10)) 1 in
  {| HybridRecommendationEngine.cf_weight := e.(HybridRecommendationEngine.cf_weight);
     HybridRecommendationEngine.cb_weight := e.(HybridRecommendationEngine.cb_weight);
     HybridRecommendationEngine.data_processor := e.(HybridRecommendationEngine.data_processor);
     HybridRecommendationEngine.cf_model := CollaborativeFilteringModel.init 2 42;
     HybridRecommendationEngine.cb_model := e.(HybridRecommendationEngine.cb_model);
     HybridRecommendationEngine.interaction_matrix := None;
     HybridRecommendationEngine.user_item_interactions := ∅;
     HybridRecommendationEngine.is_trained := false |}.

Definition scenario_engine : HybridRecommendationEngine.t :=
  (HybridRecommendationEngine.train scenario_untrained scenario_interactions
     scenario_items ["title"%string]).1.

(** ** Predicates used in the statements *)

(** A latent factor model after a complete [fit]: every attribute is set,
    the bias vectors are as long as the factor matrices have rows, and all
    factor rows have the same number of components. *)
Definition fitted (m : CollaborativeFilteringModel.t) : Prop :=
  match m.(CollaborativeFilteringModel.user_factors),
        m.(CollaborativeFilteringModel.item_factors),
        m.(CollaborativeFilteringModel.global_mean),
        m.(CollaborativeFilteringModel.user_biases),
        m.(CollaborativeFilteringModel.item_biases) with
  | Some uf, Some itf, Some _, Some ub, Some ib =>
      length ub = length uf ∧ length ib = length itf ∧
      ∃ k : nat, Forall (λ row, length row = k) uf ∧ Forall (λ row, length row = k) itf
  | _, _, _, _, _ => False
  end.

Definition n_users (m : CollaborativeFilteringModel.t) : Z :=
  Z.of_nat (length (default [] m.(CollaborativeFilteringModel.user_factors))).
Definition n_items (m : CollaborativeFilteringModel.t) : Z :=
  Z.of_nat (length (default [] m.(CollaborativeFilteringModel.item_factors))).

(** The score of the specification before clamping:
    [global_mean + user_bias[u] + item_bias[i] + dot(user_factors[u], item_factors[i])],
    at positions known to be in range. *)
Definition raw_score (m : CollaborativeFilteringModel.t) (u i : nat) : option Q :=
  gm ← m.(CollaborativeFilteringModel.global_mean);
  ub ← m.(CollaborativeFilteringModel.user_biases) ≫= (.!! u);
  ib ← m.(CollaborativeFilteringModel.item_biases) ≫= (.!! i);
  uf ← m.(CollaborativeFilteringModel.user_factors) ≫= (.!! u);
  itf ← m.(CollaborativeFilteringModel.item_factors) ≫= (.!! i);
  Some (gm + ub + ib + Qsum (zip_with Qmult uf itf))%Q.

(** The position of the first occurrence of [x] in a column. *)
Fixpoint first_index (x : string) (col : list string) : option nat :=
  match col with
  | [] => None
  | y :: col' => if decide (x = y) then Some 0%nat else S <$> first_index x col'
  end.

(** An encoder is a bijection between the distinct values of [col] and
    [[0, n)], numbering them by first occurrence, and [decoder] is its
    inverse. *)
Record encodes (col : list string) (encoder : gmap string Z) (decoder : gmap Z string)
  : Prop := {
  encodes_size : size encoder = size (list_to_set col : gset string);
  encodes_dom : ∀ x, is_Some (encoder !! x) ↔ x ∈ col;
  encodes_range : ∀ x k, encoder !! x = Some k → 0 ≤ k < Z.of_nat (size encoder);
  encodes_onto : ∀ k, 0 ≤ k < Z.of_nat (size encoder) → ∃ x, encoder !! x = Some k;
  encodes_inj : ∀ x y k, encoder !! x = Some k → encoder !! y = Some k → x = y;
  encodes_order : ∀ x y kx ky,
    encoder !! x = Some kx → encoder !! y = Some ky → kx < ky →
    ∃ px py, first_index x col = Some px ∧ first_index y col = Some py ∧ (px < py)%nat;
  encodes_inverse : ∀ x k, decoder !! k = Some x ↔ encoder !! x = Some k
}.

(** ** Concrete models and data for the examples *)

(** What [fit] computes for the one-user matrix [[3, 4]] with one latent
    component: mean 7/2, item biases -1/2 and 1/2, and the exact rank-one
    factorisation [5 * (3/5, 4/5)]. *)
Definition one_user_model : CollaborativeFilteringModel.t :=
  {| CollaborativeFilteringModel.n_components := 1;
     CollaborativeFilteringModel.random_state := 42;
     CollaborativeFilteringModel.user_factors := Some [[(5 # 1)%Q]];
     CollaborativeFilteringModel.item_factors := Some [[(3 # 5)%Q]; [(4 # 5)%Q]];
     CollaborativeFilteringModel.global_mean := Some (7 # 2)%Q;
     CollaborativeFilteringModel.user_biases := Some [(0 # 1)%Q];
     CollaborativeFilteringModel.item_biases := Some [(-1 # 2)%Q; (1 # 2)%Q] |}.

(** A fitted content model over two items. *)
Definition two_item_content : ContentBasedModel.t :=
  {| ContentBasedModel.max_features := 5000;
     ContentBasedModel.item_similarity_matrix :=
       Some [[(1 # 1)%Q; (1 # 2)%Q]; [(1 # 2)%Q; (1 # 1)%Q]] |}.

(** A second data set for the scenario engine: [u1] only interacts with
    [i3], [u2] with [i1] and [i3]. *)
Definition retrain_interactions : DataFrame :=
  {| has_rating := true;
     rows := [mk_row "u1" "i3" 4; mk_row "u2" "i1" 5; mk_row "u2" "i3" 2] |}.

(** A test set that shares no user with the scenario. *)
Definition foreign_interactions : DataFrame :=
  {| has_rating := true; rows := [mk_row "u9" "i1" 4; mk_row "u8" "i7" 2] |}.

(** What every call of [train] leaves behind: encoders, decoders and the
    interaction matrix come from one run of the preprocessing. *)
Record coherent (e : HybridRecommendationEngine.t) : Prop := {
  co_matrix : ∃ m, e.(HybridRecommendationEngine.interaction_matrix) = Some m ∧
    m.(shape) =
      (Z.of_nat (size e.(HybridRecommendationEngine.data_processor).(DataProcessor.user_encoder)),
       Z.of_nat (size e.(HybridRecommendationEngine.data_processor).(DataProcessor.item_encoder)));
  co_users : ∃ col,
    encodes col e.(HybridRecommendationEngine.data_processor).(DataProcessor.user_encoder)
                e.(HybridRecommendationEngine.data_processor).(DataProcessor.user_decoder);
  co_items : ∃ col,
    encodes col e.(HybridRecommendationEngine.data_processor).(DataProcessor.item_encoder)
                e.(HybridRecommendationEngine.data_processor).(DataProcessor.item_decoder)
}.

(** What a successful [train] leaves behind in addition: the latent factor
    model is fitted to the matrix of the same run. *)
Record well_trained (e : HybridRecommendationEngine.t) : Prop := {
  wt_flag : e.(HybridRecommendationEngine.is_trained) = true;
  wt_coherent : coherent e;
  wt_fitted : fitted e.(HybridRecommendationEngine.cf_model);
  wt_n_users : n_users e.(HybridRecommendationEngine.cf_model) =
    Z.of_nat (size e.(HybridRecommendationEngine.data_processor).(DataProcessor.user_encoder));
  wt_n_items : n_items e.(HybridRecommendationEngine.cf_model) =
    Z.of_nat (size e.(HybridRecommendationEngine.data_processor).(DataProcessor.item_encoder))
}.

(** The engine [e] with another content model. *)
Definition with_cb_model (e : HybridRecommendationEngine.t) (cb : ContentBasedModel.t)
  : HybridRecommendationEngine.t :=
  {| HybridRecommendationEngine.cf_weight := e.(HybridRecommendationEngine.cf_weight);
     HybridRecommendationEngine.cb_weight := e.(HybridRecommendationEngine.cb_weight);
     HybridRecommendationEngine.data_processor := e.(HybridRecommendationEngine.data_processor);
     HybridRecommendationEngine.cf_model := e.(HybridRecommendationEngine.cf_model);
     HybridRecommendationEngine.cb_model := cb;
     HybridRecommendationEngine.interaction_matrix :=
       e.(HybridRecommendationEngine.interaction_matrix);
     HybridRecommendationEngine.user_item_interactions :=
       e.(HybridRecommendationEngine.user_item_interactions);
     HybridRecommendationEngine.is_trained := e.(HybridRecommendationEngine.is_trained) |}.

(** The scenario trained with a catalogue table that only has rows for the
    first two items. *)
Definition small_catalog_engine : HybridRecommendationEngine.t :=
  (HybridRecommendationEngine.train scenario_untrained scenario_interactions
     (take 2 scenario_items) ["title"%string]).1.

(** The scenario engine after a training call that names a feature column
    the items table does not have. *)
Definition failed_engine : HybridRecommendationEngine.t :=
  (HybridRecommendationEngine.train scenario_untrained scenario_interactions
     scenario_items ["genre"%string]).1.

(** The scenario engine after a second training call that fails in the
    content model: the flag of the first run stays set. *)
Definition failed_retrain_engine : HybridRecommendationEngine.t :=
  (HybridRecommendationEngine.train scenario_engine retrain_interactions
     scenario_items ["genre"%string]).1.

(** The items table that goes with [retrain_interactions]. *)
Definition retrain_items : ItemsFrame :=
  [ {[ "title" := "blue hat" ]}; {[ "title" := "red shoes" ]} ].

(** The scenario engine trained a second time, and a fresh engine trained
    on the second data set only. *)
Definition retrained_engine : HybridRecommendationEngine.t :=
  (HybridRecommendationEngine.train scenario_engine retrain_interactions
     retrain_items ["title"%string]).1.

Definition fresh_engine : HybridRecommendationEngine.t :=
  (HybridRecommendationEngine.train scenario_untrained retrain_interactions
     retrain_items ["title"%string]).1.

(** The rows of a test table whose user and item are both known to the
    encoders of [e]. *)
Definition retained (e : HybridRecommendationEngine.t) (test : DataFrame) : list Row :=
  filter (λ r, is_Some (e.(HybridRecommendationEngine.data_processor)
                          .(DataProcessor.user_encoder) !! user_id r)
               ∧ is_Some (e.(HybridRecommendationEngine.data_processor)
                            .(DataProcessor.item_encoder) !! item_id r))
         test.(rows).

(** The actual values [evaluate] compares the predictions with. *)
Definition actual_ratings (test : DataFrame) (kept : list Row) : list Q :=
  (λ r, if test.(has_rating) then rating r else (1 # 1)%Q) <$> kept.

(** Ascending order of keys, for the sortedness of [sort_asc]. *)
Definition key_le {A : Type} (key : A → Q) (a b : A) : Prop := (key a <= key b)%Q.

(** ** Further notions used in the statements about the rest of the code *)

(** The key [drop_duplicates] compares rows by. *)
Definition pair_of (r : Row) : string * string := (user_id r, item_id r).

(** The first row of a table with a given (user, item) pair. *)
Fixpoint first_row (p : string * string) (l : list Row) : option Row :=
  match l with
  | [] => None
  | r :: l' => if decide (pair_of r = p) then Some r else first_row p l'
  end.

(** How often a value occurs in a column. *)
Fixpoint occurrences (x : string) (col : list string) : Z :=
  match col with
  | [] => 0
  | y :: col' => (if decide (x = y) then 1 else 0) + occurrences x col'
  end.

(** The order [list.sort(key=score, reverse=True)] leaves pairs
    [(index, score)] in when they were enumerated by ascending index: a
    higher score first, and the lower index first among equal scores. *)
Definition ranked_before (a b : Z * Q) : Prop :=
  (b.2 < a.2)%Q ∨ ((b.2 == a.2)%Q ∧ a.1 < b.1).

(** The scenario's second data set trained with the three-row items table
    of the first: the content model then knows an index the decoder lacks. *)
Definition wide_catalog_engine : HybridRecommendationEngine.t :=
  (HybridRecommendationEngine.train scenario_untrained retrain_interactions
     scenario_items ["title"%string]).1.

(** Descending by key, and by the relation [B] among equal keys. *)
Definition ranked_by {A : Type} (key : A → Q) (B : relation A) (a b : A) : Prop :=
  (key b < key a)%Q ∨ ((key b == key a)%Q ∧ B a b).

(** Ascending by index. *)
Definition index_lt (a b : Z * Q) : Prop := a.1 < b.1.

(** A matrix of three users and a single item. *)
Definition one_item_matrix : csr_matrix :=
  {| shape := (3, 1);
     entries := [(0, 0, (5 # 1)%Q); (1, 0, (4 # 1)%Q); (2, 0, (3 # 1)%Q)] |}.

(** * Proofs *)

#[local] Set Warnings "-clear-no-such-hyp".

(** ** The result monad and Python containers *)

Lemma mapM_result_Ok {A B : Type} (f : A → result B) (g : A → B) (l : list A) :
  (∀ a, a ∈ l → f a = Ok (g a)) → mapM_result f l = Ok (g <$> l).
Proof.
  induction l as [|a l IH]; intros Hf; [done|].
  cbn. rewrite (Hf a) by left. cbn.
  rewrite IH; [done|]. intros b Hb. apply Hf. by right.
Qed.

Lemma mapM_result_inv {A B : Type} (f : A → result B) (l : list A) (bs : list B) :
  mapM_result f l = Ok bs → Forall2 (λ a b, f a = Ok b) l bs.
Proof.
  revert bs. induction l as [|a l IH]; intros bs Hm; cbn in Hm.
  - injection Hm as <-. constructor.
  - destruct (f a) as [b|e] eqn:Hfa; cbn in Hm; [|discriminate].
    destruct (mapM_result f l) as [bs'|e] eqn:Hl; cbn in Hm; [|discriminate].
    injection Hm as <-. constructor; [done|]. by apply IH.
Qed.

Lemma getitem_nat {A : Type} (l : list A) (k : nat) (x : A) :
  l !! k = Some x → getitem l (Z.of_nat k) = Ok x.
Proof.
  intros Hk. pose proof (lookup_lt_Some _ _ _ Hk) as Hlt.
  unfold getitem.
  destruct (Z.ltb_spec (Z.of_nat k) 0) as [?|_]; [lia|].
  destruct (Z.leb_spec 0 (Z.of_nat k)) as [_|?]; [|lia].
  destruct (Z.ltb_spec (Z.of_nat k) (Z.of_nat (length l))) as [_|?]; [|lia].
  cbn. by rewrite Nat2Z.id, Hk.
Qed.

Lemma getitem_in_range {A : Type} (l : list A) (i : Z) :
  0 ≤ i < Z.of_nat (length l) → ∃ x, l !! Z.to_nat i = Some x ∧ getitem l i = Ok x.
Proof.
  intros Hi. destruct (lookup_lt_is_Some_2 l (Z.to_nat i)) as [x Hx]; [lia|].
  exists x. split; [done|]. rewrite <- (Z2Nat.id i) by lia. by apply getitem_nat.
Qed.

Lemma elem_of_slice_to {A : Type} (l : list A) (n : Z) (x : A) :
  x ∈ slice_to l n → x ∈ l.
Proof.
  unfold slice_to. destruct (n <? 0); intros Hx;
    (eapply elem_of_sublist; [exact Hx|apply sublist_take]).
Qed.

Lemma length_slice_to {A : Type} (l : list A) (n : Z) :
  0 ≤ n → length (slice_to l n) = (Z.to_nat n `min` length l)%nat.
Proof.
  intros Hn. unfold slice_to.
  destruct (Z.ltb_spec n 0) as [?|_]; [lia|]. by rewrite length_take.
Qed.

Lemma elem_of_enumerate_from {A : Type} (l : list A) (k i : Z) (x : A) :
  (i, x) ∈ enumerate_from k l ↔ ∃ j : nat, i = k + Z.of_nat j ∧ l !! j = Some x.
Proof.
  revert k. induction l as [|a l IH]; intros k; cbn.
  - split; [by intros ?%elem_of_nil|]. by intros (j & _ & ?).
  - rewrite elem_of_cons, IH. split.
    + intros [[= -> ->]|(j & -> & Hj)].
      * exists 0%nat. split; [lia|done].
      * exists (S j). split; [lia|done].
    + intros ([|j] & -> & Hj); cbn in Hj.
      * left. injection Hj as ->. f_equal. lia.
      * right. exists j. split; [lia|done].
Qed.

Lemma elem_of_enumerate {A : Type} (l : list A) (i : Z) (x : A) :
  (i, x) ∈ enumerate l ↔ ∃ j : nat, i = Z.of_nat j ∧ l !! j = Some x.
Proof. unfold enumerate. rewrite elem_of_enumerate_from. by setoid_rewrite Z.add_0_l. Qed.

Lemma enumerate_from_fst {A : Type} (l : list A) (k : Z) :
  (enumerate_from k l).*1 = (λ j : nat, k + Z.of_nat j) <$> seq 0 (length l).
Proof.
  revert k. induction l as [|a l IH]; intros k; [done|].
  cbn. rewrite IH. f_equal; [lia|].
  rewrite <- (fmap_S_seq 0), <- list_fmap_compose. apply list_fmap_ext.
  intros ? j _. cbn. lia.
Qed.

Lemma enumerate_from_snd {A : Type} (l : list A) (k : Z) : (enumerate_from k l).*2 = l.
Proof. revert k. induction l as [|a l IH]; intros k; [done|]. cbn. by rewrite IH. Qed.

(** ** Sorting *)

Lemma insert_desc_perm {A : Type} (key : A → Q) (x : A) (l : list A) :
  insert_desc key x l ≡ₚ x :: l.
Proof.
  induction l as [|y l IH]; [done|]. cbn.
  destruct (Qltb (key x) (key y)); [|done].
  rewrite IH. apply Permutation_swap.
Qed.

Lemma sort_desc_perm {A : Type} (key : A → Q) (l : list A) : sort_desc key l ≡ₚ l.
Proof.
  induction l as [|x l IH]; [done|].
  unfold sort_desc in *. cbn. by rewrite insert_desc_perm, IH.
Qed.

Lemma elem_of_sort_desc {A : Type} (key : A → Q) (l : list A) (x : A) :
  x ∈ sort_desc key l ↔ x ∈ l.
Proof. by rewrite sort_desc_perm. Qed.

(** ** Rational arithmetic *)

Lemma Qltb_lt (x y : Q) : Qltb x y = true ↔ (x < y)%Q.
Proof.
  unfold Qltb. rewrite negb_true_iff. split.
  - intros Hb. apply Qnot_le_lt. intros Hle%Qle_bool_iff. congruence.
  - intros Hlt. destruct (Qle_bool y x) eqn:Hb; [|done].
    apply Qle_bool_iff in Hb. exfalso. by eapply Qlt_not_le.
Qed.

Lemma Qltb_ge (x y : Q) : Qltb x y = false ↔ (y <= x)%Q.
Proof. unfold Qltb. rewrite negb_false_iff. apply Qle_bool_iff. Qed.

Lemma clamp_bounds (x : Q) :
  (0 <= CollaborativeFilteringModel.clamp x)%Q ∧ (CollaborativeFilteringModel.clamp x <= 5)%Q.
Proof.
  unfold CollaborativeFilteringModel.clamp, py_max, py_min.
  destruct (Qltb x (5 # 1)) eqn:H5.
  - apply Qltb_lt in H5. destruct (Qltb (0 # 1) x) eqn:H0.
    + apply Qltb_lt in H0. split; lra.
    + split; lra.
  - destruct (Qltb (0 # 1) (5 # 1)) eqn:H0; split; lra.
Qed.

Lemma clamp_proper (x y : Q) :
  (x == y)%Q → (CollaborativeFilteringModel.clamp x == CollaborativeFilteringModel.clamp y)%Q.
Proof.
  intros Hxy. unfold CollaborativeFilteringModel.clamp, py_max, py_min.
  destruct (Qltb x (5 # 1)) eqn:Hx5; destruct (Qltb y (5 # 1)) eqn:Hy5;
    try apply Qltb_lt in Hx5; try apply Qltb_lt in Hy5;
    try apply Qltb_ge in Hx5; try apply Qltb_ge in Hy5; try lra.
  destruct (Qltb (0 # 1) x) eqn:Hx0; destruct (Qltb (0 # 1) y) eqn:Hy0;
    try apply Qltb_lt in Hx0; try apply Qltb_lt in Hy0;
    try apply Qltb_ge in Hx0; try apply Qltb_ge in Hy0; lra.
Qed.

Lemma clamp_inside (x : Q) :
  (0 <= x)%Q → (x <= 5)%Q → (CollaborativeFilteringModel.clamp x == x)%Q.
Proof.
  intros H0 H5. unfold CollaborativeFilteringModel.clamp, py_max, py_min.
  destruct (Qltb x (5 # 1)) eqn:Hx5.
  - destruct (Qltb (0 # 1) x) eqn:Hx0; [reflexivity|]. apply Qltb_ge in Hx0. lra.
  - apply Qltb_ge in Hx5.
    destruct (Qltb (0 # 1) (5 # 1)) eqn:H05; [lra|]. vm_compute in H05. discriminate.
Qed.

Lemma foldl_Qplus_proper (l l' : list Q) (a a' : Q) :
  (a == a')%Q → Forall2 Qeq l l' → (foldl Qplus a l == foldl Qplus a' l')%Q.
Proof.
  intros Ha Hl. revert a a' Ha. induction Hl as [|x y l l' Hxy _ IH]; intros a a' Ha; [done|].
  cbn. apply IH. by rewrite Ha, Hxy.
Qed.

Lemma Qsum_zip_comm (a b : list Q) :
  (Qsum (zip_with Qmult a b) == Qsum (zip_with Qmult b a))%Q.
Proof.
  apply foldl_Qplus_proper; [reflexivity|].
  revert b. induction a as [|x a IH]; intros [|y b]; cbn; try constructor.
  - apply Qmult_comm.
  - apply IH.
Qed.

(** ** The latent factor model *)

Lemma np_dot_same_length (a b : list Q) :
  length a = length b → CollaborativeFilteringModel.np_dot a b = Ok (Qsum (zip_with Qmult a b)).
Proof.
  intros Hab. unfold CollaborativeFilteringModel.np_dot.
  by rewrite Hab, Nat.eqb_refl.
Qed.

Lemma predict_fitted (m : CollaborativeFilteringModel.t) (u i : Z) :
  fitted m → 0 ≤ u < n_users m → 0 ≤ i < n_items m →
  ∃ s, raw_score m (Z.to_nat u) (Z.to_nat i) = Some s ∧
       CollaborativeFilteringModel.predict m u i = Ok (CollaborativeFilteringModel.clamp s).
Proof.
  destruct m as [k seed [uf|] [itf|] [gm|] [ub|] [ib|]]; cbn; try done.
  unfold n_users, n_items. cbn. intros (Hub & Hib & c & Huf & Hitf) Hu Hi.
  destruct (getitem_in_range uf u) as (urow & Hurow & Hgu); [lia|].
  destruct (getitem_in_range itf i) as (irow & Hirow & Hgi); [lia|].
  destruct (getitem_in_range ub u) as (bu & Hbu & Hgbu); [lia|].
  destruct (getitem_in_range ib i) as (bi & Hbi & Hgbi); [lia|].
  exists (gm + bu + bi + Qsum (zip_with Qmult urow irow))%Q.
  unfold raw_score, CollaborativeFilteringModel.predict. cbn.
  rewrite Hbu, Hbi, Hurow, Hirow. cbn. split; [done|].
  destruct (Z.geb_spec u (Z.of_nat (length uf))) as [?|_]; [lia|]. cbn.
  destruct (Z.geb_spec i (Z.of_nat (length itf))) as [?|_]; [lia|]. cbn.
  rewrite Hgbu. cbn. rewrite Hgbi. cbn. rewrite Hgu. cbn. rewrite Hgi. cbn.
  rewrite np_dot_same_length; [done|].
  rewrite Forall_lookup in Huf, Hitf.
  by rewrite (Huf _ _ Hurow), (Hitf _ _ Hirow).
Qed.

Lemma predict_beyond_range (m : CollaborativeFilteringModel.t) (u i : Z) :
  fitted m → n_users m ≤ u ∨ (0 ≤ u ∧ n_items m ≤ i) →
  ∃ gm, m.(CollaborativeFilteringModel.global_mean) = Some gm ∧
        CollaborativeFilteringModel.predict m u i = Ok gm.
Proof.
  destruct m as [k seed [uf|] [itf|] [gm|] [ub|] [ib|]]; cbn; try done.
  unfold n_users, n_items. cbn. intros _ Hout. exists gm. split; [done|].
  unfold CollaborativeFilteringModel.predict. cbn.
  destruct (Z.geb_spec u (Z.of_nat (length uf))) as [?|?]; cbn; [done|].
  destruct (Z.geb_spec i (Z.of_nat (length itf))) as [?|?]; cbn; [done|lia].
Qed.

Lemma recommendations_beyond_range (m : CollaborativeFilteringModel.t) (u n : Z)
    (exclude : option (gset Z)) :
  fitted m → n_users m ≤ u →
  CollaborativeFilteringModel.get_user_recommendations m u n exclude = Ok [].
Proof.
  destruct m as [k seed [uf|] [itf|] [gm|] [ub|] [ib|]]; cbn; try done.
  unfold n_users. cbn. intros _ Hout.
  unfold CollaborativeFilteringModel.get_user_recommendations. cbn.
  destruct (Z.geb_spec u (Z.of_nat (length uf))) as [?|?]; [done|lia].
Qed.

Lemma similar_items_beyond_range (cb : ContentBasedModel.t) (m : list (list Q)) (i n : Z) :
  cb.(ContentBasedModel.item_similarity_matrix) = Some m → Z.of_nat (length m) ≤ i →
  ContentBasedModel.get_similar_items cb i n = Ok [].
Proof.
  intros Hm Hout. unfold ContentBasedModel.get_similar_items. rewrite Hm.
  destruct (Z.geb_spec i (Z.of_nat (length m))) as [?|?]; [done|lia].
Qed.

(** The scores of the batch scorer on a fitted model, before filtering and
    sorting: position [i] holds the unclamped score of item [i], summed in
    the order [(dot + item_bias) + (user_bias + global_mean)]. *)
Lemma recommendations_fitted (m : CollaborativeFilteringModel.t) (u n : Z)
    (exclude : option (gset Z)) :
  fitted m → 0 ≤ u < n_users m →
  ∃ recs, CollaborativeFilteringModel.get_user_recommendations m u n exclude = Ok recs ∧
    ∀ i s, (i, s) ∈ recs →
      (i ∉ default ∅ exclude) ∧ 0 ≤ i < n_items m ∧
      ∃ s', raw_score m (Z.to_nat u) (Z.to_nat i) = Some s' ∧ (s == s')%Q.
Proof.
  destruct m as [k seed [uf|] [itf|] [gm|] [ub|] [ib|]]; cbn; try done.
  unfold n_users, n_items. cbn. intros (Hub & Hib & c & Huf & Hitf) Hu.
  destruct (getitem_in_range uf u) as (urow & Hurow & Hgu); [lia|].
  destruct (getitem_in_range ub u) as (bu & Hbu & Hgbu); [lia|].
  assert (Hlen : length urow = c) by (rewrite Forall_lookup in Huf; eauto).
  unfold CollaborativeFilteringModel.get_user_recommendations. cbn.
  destruct (Z.geb_spec u (Z.of_nat (length uf))) as [?|_]; [lia|].
  rewrite Hgu. cbn.
  rewrite (mapM_result_Ok _ (λ row, Qsum (zip_with Qmult row urow))); last first.
  { intros row Hrow. apply np_dot_same_length.
    rewrite Forall_forall in Hitf. rewrite (Hitf _ Hrow). done. }
  cbn. unfold CollaborativeFilteringModel.np_iadd.
  rewrite length_fmap, Hib, Nat.eqb_refl. cbn. rewrite Hgbu. cbn.
  eexists. split; [done|].
  intros i s Hin%elem_of_slice_to%elem_of_sort_desc%list_elem_of_filter.
  destruct Hin as [Hex Hin]. cbn in Hex.
  apply elem_of_enumerate in Hin as (j & -> & Hj).
  rewrite list_lookup_fmap, lookup_zip_with in Hj.
  rewrite list_lookup_fmap in Hj.
  destruct (itf !! j) as [irow|] eqn:Hirow; cbn in Hj; [|done].
  destruct (ib !! j) as [bi|] eqn:Hbi; cbn in Hj; [|done].
  injection Hj as <-.
  pose proof (lookup_lt_Some _ _ _ Hirow).
  split; [done|]. split; [lia|].
  unfold raw_score. cbn. rewrite Nat2Z.id, Hbu, Hbi, Hurow, Hirow. cbn.
  eexists. split; [done|].
  rewrite (Qsum_zip_comm irow urow). ring.
Qed.

Lemma one_user_model_fitted : fitted one_user_model.
Proof. cbn. repeat split. exists 1%nat. split; repeat constructor. Qed.

(** C7. On a fitted latent factor model, [predict(u, i)] for a user index
    and an item index inside the fitted range returns a value, and the
    value lies in the closed interval from 0 to 5. *)
Theorem predict_within_bounds (m : CollaborativeFilteringModel.t) (u i : Z) :
  fitted m → 0 ≤ u < n_users m → 0 ≤ i < n_items m →
  ∃ v, CollaborativeFilteringModel.predict m u i = Ok v ∧ (0 <= v)%Q ∧ (v <= 5)%Q.
Proof.
  intros Hm Hu Hi.
  destruct (predict_fitted m u i Hm Hu Hi) as (s & _ & ->).
  eexists. split; [done|]. apply clamp_bounds.
Qed.

Lemma predict_within_bounds_witness :
  fitted one_user_model ∧ 0 ≤ 0 < n_users one_user_model ∧ 0 ≤ 1 < n_items one_user_model ∧
  ∃ v, CollaborativeFilteringModel.predict one_user_model 0 1 = Ok v ∧ (0 <= v)%Q ∧ (v <= 5)%Q.
Proof.
  assert (Hu : 0 ≤ 0 < n_users one_user_model) by (vm_compute; split; [discriminate|done]).
  assert (Hi : 0 ≤ 1 < n_items one_user_model) by (vm_compute; split; [discriminate|done]).
  split; [exact one_user_model_fitted|]. split; [exact Hu|]. split; [exact Hi|].
  exact (predict_within_bounds one_user_model 0 1 one_user_model_fitted Hu Hi).
Defined.

(** C2, as the code has it.  On a fitted model and for a user index inside
    the fitted range, [get_user_recommendations] returns normally, and each
    returned pair [(item_idx, score)] carries the score before clamping,
    [global_mean + user_bias[u] + item_bias[i] + dot(user_factors[u], item_factors[i])];
    [predict(u, item_idx)] is that score clamped to the interval from 0 to
    5, so the two agree whenever the score lies in that interval. *)
Theorem batch_score_is_unclamped_predict (m : CollaborativeFilteringModel.t) (u n : Z)
    (exclude : option (gset Z)) :
  fitted m → 0 ≤ u < n_users m →
  ∃ recs, CollaborativeFilteringModel.get_user_recommendations m u n exclude = Ok recs ∧
    ∀ i s, (i, s) ∈ recs →
      ∃ raw v, raw_score m (Z.to_nat u) (Z.to_nat i) = Some raw ∧ (s == raw)%Q ∧
               CollaborativeFilteringModel.predict m u i = Ok v ∧
               (v == CollaborativeFilteringModel.clamp s)%Q ∧
               ((0 <= s)%Q → (s <= 5)%Q → (v == s)%Q).
Proof.
  intros Hm Hu.
  destruct (recommendations_fitted m u n exclude Hm Hu) as (recs & Hrecs & Hall).
  exists recs. split; [done|]. intros i s Hin.
  destruct (Hall i s Hin) as (_ & Hi & raw & Hraw & Hs).
  destruct (predict_fitted m u i Hm Hu Hi) as (raw' & Hraw' & Hp).
  assert (raw' = raw) as -> by congruence.
  exists raw, (CollaborativeFilteringModel.clamp raw).
  split; [done|]. split; [done|]. split; [done|].
  assert (Hc : (CollaborativeFilteringModel.clamp raw == CollaborativeFilteringModel.clamp s)%Q)
    by (apply clamp_proper; by symmetry).
  split; [done|]. intros H0 H5. rewrite Hc. by apply clamp_inside.
Qed.

Lemma batch_score_is_unclamped_predict_witness :
  fitted one_user_model ∧ 0 ≤ 0 < n_users one_user_model ∧
  ∃ recs, CollaborativeFilteringModel.get_user_recommendations one_user_model 0 1 None = Ok recs ∧
    ∀ i s, (i, s) ∈ recs →
      ∃ raw v, raw_score one_user_model (Z.to_nat 0) (Z.to_nat i) = Some raw ∧ (s == raw)%Q ∧
               CollaborativeFilteringModel.predict one_user_model 0 i = Ok v ∧
               (v == CollaborativeFilteringModel.clamp s)%Q ∧
               ((0 <= s)%Q → (s <= 5)%Q → (v == s)%Q).
Proof.
  assert (Hu : 0 ≤ 0 < n_users one_user_model) by (vm_compute; split; [discriminate|done]).
  split; [exact one_user_model_fitted|]. split; [exact Hu|].
  exact (batch_score_is_unclamped_predict one_user_model 0 1 None one_user_model_fitted Hu).
Defined.

(** C2 as stated fails: on the model fitted to the one-user matrix [[3, 4]]
    the batch scorer returns item 1 with score 8, and [predict(0, 1)] is 5. *)
Lemma batch_score_differs_from_predict :
  fitted one_user_model ∧
  CollaborativeFilteringModel.get_user_recommendations one_user_model 0 10 None
    = Ok [(1, (160 # 20)%Q); (0, (120 # 20)%Q)] ∧
  CollaborativeFilteringModel.predict one_user_model 0 1 = Ok (5 # 1)%Q ∧
  ¬ (160 # 20 == 5 # 1)%Q.
Proof.
  split; [exact one_user_model_fitted|]. split; [reflexivity|]. split; [reflexivity|].
  intros H. vm_compute in H. discriminate.
Qed.

(** C3 at negative indices.  The guards only compare an index with the
    upper end of the fitted range: index [-1] is served as the last row (no
    default, no empty list), and an index below [-len] raises [IndexError]. *)
Theorem negative_index_is_not_defaulted :
  fitted one_user_model ∧
  one_user_model.(CollaborativeFilteringModel.global_mean) = Some (7 # 2)%Q ∧
  CollaborativeFilteringModel.predict one_user_model (-1) 0 = Ok (5 # 1)%Q ∧
  CollaborativeFilteringModel.predict one_user_model (-2) 0 = Raise IndexError ∧
  CollaborativeFilteringModel.get_user_recommendations one_user_model (-1) 10 None
    = Ok [(1, (160 # 20)%Q); (0, (120 # 20)%Q)] ∧
  CollaborativeFilteringModel.get_user_recommendations one_user_model (-2) 10 None
    = Raise IndexError ∧
  ContentBasedModel.get_similar_items two_item_content (-1) 10
    = Ok [(1, (1 # 1)%Q); (0, (1 # 2)%Q)] ∧
  ContentBasedModel.get_similar_items two_item_content (-3) 10 = Raise IndexError.
Proof. split; [exact one_user_model_fitted|]. repeat split. Qed.

(** The part of C3 the guards do cover: an index at or beyond the upper end
    of the fitted range gives [global_mean], respectively the empty list. *)
Lemma index_beyond_range_is_defaulted (m : CollaborativeFilteringModel.t)
    (cb : ContentBasedModel.t) (sim : list (list Q)) (u i n : Z) (exclude : option (gset Z)) :
  fitted m → cb.(ContentBasedModel.item_similarity_matrix) = Some sim →
  (n_users m ≤ u →
     CollaborativeFilteringModel.predict m u i
       = subscriptable m.(CollaborativeFilteringModel.global_mean) ∧
     CollaborativeFilteringModel.get_user_recommendations m u n exclude = Ok []) ∧
  (0 ≤ u → n_items m ≤ i →
     CollaborativeFilteringModel.predict m u i
       = subscriptable m.(CollaborativeFilteringModel.global_mean)) ∧
  (Z.of_nat (length sim) ≤ i → ContentBasedModel.get_similar_items cb i n = Ok []).
Proof.
  intros Hm Hsim. split; [|split].
  - intros Hu. split; [|by apply recommendations_beyond_range].
    destruct (predict_beyond_range m u i Hm) as (gm & -> & ->); [by left|done].
  - intros Hu Hi.
    destruct (predict_beyond_range m u i Hm) as (gm & -> & ->); [by right|done].
  - intros Hi. by eapply similar_items_beyond_range.
Qed.

(** ** Dictionaries built by comprehension *)

Lemma dict_of_snoc `{Countable K} {V : Type} (l : list (K * V)) (k : K) (v : V) :
  dict_of (l ++ [(k, v)]) = <[k := v]> (dict_of l).
Proof. unfold dict_of. by rewrite foldl_app. Qed.

Lemma dict_of_lookup_Some `{Countable K} {V : Type} (l : list (K * V)) (k : K) (v : V) :
  NoDup l.*1 → dict_of l !! k = Some v ↔ (k, v) ∈ l.
Proof.
  induction l as [|[k' v'] l IH] using rev_ind; intros Hnd.
  - unfold dict_of. cbn. rewrite lookup_empty. split; [done|by intros ?%elem_of_nil].
  - rewrite fmap_app in Hnd. apply NoDup_app in Hnd as (Hnd & Hfresh & _).
    rewrite dict_of_snoc, elem_of_app, list_elem_of_singleton.
    destruct (decide (k' = k)) as [->|Hne].
    + rewrite lookup_insert_eq. split.
      * intros [= ->]. by right.
      * intros [Hin|[= ->]]; [|done].
        exfalso. apply (Hfresh k); [|cbn; left].
        apply list_elem_of_fmap. by exists (k, v).
    + rewrite lookup_insert_ne by done. rewrite IH by done.
      split; [by left|]. intros [?|[= ? ?]]; [done|congruence].
Qed.

Lemma dict_of_lookup_None `{Countable K} {V : Type} (l : list (K * V)) (k : K) :
  k ∉ l.*1 → dict_of l !! k = None.
Proof.
  induction l as [|[k' v'] l IH] using rev_ind; intros Hk; [done|].
  rewrite fmap_app, not_elem_of_app in Hk. destruct Hk as [Hk Hk'].
  rewrite dict_of_snoc, lookup_insert_ne; [by apply IH|].
  intros ->. apply Hk'. cbn. left.
Qed.

Lemma dict_of_dom `{Countable K} {V : Type} (l : list (K * V)) (k : K) :
  is_Some (dict_of l !! k) → k ∈ l.*1.
Proof.
  intros Hk. destruct (decide (k ∈ l.*1)) as [|Hn]; [done|].
  rewrite (dict_of_lookup_None l k Hn) in Hk. by destruct Hk.
Qed.

Lemma dict_of_size `{Countable K} {V : Type} (l : list (K * V)) :
  NoDup l.*1 → size (dict_of l) = length l.
Proof.
  induction l as [|[k' v'] l IH] using rev_ind; intros Hnd; [done|].
  rewrite fmap_app in Hnd. apply NoDup_app in Hnd as (Hnd & Hfresh & _).
  rewrite dict_of_snoc, length_app, map_size_insert_None, IH by
    (done || (apply dict_of_lookup_None; intros Hin; apply (Hfresh _ Hin); cbn; left)).
  cbn. lia.
Qed.

(** ** [unique]: distinct values in order of first appearance *)

Lemma elem_of_unique_from (seen : gset string) (col : list string) (x : string) :
  x ∈ DataProcessor.unique_from seen col ↔ x ∈ col ∧ x ∉ seen.
Proof.
  revert seen. induction col as [|y col IH]; intros seen; cbn.
  - split; [by intros ?%elem_of_nil|]. by intros [?%elem_of_nil _].
  - destruct (decide (y ∈ seen)) as [Hy|Hy].
    + rewrite IH, elem_of_cons. split; [naive_solver|].
      intros [[->|?] ?]; [done|by split].
    + rewrite !elem_of_cons, IH. split.
      * intros [->|[? ?]]; [split; [by left|done]|]. split; [by right|set_solver].
      * intros [[->|?] ?]; [by left|].
        destruct (decide (x = y)) as [->|?]; [by left|]. right. split; [done|set_solver].
Qed.

Lemma NoDup_unique_from (seen : gset string) (col : list string) :
  NoDup (DataProcessor.unique_from seen col).
Proof.
  revert seen. induction col as [|y col IH]; intros seen; cbn; [constructor|].
  destruct (decide (y ∈ seen)); [apply IH|].
  constructor; [|apply IH]. rewrite elem_of_unique_from. set_solver.
Qed.

Lemma elem_of_unique (col : list string) (x : string) :
  x ∈ DataProcessor.unique col ↔ x ∈ col.
Proof. unfold DataProcessor.unique. rewrite elem_of_unique_from. set_solver. Qed.

Lemma NoDup_unique (col : list string) : NoDup (DataProcessor.unique col).
Proof. apply NoDup_unique_from. Qed.

Lemma first_index_cons_ne (x y : string) (col : list string) :
  x ≠ y → first_index x (y :: col) = S <$> first_index x col.
Proof. intros Hne. cbn. by destruct (decide (x = y)). Qed.

Lemma unique_from_order (seen : gset string) (col : list string) (j1 j2 : nat)
    (x y : string) :
  DataProcessor.unique_from seen col !! j1 = Some x →
  DataProcessor.unique_from seen col !! j2 = Some y →
  (j1 < j2)%nat →
  ∃ p1 p2, first_index x col = Some p1 ∧ first_index y col = Some p2 ∧ (p1 < p2)%nat.
Proof.
  revert seen j1 j2. induction col as [|z col IH]; intros seen j1 j2 H1 H2 Hlt; [done|].
  cbn in H1, H2. destruct (decide (z ∈ seen)) as [Hz|Hz].
  - assert (x ≠ z ∧ y ≠ z) as [Hxz Hyz].
    { apply list_elem_of_lookup_2, elem_of_unique_from in H1.
      apply list_elem_of_lookup_2, elem_of_unique_from in H2. set_solver. }
    destruct (IH seen j1 j2 H1 H2 Hlt) as (p1 & p2 & Hp1 & Hp2 & Hp).
    exists (S p1), (S p2). rewrite !first_index_cons_ne, Hp1, Hp2 by done.
    repeat split; try done; lia.
  - destruct j2 as [|j2]; [lia|]. cbn in H2.
    assert (y ≠ z) as Hyz.
    { apply list_elem_of_lookup_2, elem_of_unique_from in H2. set_solver. }
    destruct j1 as [|j1].
    + injection H1 as <-.
      assert (is_Some (first_index y col)) as [p2 Hp2].
      { apply list_elem_of_lookup_2, elem_of_unique_from in H2 as [Hy _].
        clear -Hy. induction col as [|w col IH]; [by apply elem_of_nil in Hy|].
        cbn. destruct (decide (y = w)); [done|].
        apply elem_of_cons in Hy as [?|Hy]; [done|].
        destruct (IH Hy) as [p ->]. done. }
      exists 0%nat, (S p2). rewrite (first_index_cons_ne y z), Hp2 by done.
      cbn. destruct (decide (z = z)); [|done]. repeat split; try done; lia.
    + cbn in H1.
      assert (x ≠ z) as Hxz.
      { apply list_elem_of_lookup_2, elem_of_unique_from in H1. set_solver. }
      destruct (IH _ j1 j2 H1 H2 ltac:(lia)) as (p1 & p2 & Hp1 & Hp2 & Hp).
      exists (S p1), (S p2). rewrite !first_index_cons_ne, Hp1, Hp2 by done.
      repeat split; try done; lia.
Qed.

(** ** The encoders of [preprocess_interactions] *)

Lemma NoDup_enumerate_fst {A : Type} (l : list A) : NoDup (enumerate l).*1.
Proof.
  unfold enumerate. rewrite enumerate_from_fst.
  apply NoDup_fmap_2; [|apply NoDup_seq]. intros j1 j2. lia.
Qed.

Lemma swap_enumerate_fst {A : Type} (l : list A) :
  (DataProcessor.swap_pair <$> enumerate l).*1 = l.
Proof.
  rewrite <- list_fmap_compose. apply (enumerate_from_snd l 0).
Qed.

Lemma encoder_lookup (l : list string) (x : string) (k : Z) :
  NoDup l →
  dict_of (DataProcessor.swap_pair <$> enumerate l) !! x = Some k ↔
  ∃ j : nat, k = Z.of_nat j ∧ l !! j = Some x.
Proof.
  intros Hnd. rewrite dict_of_lookup_Some by (by rewrite swap_enumerate_fst).
  rewrite list_elem_of_fmap. split.
  - intros ([k' x'] & [= -> ->] & Hin). by apply elem_of_enumerate in Hin.
  - intros Hj. exists (k, x). split; [done|]. by apply elem_of_enumerate.
Qed.

Lemma decoder_lookup (l : list string) (x : string) (k : Z) :
  dict_of (enumerate l) !! k = Some x ↔ ∃ j : nat, k = Z.of_nat j ∧ l !! j = Some x.
Proof.
  rewrite dict_of_lookup_Some by apply NoDup_enumerate_fst. apply elem_of_enumerate.
Qed.

Lemma length_enumerate {A : Type} (l : list A) : length (enumerate l) = length l.
Proof.
  unfold enumerate. rewrite <- (enumerate_from_snd l 0) at 2. by rewrite length_fmap.
Qed.

Lemma encoder_size (l : list string) :
  NoDup l → size (dict_of (DataProcessor.swap_pair <$> enumerate l)) = length l.
Proof.
  intros Hnd. rewrite dict_of_size by (by rewrite swap_enumerate_fst).
  by rewrite length_fmap, length_enumerate.
Qed.

Lemma unique_encodes (col : list string) :
  encodes col (dict_of (DataProcessor.swap_pair <$> enumerate (DataProcessor.unique col)))
              (dict_of (enumerate (DataProcessor.unique col))).
Proof.
  pose proof (NoDup_unique col) as Hnd.
  assert (Hsize : size (dict_of (DataProcessor.swap_pair <$> enumerate (DataProcessor.unique col)))
                  = length (DataProcessor.unique col)) by by apply encoder_size.
  split.
  - rewrite Hsize. rewrite <- (size_list_to_set (C := gset string)) by done.
    f_equal. apply set_eq. intros x. by rewrite !elem_of_list_to_set, elem_of_unique.
  - intros x. rewrite <- elem_of_unique. split.
    + intros [k (j & _ & Hj)%encoder_lookup]; [|done]. by eapply list_elem_of_lookup_2.
    + intros (j & Hj)%list_elem_of_lookup. exists (Z.of_nat j). apply encoder_lookup; eauto.
  - intros x k (j & -> & Hj)%encoder_lookup; [|done].
    rewrite Hsize. apply lookup_lt_Some in Hj. lia.
  - intros k Hk. rewrite Hsize in Hk.
    destruct (lookup_lt_is_Some_2 (DataProcessor.unique col) (Z.to_nat k)) as [x Hx]; [lia|].
    exists x. apply encoder_lookup; [done|]. exists (Z.to_nat k). split; [lia|done].
  - intros x y k (j & -> & Hj)%encoder_lookup (j' & Hjj & Hj')%encoder_lookup; [|done..].
    apply Nat2Z.inj in Hjj as <-. congruence.
  - intros x y kx ky (j & -> & Hj)%encoder_lookup (j' & -> & Hj')%encoder_lookup Hlt; [|done..].
    eapply unique_from_order; [exact Hj|exact Hj'|lia].
  - intros x k. rewrite decoder_lookup, encoder_lookup by done. done.
Qed.

Lemma preprocess_clean_rows (self : DataProcessor.t) (df : DataFrame) :
  raw <$> (DataProcessor.preprocess_interactions self df).2.(enc_rows)
  = DataProcessor.filter_valid
      (DataProcessor.at_least self.(DataProcessor.min_interactions)
         (DataProcessor.value_counts (user_id <$> DataProcessor.drop_duplicates df.(rows))))
      (DataProcessor.at_least self.(DataProcessor.min_interactions)
         (DataProcessor.value_counts (item_id <$> DataProcessor.drop_duplicates df.(rows))))
      (DataProcessor.drop_duplicates df.(rows)).
Proof. cbn. rewrite <- list_fmap_compose. apply list_fmap_id. Qed.

Lemma preprocess_encodes (self : DataProcessor.t) (df : DataFrame) :
  let dp := (DataProcessor.preprocess_interactions self df).1 in
  let clean := raw <$> (DataProcessor.preprocess_interactions self df).2.(enc_rows) in
  encodes (user_id <$> clean) dp.(DataProcessor.user_encoder) dp.(DataProcessor.user_decoder) ∧
  encodes (item_id <$> clean) dp.(DataProcessor.item_encoder) dp.(DataProcessor.item_decoder) ∧
  Forall (λ r, dp.(DataProcessor.user_encoder) !! user_id (raw r) = Some (user_idx r) ∧
               dp.(DataProcessor.item_encoder) !! item_id (raw r) = Some (item_idx r))
         (DataProcessor.preprocess_interactions self df).2.(enc_rows).
Proof.
  intros dp clean.
  assert (Hu : encodes (user_id <$> clean) dp.(DataProcessor.user_encoder)
                       dp.(DataProcessor.user_decoder)).
  { subst dp clean. rewrite preprocess_clean_rows. apply unique_encodes. }
  assert (Hi : encodes (item_id <$> clean) dp.(DataProcessor.item_encoder)
                       dp.(DataProcessor.item_decoder)).
  { subst dp clean. rewrite preprocess_clean_rows. apply unique_encodes. }
  split; [done|]. split; [done|].
  apply Forall_forall. intros r Hr.
  assert (Hraw : raw r ∈ clean) by (subst clean; apply list_elem_of_fmap; eauto).
  destruct (proj2 (encodes_dom _ _ _ Hu (user_id (raw r)))) as [ku Hku].
  { apply list_elem_of_fmap. eauto. }
  destruct (proj2 (encodes_dom _ _ _ Hi (item_id (raw r)))) as [ki Hki].
  { apply list_elem_of_fmap. eauto. }
  cbn in Hr. apply list_elem_of_fmap in Hr as (r0 & -> & Hr0). cbn in *.
  unfold DataProcessor.series_map. subst dp. cbn in Hku, Hki.
  rewrite Hku, Hki. done.
Qed.

(** [series_map] never falls back on its default in [preprocess_interactions]. *)
Lemma preprocess_user_idx (self : DataProcessor.t) (df : DataFrame) (r : EncodedRow) :
  r ∈ (DataProcessor.preprocess_interactions self df).2.(enc_rows) →
  (DataProcessor.preprocess_interactions self df).1.(DataProcessor.user_encoder)
    !! user_id (raw r) = Some (user_idx r).
Proof.
  intros Hr. destruct (preprocess_encodes self df) as (_ & _ & Hall).
  rewrite Forall_forall in Hall. by destruct (Hall r Hr).
Qed.

Lemma preprocess_item_idx (self : DataProcessor.t) (df : DataFrame) (r : EncodedRow) :
  r ∈ (DataProcessor.preprocess_interactions self df).2.(enc_rows) →
  (DataProcessor.preprocess_interactions self df).1.(DataProcessor.item_encoder)
    !! item_id (raw r) = Some (item_idx r).
Proof.
  intros Hr. destruct (preprocess_encodes self df) as (_ & _ & Hall).
  rewrite Forall_forall in Hall. by destruct (Hall r Hr).
Qed.

(** C6. After [preprocess_interactions], for users and for items alike:
    the encoder has as many entries as there are distinct identifiers in
    the filtered, deduplicated rows; it maps them one-to-one onto the
    indices [0 .. n-1]; an identifier that first occurs earlier gets the
    smaller index; the decoder is the inverse map; and the index columns of
    the returned rows are the encoder's values. *)
Theorem preprocess_encoders_bijective (self : DataProcessor.t) (df : DataFrame) :
  let dp := (DataProcessor.preprocess_interactions self df).1 in
  let clean := raw <$> (DataProcessor.preprocess_interactions self df).2.(enc_rows) in
  clean = DataProcessor.filter_valid
      (DataProcessor.at_least self.(DataProcessor.min_interactions)
         (DataProcessor.value_counts (user_id <$> DataProcessor.drop_duplicates df.(rows))))
      (DataProcessor.at_least self.(DataProcessor.min_interactions)
         (DataProcessor.value_counts (item_id <$> DataProcessor.drop_duplicates df.(rows))))
      (DataProcessor.drop_duplicates df.(rows)) ∧
  encodes (user_id <$> clean) dp.(DataProcessor.user_encoder) dp.(DataProcessor.user_decoder) ∧
  encodes (item_id <$> clean) dp.(DataProcessor.item_encoder) dp.(DataProcessor.item_decoder) ∧
  Forall (λ r, dp.(DataProcessor.user_encoder) !! user_id (raw r) = Some (user_idx r) ∧
               dp.(DataProcessor.item_encoder) !! item_id (raw r) = Some (item_idx r))
         (DataProcessor.preprocess_interactions self df).2.(enc_rows).
Proof.
  intros dp clean. split; [apply preprocess_clean_rows|]. apply preprocess_encodes.
Qed.

(** ** Training *)

Lemma length_indices (n : Z) : length (indices n) = Z.to_nat n.
Proof. unfold indices. by rewrite length_fmap, length_seq. Qed.

Lemma elem_of_indices (n i : Z) : i ∈ indices n ↔ 0 ≤ i < n.
Proof.
  unfold indices. rewrite list_elem_of_fmap. split.
  - intros (j & -> & Hj%elem_of_seq). lia.
  - intros Hi. exists (Z.to_nat i). split; [lia|]. apply elem_of_seq. lia.
Qed.

Lemma length_sum_axis0 (m : csr_matrix) : length (sum_axis0 m) = Z.to_nat m.(shape).2.
Proof. unfold sum_axis0. by rewrite length_fmap, length_indices. Qed.

Section training.
Context `{HR : Runtime} {HS : RuntimeSpec}.

Lemma fit_Ok_fitted (m m' : CollaborativeFilteringModel.t) (mat : csr_matrix) :
  0 ≤ mat.(shape).1 → 0 ≤ mat.(shape).2 →
  CollaborativeFilteringModel.fit m mat = (m', Ok ()) →
  fitted m' ∧ n_users m' = mat.(shape).1 ∧ n_items m' = mat.(shape).2.
Proof.
  intros H1 H2. unfold CollaborativeFilteringModel.fit.
  destruct (truncated_svd _ _ mat) as [[uf itf]|e] eqn:Hsvd; [|done].
  intros [= <-].
  destruct (truncated_svd_shape _ _ _ _ _ H1 H2 Hsvd) as (Hu & Hi & Huf & Hitf).
  unfold fitted, n_users, n_items. cbn.
  split; [|done].
  split; [|split].
  - rewrite length_fmap. unfold np_divide_where, sum_axis1, positive_axis1.
    rewrite length_zip_with, !length_fmap, !length_indices. lia.
  - rewrite length_fmap. unfold np_divide_where, sum_axis0, positive_axis0.
    rewrite length_zip_with, !length_fmap, !length_indices. lia.
  - by exists (Z.to_nat (CollaborativeFilteringModel.n_components m)).
Qed.

(** What [train] has written when it returns, normally or not. *)
Lemma train_inv (e e' : HybridRecommendationEngine.t) (d : DataFrame)
    (items : ItemsFrame) (features : list string) (r : result unit) :
  HybridRecommendationEngine.train e d items features = (e', r) →
  let pre := DataProcessor.preprocess_interactions
               e.(HybridRecommendationEngine.data_processor) d in
  let mat := DataProcessor.create_interaction_matrix pre.1 pre.2 in
  e'.(HybridRecommendationEngine.data_processor) = pre.1 ∧
  e'.(HybridRecommendationEngine.interaction_matrix) = Some mat ∧
  e'.(HybridRecommendationEngine.user_item_interactions)
    = HybridRecommendationEngine.store_interactions
        e.(HybridRecommendationEngine.user_item_interactions) pre.2.(enc_rows) ∧
  e'.(HybridRecommendationEngine.cf_weight) = e.(HybridRecommendationEngine.cf_weight) ∧
  e'.(HybridRecommendationEngine.cb_weight) = e.(HybridRecommendationEngine.cb_weight) ∧
  e'.(HybridRecommendationEngine.is_trained)
    = match r with Ok _ => true | Raise _ => e.(HybridRecommendationEngine.is_trained) end ∧
  ((∃ u, r = Ok u) →
   CollaborativeFilteringModel.fit e.(HybridRecommendationEngine.cf_model) mat
     = (e'.(HybridRecommendationEngine.cf_model), Ok ()) ∧
   ContentBasedModel.fit e.(HybridRecommendationEngine.cb_model) items features
     = (e'.(HybridRecommendationEngine.cb_model), Ok ())).
Proof.
  unfold HybridRecommendationEngine.train. cbn zeta.
  destruct (DataProcessor.preprocess_interactions _ d) as [dp clean] eqn:Hpre. cbn.
  destruct (CollaborativeFilteringModel.fit _ _) as [cf [[]|x]] eqn:Hfit.
  - destruct (ContentBasedModel.fit _ items features) as [cb [[]|x]] eqn:Hcb;
      intros [= <- <-]; cbn; do 6 (split; [done|]);
      intros [? Heq]; (discriminate Heq || by split).
  - intros [= <- <-]; cbn; do 6 (split; [done|]). by intros [? [=]].
Qed.

Lemma after_train_coherent (e0 e : HybridRecommendationEngine.t) (d : DataFrame)
    (items : ItemsFrame) (features : list string) (r : result unit) :
  HybridRecommendationEngine.train e0 d items features = (e, r) → coherent e.
Proof.
  intros Htrain.
  destruct (train_inv _ _ _ _ _ _ Htrain) as (Hdp & Hmat & _).
  destruct (preprocess_encodes
              e0.(HybridRecommendationEngine.data_processor) d) as (Hu & Hi & _).
  cbn zeta in Hu, Hi. rewrite <- Hdp in Hu, Hi.
  split; [|eauto..].
  eexists. split; [exact Hmat|]. cbn. by rewrite Hdp.
Qed.

Lemma trained_coherent (e : HybridRecommendationEngine.t) :
  HybridRecommendationEngine.Trained e → coherent e.
Proof. intros (_ & e0 & d & items & features & r & Htrain). by eapply after_train_coherent. Qed.

Lemma fully_trained_trained (e : HybridRecommendationEngine.t) :
  HybridRecommendationEngine.FullyTrained e → HybridRecommendationEngine.Trained e.
Proof.
  intros (e0 & d & items & features & Htrain). split; [|by eauto 6].
  by destruct (train_inv _ _ _ _ _ _ Htrain) as (_ & _ & _ & _ & _ & -> & _).
Qed.

Lemma fully_trained_well_trained (e : HybridRecommendationEngine.t) :
  HybridRecommendationEngine.FullyTrained e → well_trained e.
Proof.
  intros Hfull. pose proof (fully_trained_trained e Hfull) as [Hflag _].
  destruct Hfull as (e0 & d & items & features & Htrain).
  pose proof (after_train_coherent _ _ _ _ _ _ Htrain) as Hco.
  destruct (train_inv _ _ _ _ _ _ Htrain) as (Hdp & _ & _ & _ & _ & _ & Hfit).
  destruct (Hfit (ex_intro _ () eq_refl)) as [Hcf _].
  apply fit_Ok_fitted in Hcf as (Hfitted & Hnu & Hni); [|cbn; lia..].
  split; try done.
  - rewrite Hnu. cbn. by rewrite Hdp.
  - rewrite Hni. cbn. by rewrite Hdp.
Qed.

End training.

(** ** The reference runtime meets [RuntimeSpec] *)

Lemma insert_asc_perm {A : Type} (key : A → Q) (x : A) (l : list A) :
  insert_asc key x l ≡ₚ x :: l.
Proof.
  induction l as [|y l IH]; [done|]. cbn.
  destruct (Qltb (key y) (key x)); [|done].
  rewrite IH. apply Permutation_swap.
Qed.

Lemma sort_asc_perm {A : Type} (key : A → Q) (l : list A) : sort_asc key l ≡ₚ l.
Proof.
  induction l as [|x l IH]; [done|].
  unfold sort_asc in *. cbn. by rewrite insert_asc_perm, IH.
Qed.

Lemma insert_asc_sorted {A : Type} (key : A → Q) (x : A) (l : list A) :
  StronglySorted (key_le key) l → StronglySorted (key_le key) (insert_asc key x l).
Proof.
  induction 1 as [|y l Hl IH Hy]; cbn.
  - repeat constructor.
  - destruct (Qltb (key y) (key x)) eqn:Hlt.
    + apply Qltb_lt in Hlt. constructor; [done|].
      rewrite insert_asc_perm. constructor; [|done].
      unfold key_le. by apply Qlt_le_weak.
    + apply Qltb_ge in Hlt. constructor; [by constructor|].
      constructor; [done|].
      eapply Forall_impl; [exact Hy|]. intros z Hz. unfold key_le in *.
      by eapply Qle_trans.
Qed.

Lemma sort_asc_sorted {A : Type} (key : A → Q) (l : list A) :
  StronglySorted (key_le key) (sort_asc key l).
Proof.
  induction l as [|x l IH]; [constructor|]. by apply insert_asc_sorted.
Qed.

Lemma StronglySorted_lookup_le {A : Type} (key : A → Q) (l : list A) (i j : nat) (x y : A) :
  StronglySorted (key_le key) l → (i ≤ j)%nat → l !! i = Some x → l !! j = Some y →
  (key x <= key y)%Q.
Proof.
  intros Hl. revert i j. induction Hl as [|z l Hl IH Hz]; intros i j Hij Hi Hj; [done|].
  destruct i as [|i], j as [|j]; cbn in *; try lia.
  - injection Hi as ->. injection Hj as ->. apply Qle_refl.
  - injection Hi as ->. rewrite Forall_forall in Hz.
    apply Hz. by eapply list_elem_of_lookup_2.
  - apply (IH i j); [lia|done..].
Qed.

Lemma stable_argsort_perm (a : list Q) :
  stable_argsort a ≡ₚ indices (Z.of_nat (length a)).
Proof.
  unfold stable_argsort. rewrite sort_asc_perm.
  unfold enumerate, indices. rewrite enumerate_from_fst, Nat2Z.id.
  assert ((λ j : nat, 0 + Z.of_nat j) <$> seq 0 (length a) = Z.of_nat <$> seq 0 (length a))
    as -> by (apply list_fmap_ext; intros ? j _; lia).
  done.
Qed.

Lemma stable_argsort_sorted (a : list Q) (i j : nat) (x y : Z) (vx vy : Q) :
  (i ≤ j)%nat → stable_argsort a !! i = Some x → stable_argsort a !! j = Some y →
  at_index a x = Some vx → at_index a y = Some vy → (vx <= vy)%Q.
Proof.
  unfold stable_argsort, at_index. intros Hij Hi Hj Hx Hy.
  rewrite list_lookup_fmap in Hi, Hj.
  destruct (sort_asc snd (enumerate a) !! i) as [[x' wx]|] eqn:Hi'; [|done].
  destruct (sort_asc snd (enumerate a) !! j) as [[y' wy]|] eqn:Hj'; [|done].
  cbn in Hi, Hj. injection Hi as ->. injection Hj as ->.
  pose proof (StronglySorted_lookup_le snd _ i j _ _ (sort_asc_sorted snd _) Hij Hi' Hj') as Hle.
  cbn in Hle.
  apply list_elem_of_lookup_2 in Hi', Hj'. rewrite sort_asc_perm in Hi', Hj'.
  apply elem_of_enumerate in Hi' as (kx & -> & Hkx).
  apply elem_of_enumerate in Hj' as (ky & -> & Hky).
  rewrite Nat2Z.id in Hx, Hy. congruence.
Qed.

Lemma length_rank_one_factors (k : Z) (sums : list Q) :
  0 < k →
  length (rank_one_factors k sums) = length sums ∧
  Forall (λ row, length row = Z.to_nat k) (rank_one_factors k sums).
Proof.
  intros Hk. unfold rank_one_factors. split; [by rewrite length_fmap|].
  apply Forall_fmap, Forall_forall. intros s _. cbn.
  rewrite length_take. cbn. rewrite length_replicate. lia.
Qed.

#[global] Instance reference_runtime_spec : RuntimeSpec (H := reference_runtime).
Proof.
  split.
  - done.
  - apply stable_argsort_perm.
  - apply stable_argsort_sorted.
  - intros k seed m uf itf H1 H2. cbn. unfold rank_one_svd.
    destruct (Z.leb_spec k 0) as [?|Hk]; [done|].
    destruct (Z.ltb_spec m.(shape).2 k) as [?|_]; [done|]. cbn.
    intros [= <- <-].
    destruct (length_rank_one_factors k (sum_axis1 m) Hk) as [-> ?].
    destruct (length_rank_one_factors k (sum_axis0 m) Hk) as [-> ?].
    unfold sum_axis1, sum_axis0. rewrite !length_fmap, !length_indices.
    repeat split; try done; lia.
Qed.

Lemma scenario_engine_fully_trained : HybridRecommendationEngine.FullyTrained scenario_engine.
Proof.
  exists scenario_untrained, scenario_interactions, scenario_items, ["title"%string].
  vm_compute. reflexivity.
Qed.

Lemma scenario_engine_trained : HybridRecommendationEngine.Trained scenario_engine.
Proof. apply fully_trained_trained, scenario_engine_fully_trained. Qed.

Lemma failed_retrain_engine_trained : HybridRecommendationEngine.Trained failed_retrain_engine.
Proof.
  split; [vm_compute; reflexivity|].
  exists scenario_engine, retrain_interactions, scenario_items, ["genre"%string],
         (Raise KeyError).
  vm_compute. reflexivity.
Qed.

(** ** Cold start *)

Lemma mapM_result_Forall2 {A B : Type} (f : A → result B) (P : A → B → Prop) (l : list A) :
  (∀ a, a ∈ l → ∃ b, f a = Ok b ∧ P a b) →
  ∃ bs, mapM_result f l = Ok bs ∧ Forall2 P l bs.
Proof.
  induction l as [|a l IH]; intros Hf.
  - exists []. split; [done|constructor].
  - destruct (Hf a) as (b & Hb & HP); [left|].
    destruct IH as (bs & Hbs & HPs); [intros a' Ha'; apply Hf; by right|].
    exists (b :: bs). cbn. rewrite Hb. cbn. rewrite Hbs. cbn.
    split; [done|by constructor].
Qed.

Section cold_start.
Context `{HR : Runtime} {HS : RuntimeSpec}.

(** C5. For a trained engine and a user identifier the user encoder does
    not know, [get_recommendations] returns normally.  The result lists the
    first [n] entries (all of them when there are fewer) of a ranking of
    all item indices by non-increasing column sum of the interaction
    matrix, so at most [n] records for a count [n >= 0]; each record
    carries the decoded item identifier, that column sum as [score],
    [cf_score = 0], [cb_score = 0] and [method = popular]. *)
Theorem cold_start_ranks_by_popularity (e : HybridRecommendationEngine.t)
    (user : string) (n : Z) :
  HybridRecommendationEngine.Trained e →
  e.(HybridRecommendationEngine.data_processor).(DataProcessor.user_encoder) !! user = None →
  ∃ m ranking recs,
    e.(HybridRecommendationEngine.interaction_matrix) = Some m ∧
    ranking ≡ₚ indices m.(shape).2 ∧
    (∀ (a b : nat) (ia ib : Z) (pa pb : Q),
       (a ≤ b)%nat → ranking !! a = Some ia → ranking !! b = Some ib →
       at_index (sum_axis0 m) ia = Some pa → at_index (sum_axis0 m) ib = Some pb →
       (pb <= pa)%Q) ∧
    HybridRecommendationEngine.get_recommendations e user n = Ok recs ∧
    (0 ≤ n → length recs = (Z.to_nat n `min` Z.to_nat m.(shape).2)%nat) ∧
    Forall2 (λ idx rec,
               e.(HybridRecommendationEngine.data_processor).(DataProcessor.item_decoder) !! idx
                 = Some (rec_item_id rec) ∧
               at_index (sum_axis0 m) idx = Some (score rec) ∧
               cf_score rec = (0 # 1)%Q ∧ cb_score rec = (0 # 1)%Q ∧ method rec = popular)
            (slice_to ranking n) recs.
Proof.
  intros Htrained Hcold.
  destruct Htrained as [Hflag Hafter].
  destruct (trained_coherent e (conj Hflag Hafter)) as [(m & Hm & Hshape) _ (col & Hitems)].
  set (pop := sum_axis0 m).
  assert (Hperm : reverse (np_argsort pop) ≡ₚ indices m.(shape).2).
  { rewrite reverse_Permutation, np_argsort_perm. subst pop.
    rewrite length_sum_axis0, Z2Nat.id; [done|]. rewrite Hshape. cbn. lia. }
  exists m, (reverse (np_argsort pop)).
  unfold HybridRecommendationEngine.get_recommendations.
  rewrite Hflag, Hcold. cbn [negb].
  unfold HybridRecommendationEngine._get_popular_items. rewrite Hm. fold pop.
  edestruct (mapM_result_Forall2
    (λ item_idx,
       item_id ← dict_getitem
         e.(HybridRecommendationEngine.data_processor).(DataProcessor.item_decoder) item_idx;
       p ← getitem pop item_idx;
       Ok {| rec_item_id := item_id; score := p; cf_score := (0 # 1)%Q;
             cb_score := (0 # 1)%Q; method := popular |})) as (recs & -> & Hall).
  2:{ exists recs. split; [done|]. split; [exact Hperm|]. split; [|split; [done|split]].
      - intros a b ia ib pa pb Hab Ha Hb Hpa Hpb.
        apply reverse_lookup_Some in Ha as [Ha Hla], Hb as [Hb Hlb].
        eapply (np_argsort_sorted pop _ _ ib ia pb pa); [|exact Hb|exact Ha|done..]. lia.
      - intros Hn. apply Forall2_length in Hall.
        rewrite <- Hall, length_slice_to, Hperm, length_indices by done. done.
      - exact Hall. }
  intros idx Hidx. cbn beta.
  apply elem_of_slice_to in Hidx. rewrite Hperm in Hidx. apply elem_of_indices in Hidx.
  rewrite Hshape in Hidx. cbn in Hidx.
  destruct (encodes_onto _ _ _ Hitems idx Hidx) as (x & Hx).
  apply (encodes_inverse _ _ _ Hitems) in Hx.
  destruct (getitem_in_range pop idx) as (p & Hp & Hgp).
  { subst pop. rewrite length_sum_axis0, Hshape. cbn. lia. }
  eexists. unfold dict_getitem. rewrite Hx. cbn. rewrite Hgp. cbn.
  split; [done|]. cbn. done.
Qed.

End cold_start.

Lemma cold_start_ranks_by_popularity_witness :
  HybridRecommendationEngine.Trained scenario_engine ∧
  scenario_engine.(HybridRecommendationEngine.data_processor).(DataProcessor.user_encoder)
    !! "u_unknown"%string = None ∧
  ∃ m ranking recs,
    scenario_engine.(HybridRecommendationEngine.interaction_matrix) = Some m ∧
    ranking ≡ₚ indices m.(shape).2 ∧
    (∀ (a b : nat) (ia ib : Z) (pa pb : Q),
       (a ≤ b)%nat → ranking !! a = Some ia → ranking !! b = Some ib →
       at_index (sum_axis0 m) ia = Some pa → at_index (sum_axis0 m) ib = Some pb →
       (pb <= pa)%Q) ∧
    HybridRecommendationEngine.get_recommendations scenario_engine "u_unknown" 2 = Ok recs ∧
    (0 ≤ 2 → length recs = (Z.to_nat 2 `min` Z.to_nat m.(shape).2)%nat) ∧
    Forall2 (λ idx rec,
               scenario_engine.(HybridRecommendationEngine.data_processor)
                 .(DataProcessor.item_decoder) !! idx = Some (rec_item_id rec) ∧
               at_index (sum_axis0 m) idx = Some (score rec) ∧
               cf_score rec = (0 # 1)%Q ∧ cb_score rec = (0 # 1)%Q ∧ method rec = popular)
            (slice_to ranking 2) recs.
Proof.
  assert (Hcold : scenario_engine.(HybridRecommendationEngine.data_processor)
                    .(DataProcessor.user_encoder) !! "u_unknown"%string = None)
    by (vm_compute; reflexivity).
  split; [exact scenario_engine_trained|]. split; [exact Hcold|].
  exact (cold_start_ranks_by_popularity scenario_engine "u_unknown" 2
           scenario_engine_trained Hcold).
Defined.

(** ** Recommendations for a known user *)

Lemma recommendations_exclude (m : CollaborativeFilteringModel.t) (u n : Z)
    (exclude : option (gset Z)) (recs : list (Z * Q)) (i : Z) (s : Q) :
  CollaborativeFilteringModel.get_user_recommendations m u n exclude = Ok recs →
  (i, s) ∈ recs → i ∉ default ∅ exclude.
Proof.
  unfold CollaborativeFilteringModel.get_user_recommendations.
  destruct (py_len _) as [nu|]; cbn; [|done].
  destruct (u >=? nu); [intros [= <-] Hin; by apply elem_of_nil in Hin|].
  destruct (subscriptable (CollaborativeFilteringModel.user_factors m)); cbn; [|done].
  destruct (getitem _ u); cbn; [|done].
  destruct (subscriptable (CollaborativeFilteringModel.item_factors m)); cbn; [|done].
  destruct (mapM_result _ _); cbn; [|done].
  destruct (subscriptable (CollaborativeFilteringModel.item_biases m)); cbn; [|done].
  destruct (CollaborativeFilteringModel.np_iadd _ _); cbn; [|done].
  destruct (subscriptable (CollaborativeFilteringModel.user_biases m)); cbn; [|done].
  destruct (getitem _ u); cbn; [|done].
  destruct (subscriptable (CollaborativeFilteringModel.global_mean m)); cbn; [|done].
  intros [= <-] Hin%elem_of_slice_to%elem_of_sort_desc%list_elem_of_filter.
  by destruct Hin.
Qed.

Lemma add_similar_dom (seen : gset Z) (acc : gmap Z Q) (p : Z * Q) (k : Z) :
  k ∈ dom (HybridRecommendationEngine.add_similar seen acc p) → k ∈ dom acc ∨ k ∉ seen.
Proof.
  unfold HybridRecommendationEngine.add_similar.
  destruct (decide (p.1 ∉ seen)) as [Hp|_]; [|by left].
  rewrite dom_insert, elem_of_union, elem_of_singleton. intros [->|?]; [by right|by left].
Qed.

Lemma foldl_add_similar_dom (seen : gset Z) (l : list (Z * Q)) (acc : gmap Z Q) (k : Z) :
  k ∈ dom (foldl (HybridRecommendationEngine.add_similar seen) acc l) →
  k ∈ dom acc ∨ k ∉ seen.
Proof.
  revert acc. induction l as [|p l IH]; intros acc; cbn; [by left|].
  intros [Hk|Hk]%IH; [|by right]. by apply add_similar_dom in Hk.
Qed.

Lemma content_scores_dom (cb : ContentBasedModel.t) (seen : gset Z) (seeds : list Z)
    (acc res : gmap Z Q) (k : Z) :
  HybridRecommendationEngine.content_scores cb seen seeds acc = Ok res →
  k ∈ dom res → k ∈ dom acc ∨ k ∉ seen.
Proof.
  revert acc. induction seeds as [|seed seeds IH]; intros acc; cbn.
  - intros [= <-]. by left.
  - destruct (ContentBasedModel.get_similar_items cb seed 20) as [sim|]; cbn; [|done].
    intros Hres Hk. destruct (IH _ Hres Hk) as [Hk'|?]; [|by right].
    by apply foldl_add_similar_dom in Hk'.
Qed.

Section known_user.
Context `{HR : Runtime} {HS : RuntimeSpec}.

Lemma elem_of_set_iter (s : gset Z) (k : Z) : k ∈ set_iter s ↔ k ∈ s.
Proof. by rewrite set_iter_perm, elem_of_elements. Qed.

Lemma cf_candidates_unseen (e : HybridRecommendationEngine.t) (uidx n : Z)
    (cf : gmap Z Q) (k : Z) :
  HybridRecommendationEngine.cf_candidates e uidx n = Ok cf → k ∈ dom cf →
  k ∉ dict_get e.(HybridRecommendationEngine.user_item_interactions) uidx ∅.
Proof.
  unfold HybridRecommendationEngine.cf_candidates.
  destruct (CollaborativeFilteringModel.get_user_recommendations _ _ _ _) as [recs|] eqn:Hrecs;
    cbn; [|done].
  intros [= <-] Hk%elem_of_dom%dict_of_dom.
  apply list_elem_of_fmap in Hk as ([k' s] & -> & Hin).
  by apply (recommendations_exclude _ _ _ _ _ _ _ Hrecs Hin).
Qed.

Lemma cb_candidates_unseen (e : HybridRecommendationEngine.t) (uidx : Z)
    (cb : gmap Z Q) (k : Z) :
  HybridRecommendationEngine.cb_candidates e uidx = Ok cb → k ∈ dom cb →
  k ∉ dict_get e.(HybridRecommendationEngine.user_item_interactions) uidx ∅.
Proof.
  unfold HybridRecommendationEngine.cb_candidates.
  destruct (decide (_ ≠ ∅)) as [_|_].
  - intros Hres Hk. destruct (content_scores_dom _ _ _ _ _ _ Hres Hk) as [Hk'|?]; [|done].
    by rewrite dom_empty in Hk'.
  - intros [= <-]. by rewrite dom_empty.
Qed.

(** The known-user branch of [get_recommendations], taken apart. *)
Lemma get_recommendations_known (e : HybridRecommendationEngine.t) (user : string)
    (uidx n : Z) (recs : list Recommendation) :
  e.(HybridRecommendationEngine.data_processor).(DataProcessor.user_encoder) !! user
    = Some uidx →
  HybridRecommendationEngine.get_recommendations e user n = Ok recs →
  ∃ cf cb,
    HybridRecommendationEngine.cf_candidates e uidx n = Ok cf ∧
    HybridRecommendationEngine.cb_candidates e uidx = Ok cb ∧
    ∀ rec, rec ∈ recs →
      ∃ idx, idx ∈ dom cf ∪ dom cb ∧
        HybridRecommendationEngine.format_hybrid
          e.(HybridRecommendationEngine.data_processor)
          (HybridRecommendationEngine.fuse e.(HybridRecommendationEngine.cf_weight)
             e.(HybridRecommendationEngine.cb_weight) cf cb idx) = Ok rec.
Proof.
  intros Huser. unfold HybridRecommendationEngine.get_recommendations. rewrite Huser.
  destruct (negb _); [done|].
  destruct (HybridRecommendationEngine.cf_candidates e uidx n) as [cf|]; cbn; [|done].
  destruct (HybridRecommendationEngine.cb_candidates e uidx) as [cb|]; cbn; [|done].
  intros Hrecs%mapM_result_inv. exists cf, cb. split; [done|]. split; [done|].
  intros rec (j & Hj)%list_elem_of_lookup.
  destruct (Forall2_lookup_r _ _ _ _ _ Hrecs Hj) as (x & Hx & Hfmt).
  apply list_elem_of_lookup_2, elem_of_slice_to in Hx.
  unfold HybridRecommendationEngine.hybrid_scores in Hx.
  apply elem_of_sort_desc, list_elem_of_fmap in Hx as (idx & -> & Hidx).
  apply elem_of_set_iter in Hidx. by exists idx.
Qed.

(** C4. For a trained engine and a user the user encoder knows, the
    collaborative-filtering candidates and the content-based candidates of
    [get_recommendations] contain no index of the user's seen set, and no
    returned recommendation carries the identifier of an item whose index
    is in that seen set. *)
Theorem recommendations_avoid_seen (e : HybridRecommendationEngine.t) (user : string)
    (uidx n : Z) (recs : list Recommendation) :
  HybridRecommendationEngine.Trained e →
  e.(HybridRecommendationEngine.data_processor).(DataProcessor.user_encoder) !! user
    = Some uidx →
  HybridRecommendationEngine.get_recommendations e user n = Ok recs →
  let seen := dict_get e.(HybridRecommendationEngine.user_item_interactions) uidx ∅ in
  (∃ cf cb,
     HybridRecommendationEngine.cf_candidates e uidx n = Ok cf ∧
     HybridRecommendationEngine.cb_candidates e uidx = Ok cb ∧
     dom cf ## seen ∧ dom cb ## seen) ∧
  ∀ rec j, rec ∈ recs → j ∈ seen →
    e.(HybridRecommendationEngine.data_processor).(DataProcessor.item_decoder) !! j
      ≠ Some (rec_item_id rec).
Proof.
  intros Htrained Huser Hrecs seen.
  destruct (trained_coherent e Htrained) as [_ _ (col & Hitems)].
  destruct (get_recommendations_known e user uidx n recs Huser Hrecs)
    as (cf & cb & Hcf & Hcb & Hall).
  assert (Hcf_unseen : dom cf ## seen).
  { intros k Hk Hseen. by apply (cf_candidates_unseen e uidx n cf k Hcf Hk). }
  assert (Hcb_unseen : dom cb ## seen).
  { intros k Hk Hseen. by apply (cb_candidates_unseen e uidx cb k Hcb Hk). }
  split; [by exists cf, cb|].
  intros rec j Hrec Hj Hdec.
  destruct (Hall rec Hrec) as (idx & Hidx & Hfmt).
  unfold HybridRecommendationEngine.format_hybrid, dict_getitem in Hfmt. cbn in Hfmt.
  destruct (DataProcessor.item_decoder _ !! idx) as [x|] eqn:Hdx; cbn in Hfmt; [|done].
  injection Hfmt as <-. cbn in Hdec.
  apply (encodes_inverse _ _ _ Hitems) in Hdx, Hdec.
  assert (j = idx) as -> by congruence.
  apply elem_of_union in Hidx as [Hidx|Hidx]; [by apply (Hcf_unseen idx)|by apply (Hcb_unseen idx)].
Qed.

(** C8. In the result of [get_recommendations] for a known user every
    record comes from a candidate index [idx] of the union of the
    collaborative-filtering and content-based candidates, with
    [score = cf_weight * cf_score + cb_weight * cb_score].  When [idx] is
    only among the collaborative-filtering candidates, [cb_score] is 0 and
    [score] equals [cf_weight * cf_score]; when it is only among the
    content-based candidates, [cf_score] is 0 and [score] equals
    [cb_weight * cb_score]. *)
Theorem fusion_single_source (e : HybridRecommendationEngine.t) (user : string)
    (uidx n : Z) (recs : list Recommendation) :
  e.(HybridRecommendationEngine.data_processor).(DataProcessor.user_encoder) !! user
    = Some uidx →
  HybridRecommendationEngine.get_recommendations e user n = Ok recs →
  ∃ cf cb,
    HybridRecommendationEngine.cf_candidates e uidx n = Ok cf ∧
    HybridRecommendationEngine.cb_candidates e uidx = Ok cb ∧
    ∀ rec, rec ∈ recs →
      method rec = hybrid ∧
      score rec = (e.(HybridRecommendationEngine.cf_weight) * cf_score rec
                   + e.(HybridRecommendationEngine.cb_weight) * cb_score rec)%Q ∧
      ∃ idx, idx ∈ dom cf ∪ dom cb ∧
        e.(HybridRecommendationEngine.data_processor).(DataProcessor.item_decoder) !! idx
          = Some (rec_item_id rec) ∧
        (∀ s, cf !! idx = Some s → cb !! idx = None →
           cf_score rec = s ∧ cb_score rec = (0 # 1)%Q ∧
           (score rec == e.(HybridRecommendationEngine.cf_weight) * s)%Q) ∧
        (∀ s, cf !! idx = None → cb !! idx = Some s →
           cf_score rec = (0 # 1)%Q ∧ cb_score rec = s ∧
           (score rec == e.(HybridRecommendationEngine.cb_weight) * s)%Q).
Proof.
  intros Huser Hrecs.
  destruct (get_recommendations_known e user uidx n recs Huser Hrecs)
    as (cf & cb & Hcf & Hcb & Hall).
  exists cf, cb. split; [done|]. split; [done|].
  intros rec Hrec. destruct (Hall rec Hrec) as (idx & Hidx & Hfmt).
  unfold HybridRecommendationEngine.format_hybrid, dict_getitem in Hfmt. cbn in Hfmt.
  destruct (DataProcessor.item_decoder _ !! idx) as [x|] eqn:Hdx; cbn in Hfmt; [|done].
  injection Hfmt as <-. cbn.
  split; [done|]. split; [done|]. exists idx. split; [done|]. split; [done|].
  unfold dict_get. split; intros s Hs1 Hs2; rewrite Hs1, Hs2; cbn;
    (split; [done|]); (split; [done|]); ring.
Qed.

End known_user.

Lemma recommendations_avoid_seen_witness :
  HybridRecommendationEngine.Trained scenario_engine ∧
  scenario_engine.(HybridRecommendationEngine.data_processor).(DataProcessor.user_encoder)
    !! "u1"%string = Some 0 ∧
  ∃ recs,
    HybridRecommendationEngine.get_recommendations scenario_engine "u1" 3 = Ok recs ∧
    recs ≠ [] ∧
    let seen :=
      dict_get scenario_engine.(HybridRecommendationEngine.user_item_interactions) 0 ∅ in
    (∃ cf cb,
       HybridRecommendationEngine.cf_candidates scenario_engine 0 3 = Ok cf ∧
       HybridRecommendationEngine.cb_candidates scenario_engine 0 = Ok cb ∧
       dom cf ## seen ∧ dom cb ## seen) ∧
    ∀ rec j, rec ∈ recs → j ∈ seen →
      scenario_engine.(HybridRecommendationEngine.data_processor).(DataProcessor.item_decoder)
        !! j ≠ Some (rec_item_id rec).
Proof.
  assert (Huser : scenario_engine.(HybridRecommendationEngine.data_processor)
                    .(DataProcessor.user_encoder) !! "u1"%string = Some 0)
    by (vm_compute; reflexivity).
  destruct (HybridRecommendationEngine.get_recommendations scenario_engine "u1" 3)
    as [recs|x] eqn:Hrecs; [|vm_compute in Hrecs; discriminate Hrecs].
  split; [exact scenario_engine_trained|]. split; [exact Huser|].
  exists recs. split; [reflexivity|]. split.
  - intros ->. vm_compute in Hrecs. discriminate Hrecs.
  - exact (recommendations_avoid_seen scenario_engine "u1" 0 3 recs
             scenario_engine_trained Huser Hrecs).
Defined.

Lemma fusion_single_source_witness :
  small_catalog_engine.(HybridRecommendationEngine.data_processor).(DataProcessor.user_encoder)
    !! "u1"%string = Some 0 ∧
  ∃ recs,
    HybridRecommendationEngine.get_recommendations small_catalog_engine "u1" 3 = Ok recs ∧
    recs ≠ [] ∧
    ∃ cf cb,
      HybridRecommendationEngine.cf_candidates small_catalog_engine 0 3 = Ok cf ∧
      HybridRecommendationEngine.cb_candidates small_catalog_engine 0 = Ok cb ∧
      ∀ rec, rec ∈ recs →
        method rec = hybrid ∧
        score rec = (small_catalog_engine.(HybridRecommendationEngine.cf_weight) * cf_score rec
                     + small_catalog_engine.(HybridRecommendationEngine.cb_weight) * cb_score rec)%Q ∧
        ∃ idx, idx ∈ dom cf ∪ dom cb ∧
          small_catalog_engine.(HybridRecommendationEngine.data_processor)
            .(DataProcessor.item_decoder) !! idx = Some (rec_item_id rec) ∧
          (∀ s, cf !! idx = Some s → cb !! idx = None →
             cf_score rec = s ∧ cb_score rec = (0 # 1)%Q ∧
             (score rec == small_catalog_engine.(HybridRecommendationEngine.cf_weight) * s)%Q) ∧
          (∀ s, cf !! idx = None → cb !! idx = Some s →
             cf_score rec = (0 # 1)%Q ∧ cb_score rec = s ∧
             (score rec == small_catalog_engine.(HybridRecommendationEngine.cb_weight) * s)%Q).
Proof.
  assert (Huser : small_catalog_engine.(HybridRecommendationEngine.data_processor)
                    .(DataProcessor.user_encoder) !! "u1"%string = Some 0)
    by (vm_compute; reflexivity).
  destruct (HybridRecommendationEngine.get_recommendations small_catalog_engine "u1" 3)
    as [recs|x] eqn:Hrecs; [|vm_compute in Hrecs; discriminate Hrecs].
  split; [exact Huser|]. exists recs. split; [reflexivity|]. split.
  - intros ->. vm_compute in Hrecs. discriminate Hrecs.
  - exact (fusion_single_source small_catalog_engine "u1" 0 3 recs Huser Hrecs).
Defined.

(** On the small catalogue item [i3] (index 2) is a candidate of the
    collaborative filter only: its content score is 0 and its hybrid score
    is [0.7 * cf_score]. *)
Example fusion_cf_only :
  ∃ c, HybridRecommendationEngine.get_recommendations small_catalog_engine "u1" 3
       = Ok [ {| rec_item_id := "i3"; score := (7 # 10) * c + (3 # 10) * (0 # 1);
                 cf_score := c; cb_score := (0 # 1)%Q; method := hybrid |} ]%Q ∧
       HybridRecommendationEngine.cf_candidates small_catalog_engine 0 3 = Ok {[ 2 := c ]} ∧
       HybridRecommendationEngine.cb_candidates small_catalog_engine 0 = Ok ∅.
Proof.
  exists (34048 # 12800)%Q. split; [vm_compute; reflexivity|]. split; vm_compute; reflexivity.
Qed.

(** ** Evaluation *)

Section evaluation.
Context `{HR : Runtime} {HS : RuntimeSpec}.

Lemma evaluate_filter (e : HybridRecommendationEngine.t) (test : DataFrame) :
  filter (λ r, user_id r ∈ dom e.(HybridRecommendationEngine.data_processor)
                               .(DataProcessor.user_encoder)
               ∧ item_id r ∈ dom e.(HybridRecommendationEngine.data_processor)
                                 .(DataProcessor.item_encoder))
         test.(rows) = retained e test.
Proof.
  unfold retained. apply list_filter_iff. intros r. by rewrite !elem_of_dom.
Qed.

Lemma mapM_result_inv_elem {A B : Type} (f : A → result B) (l : list A) (bs : list B) :
  mapM_result f l = Ok bs → Forall2 (λ a b, a ∈ l ∧ f a = Ok b) l bs.
Proof.
  revert bs. induction l as [|a l IH]; intros bs Hm; cbn in Hm.
  - injection Hm as <-. constructor.
  - destruct (f a) as [b|x] eqn:Hfa; cbn in Hm; [|discriminate].
    destruct (mapM_result f l) as [bs'|x] eqn:Hl; cbn in Hm; [|discriminate].
    injection Hm as <-. constructor; [split; [left|done]|].
    eapply Forall2_impl; [by apply IH|]. intros a' b' [? ?]. split; [by right|done].
Qed.

(** C9. For an engine in the state Trained, [evaluate] only looks at the
    test rows whose user and item are both known to the trained encoders.
    When there is no such row it returns [{rmse: inf, mae: inf}] without
    raising.  Otherwise whatever it returns is the RMSE and MAE of one
    [predict] of the latent factor model per kept row, at the row's encoded
    indices, against the row's rating (1 when the table has no rating
    column); it does return when the last [train] succeeded; and the
    content model plays no part in the result. *)
Theorem evaluate_restricts_to_known (e : HybridRecommendationEngine.t) (test : DataFrame) :
  HybridRecommendationEngine.Trained e →
  (retained e test = [] →
     HybridRecommendationEngine.evaluate e test
       = Ok {| rmse := Infinity; mae := Infinity |}) ∧
  (retained e test ≠ [] →
     (HybridRecommendationEngine.FullyTrained e →
        ∃ res, HybridRecommendationEngine.evaluate e test = Ok res) ∧
     ∀ res, HybridRecommendationEngine.evaluate e test = Ok res →
       ∃ predictions,
         Forall2 (λ r p, ∃ u i,
                    e.(HybridRecommendationEngine.data_processor).(DataProcessor.user_encoder)
                      !! user_id r = Some u ∧
                    e.(HybridRecommendationEngine.data_processor).(DataProcessor.item_encoder)
                      !! item_id r = Some i ∧
                    CollaborativeFilteringModel.predict
                      e.(HybridRecommendationEngine.cf_model) u i = Ok p)
                 (retained e test) predictions ∧
         res = {| rmse := SquareRoot (mean_squared_error
                                        (actual_ratings test (retained e test)) predictions);
                  mae := Finite (mean_absolute_error
                                   (actual_ratings test (retained e test)) predictions) |}) ∧
  (∀ cb, HybridRecommendationEngine.evaluate (with_cb_model e cb) test
         = HybridRecommendationEngine.evaluate e test).
Proof.
  intros [Hflag _].
  split; [|split; [|reflexivity]].
  { intros Hnone. unfold HybridRecommendationEngine.evaluate.
    rewrite Hflag, evaluate_filter, Hnone. done. }
  intros Hne. unfold HybridRecommendationEngine.evaluate.
  rewrite Hflag, evaluate_filter. cbn [negb].
  destruct (retained e test) as [|r0 kept] eqn:Hkept; [done|]. rewrite <- Hkept.
  split.
  - intros Hfull.
    destruct (fully_trained_well_trained e Hfull)
      as [_ [_ (ucol & Husers) (icol & Hitems)] Hfitted Hnu Hni].
    edestruct (mapM_result_Forall2
      (λ r, CollaborativeFilteringModel.predict e.(HybridRecommendationEngine.cf_model)
              (DataProcessor.series_map
                 e.(HybridRecommendationEngine.data_processor).(DataProcessor.user_encoder)
                 (user_id r))
              (DataProcessor.series_map
                 e.(HybridRecommendationEngine.data_processor).(DataProcessor.item_encoder)
                 (item_id r))) (λ _ _, True)) as (predictions & Hpred & _).
    2:{ rewrite Hpred. by eexists. }
    intros r [[[u Hu] [i Hi]] _]%list_elem_of_filter. cbn beta.
    unfold DataProcessor.series_map. rewrite Hu, Hi. cbn.
    pose proof (encodes_range _ _ _ Husers _ _ Hu) as Hur.
    pose proof (encodes_range _ _ _ Hitems _ _ Hi) as Hir.
    destruct (predict_fitted e.(HybridRecommendationEngine.cf_model) u i Hfitted)
      as (s & _ & Hp); [lia..|].
    by exists (CollaborativeFilteringModel.clamp s).
  - intros res.
    destruct (mapM_result _ (retained e test)) as [predictions|x] eqn:Hpred; cbn; [|done].
    intros [= <-]. exists predictions. split; [|done].
    apply mapM_result_inv_elem in Hpred.
    eapply Forall2_impl; [exact Hpred|]. cbn beta.
    intros r p [[[[u Hu] [i Hi]] _]%list_elem_of_filter Hp].
    unfold DataProcessor.series_map in Hp. rewrite Hu, Hi in Hp. by exists u, i.
Qed.

End evaluation.

Lemma evaluate_restricts_to_known_witness :
  HybridRecommendationEngine.Trained scenario_engine ∧
  retained scenario_engine foreign_interactions = [] ∧
  retained scenario_engine scenario_interactions ≠ [] ∧
  HybridRecommendationEngine.evaluate scenario_engine foreign_interactions
    = Ok {| rmse := Infinity; mae := Infinity |} ∧
  ∃ res predictions,
    HybridRecommendationEngine.evaluate scenario_engine scenario_interactions = Ok res ∧
    Forall2 (λ r p, ∃ u i,
               scenario_engine.(HybridRecommendationEngine.data_processor)
                 .(DataProcessor.user_encoder) !! user_id r = Some u ∧
               scenario_engine.(HybridRecommendationEngine.data_processor)
                 .(DataProcessor.item_encoder) !! item_id r = Some i ∧
               CollaborativeFilteringModel.predict
                 scenario_engine.(HybridRecommendationEngine.cf_model) u i = Ok p)
            (retained scenario_engine scenario_interactions) predictions ∧
    res = {| rmse := SquareRoot
                       (mean_squared_error
                          (actual_ratings scenario_interactions
                             (retained scenario_engine scenario_interactions)) predictions);
             mae := Finite
                      (mean_absolute_error
                         (actual_ratings scenario_interactions
                            (retained scenario_engine scenario_interactions)) predictions) |}.
Proof.
  assert (Hnone : retained scenario_engine foreign_interactions = [])
    by (vm_compute; reflexivity).
  assert (Hsome : retained scenario_engine scenario_interactions ≠ [])
    by (vm_compute; discriminate).
  split; [exact scenario_engine_trained|]. split; [exact Hnone|]. split; [exact Hsome|].
  split.
  - exact (proj1 (evaluate_restricts_to_known scenario_engine foreign_interactions
                    scenario_engine_trained) Hnone).
  - destruct (proj1 (proj2 (evaluate_restricts_to_known scenario_engine scenario_interactions
                              scenario_engine_trained)) Hsome) as [Hreturns Hshape].
    destruct (Hreturns scenario_engine_fully_trained) as [res Hres].
    destruct (Hshape res Hres) as (predictions & Hall & Heq).
    exists res, predictions. split; [exact Hres|]. split; [exact Hall|exact Heq].
Defined.

(** ** Failed and repeated training *)

(** C10. On an engine whose trained flag is not set, [train] sets the flag
    exactly when it returns normally, that is after both sub-model fits have
    returned normally.  When it raises, the flag is still not set
    afterwards, and [get_recommendations] and [evaluate] on the resulting
    engine raise [ValueError], whatever partial state the failed call has
    written. *)
Theorem failed_train_stays_untrained `{HR : Runtime}
    (e e' : HybridRecommendationEngine.t) (d : DataFrame) (items : ItemsFrame)
    (features : list string) (r : result unit) :
  e.(HybridRecommendationEngine.is_trained) = false →
  HybridRecommendationEngine.train e d items features = (e', r) →
  (e'.(HybridRecommendationEngine.is_trained) = true ↔ r = Ok ()) ∧
  (r = Ok () →
     (∃ mat, e'.(HybridRecommendationEngine.interaction_matrix) = Some mat ∧
             CollaborativeFilteringModel.fit e.(HybridRecommendationEngine.cf_model) mat
               = (e'.(HybridRecommendationEngine.cf_model), Ok ())) ∧
     ContentBasedModel.fit e.(HybridRecommendationEngine.cb_model) items features
       = (e'.(HybridRecommendationEngine.cb_model), Ok ())) ∧
  (∀ x, r = Raise x →
     e'.(HybridRecommendationEngine.is_trained) = false ∧
     (∀ user n, HybridRecommendationEngine.get_recommendations e' user n = Raise ValueError) ∧
     (∀ test, HybridRecommendationEngine.evaluate e' test = Raise ValueError)).
Proof.
  intros Hflag Htrain.
  destruct (train_inv _ _ _ _ _ _ Htrain) as (_ & Hmat & _ & _ & _ & Hflag' & Hfits).
  split; [|split].
  - rewrite Hflag'. destruct r as [[]|x]; [done|]. rewrite Hflag. split; discriminate.
  - intros ->. destruct (Hfits (ex_intro _ () eq_refl)) as [Hcf Hcb]. eauto.
  - intros x ->. rewrite Hflag in Hflag'.
    unfold HybridRecommendationEngine.get_recommendations, HybridRecommendationEngine.evaluate.
    rewrite Hflag'. done.
Qed.

Lemma failed_train_stays_untrained_witness :
  scenario_untrained.(HybridRecommendationEngine.is_trained) = false ∧
  HybridRecommendationEngine.train scenario_untrained scenario_interactions scenario_items
    ["genre"%string] = (failed_engine, Raise KeyError) ∧
  fitted failed_engine.(HybridRecommendationEngine.cf_model) ∧
  failed_engine.(HybridRecommendationEngine.is_trained) = false ∧
  (∀ user n, HybridRecommendationEngine.get_recommendations failed_engine user n
             = Raise ValueError) ∧
  (∀ test, HybridRecommendationEngine.evaluate failed_engine test = Raise ValueError).
Proof.
  assert (Hflag : scenario_untrained.(HybridRecommendationEngine.is_trained) = false)
    by reflexivity.
  assert (Htrain : HybridRecommendationEngine.train scenario_untrained scenario_interactions
                     scenario_items ["genre"%string] = (failed_engine, Raise KeyError))
    by (vm_compute; reflexivity).
  split; [exact Hflag|]. split; [exact Htrain|]. split.
  - vm_compute. split; [reflexivity|]. split; [reflexivity|].
    exists 2%nat. split; repeat constructor.
  - exact (proj2 (proj2 (failed_train_stays_untrained scenario_untrained failed_engine
                           scenario_interactions scenario_items ["genre"%string]
                           (Raise KeyError) Hflag Htrain)) KeyError eq_refl).
Defined.

(** [train] only ever adds to the stored seen sets: whatever index a user
    index had before the call, it still has afterwards. *)
Lemma store_interactions_grows (uii : gmap Z (gset Z)) (clean : list EncodedRow)
    (u j : Z) :
  j ∈ dict_get uii u ∅ →
  j ∈ dict_get (HybridRecommendationEngine.store_interactions uii clean) u ∅.
Proof.
  unfold HybridRecommendationEngine.store_interactions.
  revert uii. induction clean as [|r clean IH]; intros uii Hj; [done|].
  cbn. apply IH. unfold dict_get in *.
  destruct (decide (user_idx r = u)) as [->|Hne].
  - rewrite lookup_insert_eq. cbn. set_solver.
  - by rewrite lookup_insert_ne.
Qed.

Lemma train_keeps_seen `{HR : Runtime} (e e' : HybridRecommendationEngine.t) (d : DataFrame)
    (items : ItemsFrame) (features : list string) (r : result unit) (u j : Z) :
  HybridRecommendationEngine.train e d items features = (e', r) →
  j ∈ dict_get e.(HybridRecommendationEngine.user_item_interactions) u ∅ →
  j ∈ dict_get e'.(HybridRecommendationEngine.user_item_interactions) u ∅.
Proof.
  intros Htrain Hj.
  destruct (train_inv _ _ _ _ _ _ Htrain) as (_ & _ & -> & _).
  by apply store_interactions_grows.
Qed.

(** C1 at a concrete retraining.  The scenario engine, trained on
    [(u1,i1), (u1,i2), (u2,i1), (u2,i3)] and then on
    [(u1,i3), (u2,i1), (u2,i3)], agrees with a fresh engine trained on the
    second data set in its encoders, matrix and both models, but not in the
    seen sets: user index 0 keeps the indices [0, 1] of the first run where
    the fresh engine has [0] only, and so [u1] is no longer offered [i1]. *)
Theorem retrain_keeps_previous_seen_sets :
  HybridRecommendationEngine.train scenario_engine retrain_interactions retrain_items
    ["title"%string] = (retrained_engine, Ok ()) ∧
  HybridRecommendationEngine.train scenario_untrained retrain_interactions retrain_items
    ["title"%string] = (fresh_engine, Ok ()) ∧
  retrained_engine.(HybridRecommendationEngine.data_processor)
    = fresh_engine.(HybridRecommendationEngine.data_processor) ∧
  retrained_engine.(HybridRecommendationEngine.interaction_matrix)
    = fresh_engine.(HybridRecommendationEngine.interaction_matrix) ∧
  retrained_engine.(HybridRecommendationEngine.cf_model)
    = fresh_engine.(HybridRecommendationEngine.cf_model) ∧
  retrained_engine.(HybridRecommendationEngine.cb_model)
    = fresh_engine.(HybridRecommendationEngine.cb_model) ∧
  fresh_engine.(HybridRecommendationEngine.user_item_interactions)
    = {[ 0 := {[ 0 ]}; 1 := {[ 0; 1 ]} ]} ∧
  retrained_engine.(HybridRecommendationEngine.user_item_interactions)
    = {[ 0 := {[ 0; 1 ]}; 1 := {[ 0; 1; 2 ]} ]} ∧
  retrained_engine ≠ fresh_engine ∧
  (∃ rec, HybridRecommendationEngine.get_recommendations fresh_engine "u1" 3 = Ok [rec] ∧
          rec_item_id rec = "i1"%string) ∧
  HybridRecommendationEngine.get_recommendations retrained_engine "u1" 3 = Ok [].
Proof.
  repeat split; try (vm_compute; reflexivity).
  - intros Heq%(f_equal HybridRecommendationEngine.user_item_interactions).
    vm_compute in Heq. discriminate Heq.
  - eexists. split; vm_compute; reflexivity.
Qed.

(** ** The scenario of the specification, evaluated *)

Example scenario_encoders :
  scenario_engine.(HybridRecommendationEngine.data_processor).(DataProcessor.user_encoder)
    = {[ "u1"%string := 0; "u2"%string := 1 ]} ∧
  scenario_engine.(HybridRecommendationEngine.data_processor).(DataProcessor.item_encoder)
    = {[ "i1"%string := 0; "i2"%string := 1; "i3"%string := 2 ]} ∧
  scenario_engine.(HybridRecommendationEngine.data_processor).(DataProcessor.item_decoder)
    = {[ 0 := "i1"%string; 1 := "i2"%string; 2 := "i3"%string ]}.
Proof. repeat split; vm_compute; reflexivity. Qed.

Example scenario_matrix_and_seen_sets :
  scenario_engine.(HybridRecommendationEngine.interaction_matrix)
    = Some {| shape := (2, 3);
              entries := [(0, 0, inject_Z 5); (0, 1, inject_Z 3);
                          (1, 0, inject_Z 4); (1, 2, inject_Z 2)] |} ∧
  scenario_engine.(HybridRecommendationEngine.user_item_interactions)
    = {[ 0 := {[ 0; 1 ]}; 1 := {[ 0; 2 ]} ]}.
Proof. split; vm_compute; reflexivity. Qed.

(** [get_recommendations("u1", n)] offers neither [i1] nor [i2]. *)
Example scenario_known_user :
  rec_item_id <$> default [] (match HybridRecommendationEngine.get_recommendations
                                      scenario_engine "u1" 3 with
                              | Ok recs => Some recs
                              | Raise _ => None
                              end) = ["i3"%string].
Proof. vm_compute. reflexivity. Qed.

(** [get_recommendations("u_unknown", n)] puts [i1] first, with the summed
    rating 9. *)
Example scenario_cold_start :
  HybridRecommendationEngine.get_recommendations scenario_engine "u_unknown" 5
  = Ok [ {| rec_item_id := "i1"; score := (9 # 1)%Q; cf_score := (0 # 1)%Q;
            cb_score := (0 # 1)%Q; method := popular |};
         {| rec_item_id := "i2"; score := (3 # 1)%Q; cf_score := (0 # 1)%Q;
            cb_score := (0 # 1)%Q; method := popular |};
         {| rec_item_id := "i3"; score := (2 # 1)%Q; cf_score := (0 # 1)%Q;
            cb_score := (0 # 1)%Q; method := popular |} ].
Proof. vm_compute. reflexivity. Qed.

(** A repeated (user, item) pair keeps its first row, and the threshold is
    applied in one pass: with [min_interactions = 2] only [i1] survives,
    and both users stay although each is left with a single row. *)
Example single_pass_filter :
  raw <$> (DataProcessor.preprocess_interactions (DataProcessor.init 2)
             {| has_rating := true;
                rows := rows scenario_interactions ++ [mk_row "u1" "i1" 1] |}).2.(enc_rows)
  = [mk_row "u1" "i1" 5; mk_row "u2" "i1" 4].
Proof. vm_compute. reflexivity. Qed.

(** Before any training both entry points refuse to answer. *)
Example untrained_engine_raises :
  HybridRecommendationEngine.get_recommendations
    (HybridRecommendationEngine.init (7 # 10) (3 # 10)) "u1" 10 = Raise ValueError ∧
  HybridRecommendationEngine.evaluate
    (HybridRecommendationEngine.init (7 # 10) (3 # 10)) scenario_interactions
    = Raise ValueError.
Proof. split; reflexivity. Qed.

(** After a retrain that fails in the content model the engine is still in
    the state Trained, and a cold start ranks the items of the new matrix. *)
Example failed_retrain_cold_start :
  HybridRecommendationEngine.is_trained failed_retrain_engine = true ∧
  HybridRecommendationEngine.get_recommendations failed_retrain_engine "u_unknown" 1
  = Ok [ {| rec_item_id := "i3"; score := (6 # 1)%Q; cf_score := (0 # 1)%Q;
            cb_score := (0 # 1)%Q; method := popular |} ].
Proof. split; vm_compute; reflexivity. Qed.

(** * The rest of the code *)

(** ** Preprocessing: deduplication and the interaction threshold *)

Lemma elem_of_drop_duplicates_from (seen : gset (string * string)) (l : list Row) (r : Row) :
  r ∈ DataProcessor.drop_duplicates_from seen l ↔
  (pair_of r ∉ seen) ∧ first_row (pair_of r) l = Some r.
Proof.
  revert seen. induction l as [|x l IH]; intros seen; cbn.
  - split; [by intros ?%elem_of_nil|]. by intros [_ ?].
  - fold (pair_of x). destruct (decide (pair_of x ∈ seen)) as [Hx|Hx].
    + rewrite IH. destruct (decide (pair_of x = pair_of r)) as [Heq|Hne]; [|done].
      rewrite <- Heq. split; [by intros [? _]|by intros [? _]].
    + rewrite elem_of_cons, IH.
      destruct (decide (pair_of x = pair_of r)) as [Heq|Hne].
      * split.
        -- intros [->|[Hr _]]; [done|]. rewrite <- Heq in Hr. set_solver.
        -- intros [_ [= ->]]. by left.
      * split.
        -- intros [->|[Hr ?]]; [done|]. split; [set_solver|done].
        -- intros [Hr ?]. right. split; [set_solver|done].
Qed.

Lemma NoDup_drop_duplicates_from (seen : gset (string * string)) (l : list Row) :
  NoDup (pair_of <$> DataProcessor.drop_duplicates_from seen l).
Proof.
  revert seen. induction l as [|x l IH]; intros seen; cbn; [constructor|].
  fold (pair_of x). destruct (decide (pair_of x ∈ seen)); [apply IH|].
  cbn. constructor; [|apply IH].
  intros (r & Hr & [Hseen _]%elem_of_drop_duplicates_from)%list_elem_of_fmap.
  rewrite <- Hr in Hseen. set_solver.
Qed.

Lemma sublist_drop_duplicates_from (seen : gset (string * string)) (l : list Row) :
  DataProcessor.drop_duplicates_from seen l `sublist_of` l.
Proof.
  revert seen. induction l as [|x l IH]; intros seen; cbn; [constructor|].
  destruct (decide _); [by apply sublist_cons|by apply sublist_skip].
Qed.

Lemma first_row_elem (p : string * string) (l : list Row) (r : Row) :
  first_row p l = Some r → r ∈ l ∧ pair_of r = p.
Proof.
  induction l as [|x l IH]; cbn; [done|].
  destruct (decide (pair_of x = p)) as [Hx|_].
  - intros [= ->]. split; [left|done].
  - intros [? ?]%IH. split; [by right|done].
Qed.

Lemma first_row_is_Some (p : string * string) (l : list Row) :
  p ∈ pair_of <$> l → is_Some (first_row p l).
Proof.
  induction l as [|x l IH]; cbn; [by intros ?%elem_of_nil|].
  destruct (decide (pair_of x = p)); [done|].
  intros [?|?]%elem_of_cons; [done|by apply IH].
Qed.

(** X1. [drop_duplicates] keeps, in their original order, exactly the rows
    that are the first of their (user, item) pair: no pair is left twice and
    no pair of the input is lost. *)
Theorem drop_duplicates_keeps_first_rows (l : list Row) :
  DataProcessor.drop_duplicates l `sublist_of` l ∧
  NoDup (pair_of <$> DataProcessor.drop_duplicates l) ∧
  (∀ r, r ∈ DataProcessor.drop_duplicates l ↔ first_row (pair_of r) l = Some r) ∧
  (∀ r, r ∈ l → ∃ r', r' ∈ DataProcessor.drop_duplicates l ∧ pair_of r' = pair_of r).
Proof.
  unfold DataProcessor.drop_duplicates.
  split; [apply sublist_drop_duplicates_from|].
  split; [apply NoDup_drop_duplicates_from|].
  assert (Hiff : ∀ r, r ∈ DataProcessor.drop_duplicates_from ∅ l
                      ↔ first_row (pair_of r) l = Some r).
  { intros r. rewrite elem_of_drop_duplicates_from. set_solver. }
  split; [exact Hiff|].
  intros r Hr. destruct (first_row_is_Some (pair_of r) l) as [r' Hr'].
  { apply list_elem_of_fmap. eauto. }
  exists r'. destruct (first_row_elem _ _ _ Hr') as [_ Hp].
  split; [|done]. apply Hiff. by rewrite Hp.
Qed.

Lemma value_counts_from_lookup (d : gmap string Z) (col : list string) (x : string) :
  foldl (λ d x, <[x := dict_get d x 0 + 1]> d) d col !! x
  = if decide (x ∈ col) then Some (dict_get d x 0 + occurrences x col) else d !! x.
Proof.
  revert d. induction col as [|y col IH]; intros d; cbn.
  - destruct (decide (x ∈ [])) as [?%elem_of_nil|]; done.
  - rewrite IH. unfold dict_get.
    destruct (decide (x = y)) as [->|Hne].
    + rewrite lookup_insert_eq. cbn.
      destruct (decide (y ∈ y :: col)) as [_|Hn]; [|exfalso; apply Hn; left].
      destruct (decide (y ∈ col)) as [_|Hn]; [f_equal; lia|].
      f_equal. assert (occurrences y col = 0) as ->; [|lia].
      clear -Hn. induction col as [|z col IH]; [done|].
      cbn. apply not_elem_of_cons in Hn as [? ?].
      destruct (decide (y = z)); [done|]. by rewrite IH.
    + rewrite lookup_insert_ne by done.
      destruct (decide (x ∈ col)) as [Hin|Hn];
        destruct (decide (x ∈ y :: col)) as [Hin'|Hn']; try done.
      * exfalso. apply Hn'. by right.
      * exfalso. apply elem_of_cons in Hin' as [?|?]; done.
Qed.

Lemma value_counts_lookup (col : list string) (x : string) :
  DataProcessor.value_counts col !! x
  = if decide (x ∈ col) then Some (occurrences x col) else None.
Proof.
  unfold DataProcessor.value_counts. rewrite value_counts_from_lookup.
  destruct (decide (x ∈ col)); [|done]. unfold dict_get. by rewrite lookup_empty.
Qed.

Lemma elem_of_at_least (m : Z) (col : list string) (x : string) :
  x ∈ DataProcessor.at_least m (DataProcessor.value_counts col) ↔
  x ∈ col ∧ m ≤ occurrences x col.
Proof.
  unfold DataProcessor.at_least. rewrite elem_of_dom. split.
  - intros [c Hc]. apply map_lookup_filter_Some in Hc as [Hc Hm]. cbn in Hm.
    rewrite value_counts_lookup in Hc. destruct (decide (x ∈ col)); [|done].
    injection Hc as <-. done.
  - intros [Hin Hm]. exists (occurrences x col).
    apply map_lookup_filter_Some. split; [|done].
    rewrite value_counts_lookup. by destruct (decide (x ∈ col)).
Qed.

(** X2. [preprocess_interactions] keeps a deduplicated row exactly when its
    user and its item each occur at least [min_interactions] times in the
    deduplicated table (counts are taken once, before any row is dropped);
    so every identifier the encoders know has at least that count. *)
Theorem preprocess_keeps_frequent (self : DataProcessor.t) (df : DataFrame) :
  let dedup := DataProcessor.drop_duplicates df.(rows) in
  let dp := (DataProcessor.preprocess_interactions self df).1 in
  let clean := raw <$> (DataProcessor.preprocess_interactions self df).2.(enc_rows) in
  (∀ r, r ∈ clean ↔
        r ∈ dedup ∧
        self.(DataProcessor.min_interactions) ≤ occurrences (user_id r) (user_id <$> dedup) ∧
        self.(DataProcessor.min_interactions) ≤ occurrences (item_id r) (item_id <$> dedup)) ∧
  (∀ u, is_Some (dp.(DataProcessor.user_encoder) !! u) →
        self.(DataProcessor.min_interactions) ≤ occurrences u (user_id <$> dedup)) ∧
  (∀ i, is_Some (dp.(DataProcessor.item_encoder) !! i) →
        self.(DataProcessor.min_interactions) ≤ occurrences i (item_id <$> dedup)).
Proof.
  intros dedup dp clean.
  assert (Hrows : ∀ r, r ∈ clean ↔
        r ∈ dedup ∧
        self.(DataProcessor.min_interactions) ≤ occurrences (user_id r) (user_id <$> dedup) ∧
        self.(DataProcessor.min_interactions) ≤ occurrences (item_id r) (item_id <$> dedup)).
  { intros r. subst clean. rewrite preprocess_clean_rows.
    unfold DataProcessor.filter_valid. rewrite list_elem_of_filter, !elem_of_at_least.
    fold dedup. split.
    - intros [[[_ ?] [_ ?]] ?]. done.
    - intros (Hr & ? & ?). repeat split; try done; apply list_elem_of_fmap; eauto. }
  split; [exact Hrows|].
  destruct (preprocess_encodes self df) as (Hu & Hi & _). cbn zeta in Hu, Hi.
  fold dp clean in Hu, Hi.
  split.
  - intros u Hknown. apply (encodes_dom _ _ _ Hu) in Hknown.
    apply list_elem_of_fmap in Hknown as (r & -> & Hr). by apply Hrows in Hr as (_ & ? & _).
  - intros i Hknown. apply (encodes_dom _ _ _ Hi) in Hknown.
    apply list_elem_of_fmap in Hknown as (r & -> & Hr). by apply Hrows in Hr as (_ & _ & ?).
Qed.

(** ** The interaction matrix and the seen sets *)

Lemma NoDup_fmap_reflect {A B C : Type} (f : A → B) (g : A → C) (l : list A) :
  NoDup (f <$> l) → (∀ x y, x ∈ l → y ∈ l → g x = g y → f x = f y) → NoDup (g <$> l).
Proof.
  induction l as [|a l IH]; cbn; [constructor|].
  intros [Ha Hl]%NoDup_cons Hfg. constructor.
  - intros (b & Hb & Hin)%list_elem_of_fmap. apply Ha.
    apply list_elem_of_fmap. exists b. split; [|done].
    apply Hfg; [left|by right|done].
  - apply IH; [done|]. intros x y Hx Hy. apply Hfg; by right.
Qed.

Lemma NoDup_clean_pairs (self : DataProcessor.t) (df : DataFrame) :
  NoDup (pair_of <$> (raw <$> (DataProcessor.preprocess_interactions self df).2.(enc_rows))).
Proof.
  rewrite preprocess_clean_rows. unfold DataProcessor.filter_valid.
  apply (sublist_NoDup _ (pair_of <$> DataProcessor.drop_duplicates df.(rows))).
  - apply (NoDup_drop_duplicates_from ∅ df.(rows)).
  - apply fmap_sublist, sublist_filter.
Qed.

(** X3. The matrix built from the preprocessed rows has one stored entry per
    kept row, every entry lies inside the declared shape, no cell is stored
    twice, the entry of a row sits at its encoded (user, item) position with
    the row's rating (1 when the table has no rating column). *)
Theorem interaction_matrix_cells (self : DataProcessor.t) (df : DataFrame) :
  let pre := DataProcessor.preprocess_interactions self df in
  let m := DataProcessor.create_interaction_matrix pre.1 pre.2 in
  length m.(entries) = length pre.2.(enc_rows) ∧
  Forall (λ e, 0 ≤ e.1.1 < m.(shape).1 ∧ 0 ≤ e.1.2 < m.(shape).2) m.(entries) ∧
  NoDup ((λ e, e.1) <$> m.(entries)) ∧
  (∀ u i v, (u, i, v) ∈ m.(entries) ↔
     ∃ r, r ∈ raw <$> pre.2.(enc_rows) ∧
          pre.1.(DataProcessor.user_encoder) !! user_id r = Some u ∧
          pre.1.(DataProcessor.item_encoder) !! item_id r = Some i ∧
          v = if df.(has_rating) then rating r else (1 # 1)%Q).
Proof.
  intros pre m.
  destruct (preprocess_encodes self df) as (Hu & Hi & Hidx). cbn zeta in Hu, Hi.
  fold pre in Hu, Hi, Hidx. rewrite Forall_forall in Hidx.
  assert (Hentries : m.(entries)
            = (λ r, (user_idx r, item_idx r,
                     if df.(has_rating) then rating (raw r) else (1 # 1)%Q))
                <$> pre.2.(enc_rows)) by reflexivity.
  split; [by rewrite Hentries, length_fmap|]. split; [|split].
  - apply Forall_forall. intros e. rewrite Hentries.
    intros (r & -> & Hr)%list_elem_of_fmap. destruct (Hidx r Hr) as [Hru Hri]. cbn.
    apply (encodes_range _ _ _ Hu) in Hru. apply (encodes_range _ _ _ Hi) in Hri. done.
  - rewrite Hentries, <- list_fmap_compose.
    pose proof (NoDup_clean_pairs self df) as Hnd. fold pre in Hnd.
    rewrite <- list_fmap_compose in Hnd.
    eapply NoDup_fmap_reflect; [exact Hnd|].
    intros x y Hx Hy [= Hxu Hxi]. cbn.
    destruct (Hidx x Hx) as [Hx1 Hx2]. destruct (Hidx y Hy) as [Hy1 Hy2].
    rewrite <- Hxu in Hy1. rewrite <- Hxi in Hy2.
    unfold pair_of. f_equal.
    + exact (encodes_inj _ _ _ Hu _ _ _ Hx1 Hy1).
    + exact (encodes_inj _ _ _ Hi _ _ _ Hx2 Hy2).
  - intros u i v. rewrite Hentries, list_elem_of_fmap. split.
    + intros (r & [= -> -> ->] & Hr). destruct (Hidx r Hr) as [Hru Hri].
      exists (raw r). split; [apply list_elem_of_fmap; eauto|done].
    + intros (r0 & (r & -> & Hr)%list_elem_of_fmap & Hru & Hri & ->).
      destruct (Hidx r Hr) as [Hru' Hri']. exists r. split; [|done].
      assert (user_idx r = u) as <- by congruence.
      assert (item_idx r = i) as <- by congruence. done.
Qed.

Lemma elem_of_store_interactions (uii : gmap Z (gset Z)) (clean : list EncodedRow) (u j : Z) :
  j ∈ dict_get (HybridRecommendationEngine.store_interactions uii clean) u ∅ ↔
  j ∈ dict_get uii u ∅ ∨ ∃ row, row ∈ clean ∧ user_idx row = u ∧ item_idx row = j.
Proof.
  unfold HybridRecommendationEngine.store_interactions.
  revert uii. induction clean as [|r clean IH]; intros uii; cbn.
  - split; [by left|]. intros [?|(? & ?%elem_of_nil & _)]; done.
  - rewrite IH. unfold dict_get at 1.
    destruct (decide (user_idx r = u)) as [<-|Hne].
    + rewrite lookup_insert_eq. cbn. rewrite elem_of_union, elem_of_singleton. split.
      * intros [[->|?]|(row & ? & ? & ?)].
        -- right. exists r. split; [left|done].
        -- by left.
        -- right. exists row. split; [by right|done].
      * intros [?|(row & [->|?]%elem_of_cons & ? & ?)].
        -- left. by right.
        -- left. by left.
        -- right. by exists row.
    + rewrite lookup_insert_ne by done. fold (dict_get uii u ∅). split.
      * intros [?|(row & ? & ? & ?)]; [by left|]. right. exists row. split; [by right|done].
      * intros [?|(row & [->|?]%elem_of_cons & ? & ?)]; [by left|done|].
        right. by exists row.
Qed.

(** X4. Whatever its outcome, a call of [train] leaves every user index
    with the seen set it had before plus exactly the column indices of that
    user's entries in the newly built interaction matrix. *)
Theorem train_seen_sets `{HR : Runtime} (e0 e : HybridRecommendationEngine.t)
    (d : DataFrame) (items : ItemsFrame) (features : list string) (r : result unit) :
  HybridRecommendationEngine.train e0 d items features = (e, r) →
  ∃ m, e.(HybridRecommendationEngine.interaction_matrix) = Some m ∧
    ∀ u j, j ∈ dict_get e.(HybridRecommendationEngine.user_item_interactions) u ∅ ↔
           j ∈ dict_get e0.(HybridRecommendationEngine.user_item_interactions) u ∅ ∨
           ∃ v, (u, j, v) ∈ m.(entries).
Proof.
  intros Htrain.
  destruct (train_inv _ _ _ _ _ _ Htrain) as (_ & Hmat & Huii & _).
  eexists. split; [exact Hmat|]. intros u j.
  rewrite Huii, elem_of_store_interactions. cbn.
  split; (intros [?|Hrow]; [by left|right]).
  - destruct Hrow as (row & Hrow & <- & <-). eexists.
    apply list_elem_of_fmap. exists row. split; [reflexivity|done].
  - destruct Hrow as (v & (row & [= -> -> _] & Hrow)%list_elem_of_fmap). by exists row.
Qed.

Lemma train_seen_sets_witness :
  HybridRecommendationEngine.train scenario_untrained scenario_interactions scenario_items
    ["title"%string] = (scenario_engine, Ok ()) ∧
  ∃ m, scenario_engine.(HybridRecommendationEngine.interaction_matrix) = Some m ∧
    ∀ u j, j ∈ dict_get scenario_engine.(HybridRecommendationEngine.user_item_interactions) u ∅ ↔
           j ∈ dict_get scenario_untrained.(HybridRecommendationEngine.user_item_interactions) u ∅ ∨
           ∃ v, (u, j, v) ∈ m.(entries).
Proof.
  assert (Htrain : HybridRecommendationEngine.train scenario_untrained scenario_interactions
                     scenario_items ["title"%string] = (scenario_engine, Ok ()))
    by (vm_compute; reflexivity).
  split; [exact Htrain|].
  exact (train_seen_sets scenario_untrained scenario_engine scenario_interactions
           scenario_items ["title"%string] (Ok ()) Htrain).
Defined.

(** ** Ranking: the stable descending sort *)

Lemma StronglySorted_sublist {A : Type} (R : relation A) (l1 l2 : list A) :
  l1 `sublist_of` l2 → StronglySorted R l2 → StronglySorted R l1.
Proof.
  induction 1 as [|x l1 l2 Hsub IH|x l1 l2 Hsub IH]; intros Hs; [done|..].
  - apply StronglySorted_inv in Hs as [Hs Hx]. constructor; [by apply IH|].
    rewrite Forall_forall in Hx |- *. intros y Hy. apply Hx. by eapply elem_of_sublist.
  - apply StronglySorted_inv in Hs as [Hs _]. by apply IH.
Qed.

Lemma StronglySorted_lookup_lt {A : Type} (R : relation A) (l : list A) (i j : nat) (x y : A) :
  StronglySorted R l → (i < j)%nat → l !! i = Some x → l !! j = Some y → R x y.
Proof.
  intros Hl. revert i j. induction Hl as [|z l Hl IH Hz]; intros i j Hij Hi Hj; [done|].
  destruct j as [|j]; [lia|]. destruct i as [|i]; cbn in *.
  - injection Hi as ->. rewrite Forall_forall in Hz. apply Hz. by eapply list_elem_of_lookup_2.
  - apply (IH i j); [lia|done..].
Qed.

Lemma insert_desc_ranked {A : Type} (key : A → Q) (B : relation A) (x : A) (l : list A) :
  StronglySorted (ranked_by key B) l → Forall (B x) l →
  StronglySorted (ranked_by key B) (insert_desc key x l).
Proof.
  induction 1 as [|y l Hl IH Hy]; intros Hx; cbn; [repeat constructor|].
  apply Forall_cons in Hx as [Hxy Hx].
  destruct (Qltb (key x) (key y)) eqn:Hlt.
  - apply Qltb_lt in Hlt. constructor; [by apply IH|].
    rewrite insert_desc_perm. constructor; [by left|done].
  - apply Qltb_ge in Hlt. constructor; [by constructor|].
    assert (Hranked : ∀ z, (key z <= key x)%Q → B x z → ranked_by key B x z).
    { intros z Hz HB. destruct (Qle_lt_or_eq _ _ Hz) as [?|?]; [by left|by right]. }
    constructor; [by apply Hranked|].
    rewrite Forall_forall in Hy, Hx |- *. intros z Hz.
    apply Hranked; [|by apply Hx].
    destruct (Hy z Hz) as [Hzy|[Hzy _]]; [|rewrite Hzy; done].
    apply Qlt_le_weak. by eapply Qlt_le_trans.
Qed.

Lemma sort_desc_ranked {A : Type} (key : A → Q) (B : relation A) (l : list A) :
  StronglySorted B l → StronglySorted (ranked_by key B) (sort_desc key l).
Proof.
  induction 1 as [|x l Hl IH Hx]; [constructor|].
  unfold sort_desc in *. cbn. apply insert_desc_ranked; [done|].
  fold (sort_desc key l). by rewrite (sort_desc_perm key l).
Qed.

Lemma sort_desc_descending {A : Type} (key : A → Q) (l : list A) :
  StronglySorted (λ a b, (key b <= key a)%Q) (sort_desc key l).
Proof.
  assert (Hany : StronglySorted (λ _ _ : A, True) l).
  { induction l; constructor; [done|]. by apply Forall_forall. }
  apply (sort_desc_ranked key) in Hany.
  induction Hany as [|x s Hs IH Hx]; constructor; [done|].
  eapply Forall_impl; [exact Hx|]. intros y [Hlt|[Heq _]]; [by apply Qlt_le_weak|].
  rewrite Heq. apply Qle_refl.
Qed.

Lemma enumerate_from_sorted {A : Type} (l : list A) (k : Z) :
  StronglySorted (λ a b : Z * A, a.1 < b.1) (enumerate_from k l).
Proof.
  revert k. induction l as [|a l IH]; intros k; cbn; constructor; [apply IH|].
  apply Forall_forall. intros [i x] (j & -> & _)%elem_of_enumerate_from. cbn. lia.
Qed.

Lemma sublist_slice_to {A : Type} (l : list A) (n : Z) : slice_to l n `sublist_of` l.
Proof. unfold slice_to. destruct (n <? 0); apply sublist_take. Qed.

(** A slice of the sorted candidates, when the candidates come from
    [enumerate] through a filter. *)
Lemma ranking_sorted (P : Z * Q → Prop) `{∀ p, Decision (P p)}
    (scores : list Q) (n : Z) :
  let recs := slice_to (sort_desc snd (filter P (enumerate scores))) n in
  StronglySorted ranked_before recs ∧ NoDup recs.*1 ∧
  (∀ p, p ∈ recs → P p ∧ ∃ j : nat, p.1 = Z.of_nat j ∧ scores !! j = Some p.2) ∧
  (0 ≤ n → (length recs ≤ Z.to_nat n)%nat).
Proof.
  intros recs.
  assert (Hsub : recs `sublist_of` sort_desc snd (filter P (enumerate scores)))
    by apply sublist_slice_to.
  split; [|split; [|split]].
  - eapply StronglySorted_sublist; [exact Hsub|].
    apply (sort_desc_ranked snd index_lt).
    eapply StronglySorted_sublist; [apply sublist_filter|]. apply enumerate_from_sorted.
  - apply (sublist_NoDup _ (sort_desc snd (filter P (enumerate scores))).*1);
      [|by apply fmap_sublist].
    rewrite sort_desc_perm.
    apply (sublist_NoDup _ (enumerate scores).*1); [apply NoDup_enumerate_fst|].
    apply fmap_sublist, sublist_filter.
  - intros [i s] Hp. eapply elem_of_sublist in Hp; [|exact Hsub].
    apply elem_of_sort_desc, list_elem_of_filter in Hp as [HP Hin].
    split; [done|]. by apply elem_of_enumerate in Hin.
  - intros Hn. subst recs. rewrite length_slice_to by done. lia.
Qed.

(** ** The two rankers *)

Lemma slice_to_nil {A : Type} (n : Z) : slice_to (@nil A) n = [].
Proof. unfold slice_to. by destruct (n <? 0); rewrite take_nil. Qed.

Lemma recommendations_shape (m : CollaborativeFilteringModel.t) (u n : Z)
    (exclude : option (gset Z)) (recs : list (Z * Q)) :
  CollaborativeFilteringModel.get_user_recommendations m u n exclude = Ok recs →
  ∃ scores,
    recs = slice_to (sort_desc snd (filter (λ p, p.1 ∉ default ∅ exclude) (enumerate scores))) n.
Proof.
  unfold CollaborativeFilteringModel.get_user_recommendations.
  destruct (py_len _) as [nu|]; cbn; [|done].
  destruct (u >=? nu); [intros [= <-]; exists []; exact (eq_sym (slice_to_nil n))|].
  destruct (subscriptable (CollaborativeFilteringModel.user_factors m)); cbn; [|done].
  destruct (getitem _ u); cbn; [|done].
  destruct (subscriptable (CollaborativeFilteringModel.item_factors m)); cbn; [|done].
  destruct (mapM_result _ _); cbn; [|done].
  destruct (subscriptable (CollaborativeFilteringModel.item_biases m)); cbn; [|done].
  destruct (CollaborativeFilteringModel.np_iadd _ _); cbn; [|done].
  destruct (subscriptable (CollaborativeFilteringModel.user_biases m)); cbn; [|done].
  destruct (getitem _ u); cbn; [|done].
  destruct (subscriptable (CollaborativeFilteringModel.global_mean m)); cbn; [|done].
  intros [= <-]. by eexists.
Qed.

(** X5. Whatever [get_user_recommendations] returns is ranked: a higher
    score comes first and, among equal scores, the lower item index (the
    sort is stable over the enumeration order); no item index occurs twice,
    none is negative or in the exclusion set, and for a count [n >= 0] at
    most [n] pairs are returned. *)
Theorem recommendations_are_ranked (m : CollaborativeFilteringModel.t) (u n : Z)
    (exclude : option (gset Z)) (recs : list (Z * Q)) :
  CollaborativeFilteringModel.get_user_recommendations m u n exclude = Ok recs →
  StronglySorted ranked_before recs ∧ NoDup recs.*1 ∧
  (∀ p, p ∈ recs → 0 ≤ p.1 ∧ p.1 ∉ default ∅ exclude) ∧
  (0 ≤ n → (length recs ≤ Z.to_nat n)%nat).
Proof.
  intros (scores & ->)%recommendations_shape.
  destruct (ranking_sorted (λ p, p.1 ∉ default ∅ exclude) scores n) as (Hs & Hnd & Hin & Hlen).
  split; [done|]. split; [done|]. split; [|done].
  intros [i s] Hp. destruct (Hin _ Hp) as (Hex & j & Hj & _). cbn in *. split; [lia|done].
Qed.

Lemma recommendations_are_ranked_witness :
  ∃ recs,
    CollaborativeFilteringModel.get_user_recommendations one_user_model 0 1 None = Ok recs ∧
    recs ≠ [] ∧
    StronglySorted ranked_before recs ∧ NoDup recs.*1 ∧
    (∀ p, p ∈ recs → 0 ≤ p.1 ∧ p.1 ∉ default (∅ : gset Z) None) ∧
    (0 ≤ 1 → (length recs ≤ Z.to_nat 1)%nat).
Proof.
  destruct (CollaborativeFilteringModel.get_user_recommendations one_user_model 0 1 None)
    as [recs|x] eqn:Hrecs; [|vm_compute in Hrecs; discriminate Hrecs].
  exists recs. split; [reflexivity|]. split.
  - intros ->. vm_compute in Hrecs. discriminate Hrecs.
  - exact (recommendations_are_ranked one_user_model 0 1 None recs Hrecs).
Defined.

Lemma similar_items_shape (cb : ContentBasedModel.t) (idx n : Z) (sims : list (Z * Q)) :
  ContentBasedModel.get_similar_items cb idx n = Ok sims →
  ∃ row, sims = slice_to (sort_desc snd (filter (λ p, p.1 ≠ idx) (enumerate row))) n.
Proof.
  unfold ContentBasedModel.get_similar_items.
  destruct (ContentBasedModel.item_similarity_matrix cb) as [sim|]; [|done].
  destruct (idx >=? Z.of_nat (length sim)); [intros [= <-]; exists []; exact (eq_sym (slice_to_nil n))|].
  destruct (getitem sim idx) as [row|]; cbn; [|done].
  intros [= <-]. by eexists.
Qed.

(** X6. Whatever [get_similar_items] returns is ranked by descending
    similarity, the lower index first among equal similarities; no index
    occurs twice, none equals the index that was asked about, and for a
    count [n >= 0] at most [n] pairs are returned. *)
Theorem similar_items_are_ranked (cb : ContentBasedModel.t) (idx n : Z)
    (sims : list (Z * Q)) :
  ContentBasedModel.get_similar_items cb idx n = Ok sims →
  StronglySorted ranked_before sims ∧ NoDup sims.*1 ∧ (idx ∉ sims.*1) ∧
  (∀ p, p ∈ sims → 0 ≤ p.1) ∧
  (0 ≤ n → (length sims ≤ Z.to_nat n)%nat).
Proof.
  intros (row & ->)%similar_items_shape.
  destruct (ranking_sorted (λ p, p.1 ≠ idx) row n) as (Hs & Hnd & Hin & Hlen).
  split; [done|]. split; [done|]. split; [|split; [|done]].
  - intros ([i s] & -> & Hp)%list_elem_of_fmap. destruct (Hin _ Hp) as [Hne _]. by cbn in Hne.
  - intros [i s] Hp. destruct (Hin _ Hp) as (_ & j & Hj & _). cbn in *. lia.
Qed.

Lemma similar_items_are_ranked_witness :
  ∃ sims,
    ContentBasedModel.get_similar_items two_item_content 0 5 = Ok sims ∧ sims ≠ [] ∧
    StronglySorted ranked_before sims ∧ NoDup sims.*1 ∧ (0 ∉ sims.*1) ∧
    (∀ p, p ∈ sims → 0 ≤ p.1) ∧
    (0 ≤ 5 → (length sims ≤ Z.to_nat 5)%nat).
Proof.
  destruct (ContentBasedModel.get_similar_items two_item_content 0 5)
    as [sims|x] eqn:Hsims; [|vm_compute in Hsims; discriminate Hsims].
  exists sims. split; [reflexivity|]. split.
  - intros ->. vm_compute in Hsims. discriminate Hsims.
  - exact (similar_items_are_ranked two_item_content 0 5 sims Hsims).
Defined.

(** ** Negative indices *)

Lemma getitem_wrap {A : Type} (l : list A) (i : Z) :
  0 ≤ i < Z.of_nat (length l) → getitem l (i - Z.of_nat (length l)) = getitem l i.
Proof.
  intros Hi. unfold getitem.
  destruct (Z.ltb_spec (i - Z.of_nat (length l)) 0) as [_|?]; [|lia].
  destruct (Z.ltb_spec i 0) as [?|_]; [lia|].
  by replace (i - Z.of_nat (length l) + Z.of_nat (length l)) with i by lia.
Qed.

(** X7. On a fitted model a user index [u - n_users] with [u] in range is
    served exactly like [u], and an item index [i - n_items] with [i] in
    range exactly like [i]: the guards of [predict] let negative indices
    through and the arrays count them from the end. *)
Theorem predict_negative_index_wraps (m : CollaborativeFilteringModel.t) (u i : Z) :
  fitted m →
  (0 ≤ u < n_users m →
     CollaborativeFilteringModel.predict m (u - n_users m) i
       = CollaborativeFilteringModel.predict m u i) ∧
  (0 ≤ i < n_items m →
     CollaborativeFilteringModel.predict m u (i - n_items m)
       = CollaborativeFilteringModel.predict m u i).
Proof.
  destruct m as [k seed [uf|] [itf|] [gm|] [ub|] [ib|]]; cbn; try done.
  unfold n_users, n_items. cbn. intros (Hub & Hib & _).
  unfold CollaborativeFilteringModel.predict. cbn. split.
  - intros Hu.
    destruct (Z.geb_spec (u - Z.of_nat (length uf)) (Z.of_nat (length uf))) as [?|_]; [lia|].
    destruct (Z.geb_spec u (Z.of_nat (length uf))) as [?|_]; [lia|]. cbn.
    rewrite (getitem_wrap uf u) by done.
    rewrite <- Hub, (getitem_wrap ub u) by lia. done.
  - intros Hi.
    destruct (Z.geb_spec u (Z.of_nat (length uf))) as [?|_]; [done|]. cbn.
    destruct (Z.geb_spec (i - Z.of_nat (length itf)) (Z.of_nat (length itf))) as [?|_]; [lia|].
    destruct (Z.geb_spec i (Z.of_nat (length itf))) as [?|_]; [lia|]. cbn.
    rewrite (getitem_wrap itf i) by done.
    rewrite <- Hib, (getitem_wrap ib i) by lia. done.
Qed.

Lemma predict_negative_index_wraps_witness :
  fitted one_user_model ∧ 0 ≤ 0 < n_users one_user_model ∧ 0 ≤ 1 < n_items one_user_model ∧
  CollaborativeFilteringModel.predict one_user_model (0 - n_users one_user_model) 1
    = CollaborativeFilteringModel.predict one_user_model 0 1 ∧
  CollaborativeFilteringModel.predict one_user_model 0 (1 - n_items one_user_model)
    = CollaborativeFilteringModel.predict one_user_model 0 1.
Proof.
  assert (Hu : 0 ≤ 0 < n_users one_user_model) by (vm_compute; split; [discriminate|done]).
  assert (Hi : 0 ≤ 1 < n_items one_user_model) by (vm_compute; split; [discriminate|done]).
  split; [exact one_user_model_fitted|]. split; [exact Hu|]. split; [exact Hi|].
  split.
  - exact (proj1 (predict_negative_index_wraps one_user_model 0 1 one_user_model_fitted) Hu).
  - exact (proj2 (predict_negative_index_wraps one_user_model 0 1 one_user_model_fitted) Hi).
Defined.

(** ** Top-n on a fitted model *)

Lemma length_filter_fmap {A B : Type} (f : A → B) (P : B → Prop) `{∀ b, Decision (P b)}
    (l : list A) :
  length (filter P (f <$> l)) = length (filter (λ a, P (f a)) l).
Proof.
  induction l as [|a l IH]; [done|].
  rewrite fmap_cons, !filter_cons. destruct (decide (P (f a))); cbn; by rewrite IH.
Qed.

Lemma enumerate_fst_indices {A : Type} (l : list A) :
  (enumerate l).*1 = indices (Z.of_nat (length l)).
Proof.
  unfold enumerate, indices. rewrite enumerate_from_fst, Nat2Z.id.
  apply list_fmap_ext. intros ? j _. lia.
Qed.

Lemma recommendations_fitted_shape (m : CollaborativeFilteringModel.t) (u n : Z)
    (exclude : option (gset Z)) :
  fitted m → 0 ≤ u < n_users m →
  ∃ scores,
    Z.of_nat (length scores) = n_items m ∧
    (∀ (j : nat) s, scores !! j = Some s →
       ∃ s', raw_score m (Z.to_nat u) j = Some s' ∧ (s == s')%Q) ∧
    CollaborativeFilteringModel.get_user_recommendations m u n exclude
      = Ok (slice_to (sort_desc snd (filter (λ p, p.1 ∉ default ∅ exclude) (enumerate scores)))
                     n).
Proof.
  destruct m as [k seed [uf|] [itf|] [gm|] [ub|] [ib|]]; cbn; try done.
  unfold n_users, n_items. cbn. intros (Hub & Hib & c & Huf & Hitf) Hu.
  destruct (getitem_in_range uf u) as (urow & Hurow & Hgu); [lia|].
  destruct (getitem_in_range ub u) as (bu & Hbu & Hgbu); [lia|].
  assert (Hlen : length urow = c) by (rewrite Forall_lookup in Huf; eauto).
  unfold CollaborativeFilteringModel.get_user_recommendations. cbn.
  destruct (Z.geb_spec u (Z.of_nat (length uf))) as [?|_]; [lia|].
  rewrite Hgu. cbn.
  rewrite (mapM_result_Ok _ (λ row, Qsum (zip_with Qmult row urow))); last first.
  { intros row Hrow. apply np_dot_same_length.
    rewrite Forall_forall in Hitf. rewrite (Hitf _ Hrow). done. }
  cbn. unfold CollaborativeFilteringModel.np_iadd.
  rewrite length_fmap, Hib, Nat.eqb_refl. cbn. rewrite Hgbu. cbn.
  eexists. split; [|split; [|reflexivity]].
  - rewrite length_fmap, length_zip_with, length_fmap. lia.
  - intros j s Hj.
    rewrite list_lookup_fmap, lookup_zip_with, list_lookup_fmap in Hj.
    destruct (itf !! j) as [irow|] eqn:Hirow; cbn in Hj; [|done].
    destruct (ib !! j) as [bi|] eqn:Hbi; cbn in Hj; [|done].
    injection Hj as <-.
    unfold raw_score. cbn. rewrite ?Hbu, ?Hbi, ?Hurow, ?Hirow. cbn.
    eexists. split; [done|]. rewrite (Qsum_zip_comm irow urow). ring.
Qed.

(** X8. On a fitted model, for a user index in range and a count [n >= 0],
    [get_user_recommendations] returns the [n] best candidates: as many
    pairs as there are item indices outside the exclusion set, up to [n],
    and every candidate it leaves out scores no higher than every pair it
    returns. *)
Theorem recommendations_are_top_n (m : CollaborativeFilteringModel.t) (u n : Z)
    (exclude : option (gset Z)) :
  fitted m → 0 ≤ u < n_users m → 0 ≤ n →
  ∃ recs,
    CollaborativeFilteringModel.get_user_recommendations m u n exclude = Ok recs ∧
    length recs
      = (Z.to_nat n `min`
         length (filter (λ i, i ∉ default ∅ exclude) (indices (n_items m))))%nat ∧
    ∀ i si, 0 ≤ i < n_items m → i ∉ default ∅ exclude → i ∉ recs.*1 →
            raw_score m (Z.to_nat u) (Z.to_nat i) = Some si →
            ∀ p, p ∈ recs → (si <= p.2)%Q.
Proof.
  intros Hm Hu Hn.
  destruct (recommendations_fitted_shape m u n exclude Hm Hu)
    as (scores & Hlen & Hscores & ->).
  set (cands := filter (λ p : Z * Q, p.1 ∉ default ∅ exclude) (enumerate scores)).
  eexists. split; [reflexivity|]. split.
  - rewrite length_slice_to by done. f_equal.
    rewrite (Permutation_length (sort_desc_perm snd cands)). subst cands.
    rewrite <- Hlen, <- enumerate_fst_indices.
    by rewrite (length_filter_fmap fst (λ i, i ∉ default ∅ exclude)).
  - intros i si Hi Hex Hout Hraw p Hp.
    destruct (lookup_lt_is_Some_2 scores (Z.to_nat i)) as [s Hs]; [lia|].
    destruct (Hscores _ _ Hs) as (s' & Hs' & Heq).
    assert (s' = si) as -> by congruence.
    assert (Hcand : (i, s) ∈ sort_desc snd cands).
    { apply elem_of_sort_desc, list_elem_of_filter. split; [done|].
      apply elem_of_enumerate. exists (Z.to_nat i). split; [lia|done]. }
    unfold slice_to in Hout, Hp.
    destruct (Z.ltb_spec n 0) as [?|_]; [lia|].
    rewrite <- (take_drop (Z.to_nat n) (sort_desc snd cands)) in Hcand.
    apply elem_of_app in Hcand as [Hin|Hin].
    { exfalso. apply Hout. apply list_elem_of_fmap. by exists (i, s). }
    pose proof (sort_desc_descending snd cands) as Hsorted.
    rewrite <- (take_drop (Z.to_nat n) (sort_desc snd cands)) in Hsorted.
    pose proof (StronglySorted_app_1_elem_of _ _ _ _ _ Hsorted Hp Hin) as Hle.
    cbn in Hle. by rewrite <- Heq.
Qed.

Lemma recommendations_are_top_n_witness :
  fitted one_user_model ∧ 0 ≤ 0 < n_users one_user_model ∧ 0 ≤ 1 ∧
  ∃ recs,
    CollaborativeFilteringModel.get_user_recommendations one_user_model 0 1 None = Ok recs ∧
    length recs
      = (Z.to_nat 1 `min`
         length (filter (λ i, i ∉ default (∅ : gset Z) None)
                        (indices (n_items one_user_model))))%nat ∧
    ∀ i si, 0 ≤ i < n_items one_user_model → i ∉ default (∅ : gset Z) None → i ∉ recs.*1 →
            raw_score one_user_model (Z.to_nat 0) (Z.to_nat i) = Some si →
            ∀ p, p ∈ recs → (si <= p.2)%Q.
Proof.
  assert (Hu : 0 ≤ 0 < n_users one_user_model) by (vm_compute; split; [discriminate|done]).
  assert (Hn : 0 ≤ 1) by (vm_compute; discriminate).
  split; [exact one_user_model_fitted|]. split; [exact Hu|]. split; [exact Hn|].
  exact (recommendations_are_top_n one_user_model 0 1 None one_user_model_fitted Hu Hn).
Defined.

(** ** The result of [get_recommendations] as a list *)


Lemma NoDup_Forall2 {A B C D : Type} (R : A → B → Prop) (f : A → C) (g : B → D)
    (l : list A) (k : list B) :
  Forall2 R l k → (∀ x y a b, R x a → R y b → g a = g b → f x = f y) →
  NoDup (f <$> l) → NoDup (g <$> k).
Proof.
  intros HR Hinj. induction HR as [|x a l k Hxa HR IH]; cbn; [constructor|].
  intros [Hx Hl]%NoDup_cons. constructor; [|by apply IH].
  intros (b & Hab & (j & Hj)%list_elem_of_lookup)%list_elem_of_fmap. apply Hx.
  destruct (Forall2_lookup_r _ _ _ _ _ HR Hj) as (y & Hy & Hyb).
  apply list_elem_of_fmap. exists y. split; [by eapply Hinj|by eapply list_elem_of_lookup_2].
Qed.

Lemma mapM_result_raise {A B : Type} (f : A → result B) (x : exn) (l : list A) (a : A) :
  (∀ a', a' ∈ l → f a' = Raise x ∨ ∃ b, f a' = Ok b) →
  a ∈ l → f a = Raise x → mapM_result f l = Raise x.
Proof.
  induction l as [|a0 l IH]; intros Hall Ha Hfa; [by apply elem_of_nil in Ha|].
  cbn. destruct (Hall a0) as [H0|[b H0]]; [left|by rewrite H0|]. rewrite H0. cbn.
  apply elem_of_cons in Ha as [->|Ha]; [congruence|].
  rewrite IH; [done| |done..]. intros a' Ha'. apply Hall. by right.
Qed.

Section result_list.
Context `{HR : Runtime} {HS : RuntimeSpec}.

Lemma get_recommendations_known_shape (e : HybridRecommendationEngine.t) (user : string)
    (uidx n : Z) (recs : list Recommendation) :
  e.(HybridRecommendationEngine.data_processor).(DataProcessor.user_encoder) !! user
    = Some uidx →
  HybridRecommendationEngine.get_recommendations e user n = Ok recs →
  ∃ cf cb,
    Forall2 (λ x rec, HybridRecommendationEngine.format_hybrid
                        e.(HybridRecommendationEngine.data_processor) x = Ok rec)
            (slice_to (HybridRecommendationEngine.hybrid_scores
                         e.(HybridRecommendationEngine.cf_weight)
                         e.(HybridRecommendationEngine.cb_weight) cf cb) n)
            recs.
Proof.
  intros Huser. unfold HybridRecommendationEngine.get_recommendations. rewrite Huser.
  destruct (negb _); [done|].
  destruct (HybridRecommendationEngine.cf_candidates e uidx n) as [cf|]; cbn; [|done].
  destruct (HybridRecommendationEngine.cb_candidates e uidx) as [cb|]; cbn; [|done].
  intros Hrecs%mapM_result_inv. by exists cf, cb.
Qed.

Lemma get_recommendations_cold_shape (e : HybridRecommendationEngine.t) (user : string)
    (n : Z) (recs : list Recommendation) :
  e.(HybridRecommendationEngine.data_processor).(DataProcessor.user_encoder) !! user = None →
  HybridRecommendationEngine.get_recommendations e user n = Ok recs →
  ∃ m, e.(HybridRecommendationEngine.interaction_matrix) = Some m ∧
    Forall2 (λ idx rec,
               e.(HybridRecommendationEngine.data_processor).(DataProcessor.item_decoder) !! idx
                 = Some (rec_item_id rec))
            (slice_to (reverse (np_argsort (sum_axis0 m))) n) recs.
Proof.
  intros Huser. unfold HybridRecommendationEngine.get_recommendations. rewrite Huser.
  destruct (negb _); [done|]. unfold HybridRecommendationEngine._get_popular_items.
  destruct (HybridRecommendationEngine.interaction_matrix e) as [m|]; [|done].
  intros Hrecs%mapM_result_inv. exists m. split; [done|].
  eapply Forall2_impl; [exact Hrecs|]. intros idx rec. cbn beta. unfold dict_getitem.
  destruct (DataProcessor.item_decoder _ !! idx) as [x|]; cbn; [|done].
  destruct (getitem _ idx); cbn; [|done]. by intros [= <-].
Qed.

Lemma format_hybrid_inv (dp : DataProcessor.t) (x : Z * Q * Q * Q) (rec : Recommendation) :
  HybridRecommendationEngine.format_hybrid dp x = Ok rec →
  dp.(DataProcessor.item_decoder) !! x.1.1.1 = Some (rec_item_id rec) ∧
  score rec = x.1.1.2 ∧ cf_score rec = x.1.2 ∧ cb_score rec = x.2.
Proof.
  unfold HybridRecommendationEngine.format_hybrid, dict_getitem.
  destruct (DataProcessor.item_decoder dp !! x.1.1.1) as [id|]; cbn; [|done].
  by intros [= <-].
Qed.


(** X10. No item is recommended twice: for an engine in the state Trained
    the item identifiers in a result of [get_recommendations] are pairwise
    distinct, for a known user and in the cold start alike. *)
Theorem recommendations_are_distinct (e : HybridRecommendationEngine.t) (user : string)
    (n : Z) (recs : list Recommendation) :
  HybridRecommendationEngine.Trained e →
  HybridRecommendationEngine.get_recommendations e user n = Ok recs →
  NoDup (rec_item_id <$> recs).
Proof.
  intros Htrained Hrecs.
  destruct (trained_coherent e Htrained) as [(m & Hm & Hshape) _ (col & Hitems)].
  assert (Hinj : ∀ i j x,
    e.(HybridRecommendationEngine.data_processor).(DataProcessor.item_decoder) !! i = Some x →
    e.(HybridRecommendationEngine.data_processor).(DataProcessor.item_decoder) !! j = Some x →
    i = j).
  { intros i j x Hi%(encodes_inverse _ _ _ Hitems) Hj%(encodes_inverse _ _ _ Hitems).
    congruence. }
  destruct (e.(HybridRecommendationEngine.data_processor).(DataProcessor.user_encoder)
              !! user) as [uidx|] eqn:Huser.
  - destruct (get_recommendations_known_shape e user uidx n recs Huser Hrecs)
      as (cf & cb & Hall).
    eapply (NoDup_Forall2 _ (λ x : Z * Q * Q * Q, x.1.1.1)); [exact Hall| |].
    + intros x y a b (Hx & _)%format_hybrid_inv (Hy & _)%format_hybrid_inv Hab.
      rewrite Hab in Hx. by eapply Hinj.
    + eapply sublist_NoDup; [|apply fmap_sublist, sublist_slice_to].
      unfold HybridRecommendationEngine.hybrid_scores.
      rewrite sort_desc_perm, <- list_fmap_compose.
      rewrite (list_fmap_ext _ id (set_iter (dom cf ∪ dom cb))) by done.
      rewrite list_fmap_id, set_iter_perm. apply NoDup_elements.
  - destruct (get_recommendations_cold_shape e user n recs Huser Hrecs)
      as (m' & Hm' & Hall).
    rewrite <- (list_fmap_id (slice_to _ n)) in Hall.
    assert (Hnd : NoDup (id <$> slice_to (reverse (np_argsort (sum_axis0 m'))) n)).
    { rewrite list_fmap_id. eapply sublist_NoDup; [|apply sublist_slice_to].
      rewrite reverse_Permutation, np_argsort_perm. unfold indices.
      apply NoDup_fmap_2; [apply Nat2Z.inj'|apply NoDup_seq]. }
    rewrite list_fmap_id in Hall.
    eapply (NoDup_Forall2 _ id); [exact Hall| |exact Hnd].
    intros x y a b Hx Hy Hab. cbn in Hx, Hy. rewrite Hab in Hx. by eapply Hinj.
Qed.

(** X11. The content model numbers the rows of the items table, the decoder
    the items of the filtered interactions.  When one of the first [n]
    ranked candidates of a known user is an index the item decoder does not
    have, [get_recommendations] raises [KeyError] instead of returning. *)
Theorem undecodable_candidate_raises (e : HybridRecommendationEngine.t) (user : string)
    (uidx n : Z) (cf cb : gmap Z Q) (x : Z * Q * Q * Q) :
  e.(HybridRecommendationEngine.is_trained) = true →
  e.(HybridRecommendationEngine.data_processor).(DataProcessor.user_encoder) !! user
    = Some uidx →
  HybridRecommendationEngine.cf_candidates e uidx n = Ok cf →
  HybridRecommendationEngine.cb_candidates e uidx = Ok cb →
  x ∈ slice_to (HybridRecommendationEngine.hybrid_scores
                  e.(HybridRecommendationEngine.cf_weight)
                  e.(HybridRecommendationEngine.cb_weight) cf cb) n →
  e.(HybridRecommendationEngine.data_processor).(DataProcessor.item_decoder) !! x.1.1.1
    = None →
  HybridRecommendationEngine.get_recommendations e user n = Raise KeyError.
Proof.
  intros Hflag Huser Hcf Hcb Hx Hnone.
  unfold HybridRecommendationEngine.get_recommendations.
  rewrite Hflag, Huser, Hcf. cbn. rewrite Hcb. cbn.
  apply (mapM_result_raise _ _ _ x); [|done|].
  - intros y _. unfold HybridRecommendationEngine.format_hybrid, dict_getitem.
    destruct (DataProcessor.item_decoder _ !! y.1.1.1); cbn; [right; by eexists|by left].
  - unfold HybridRecommendationEngine.format_hybrid, dict_getitem. by rewrite Hnone.
Qed.

End result_list.


Lemma recommendations_are_distinct_witness :
  HybridRecommendationEngine.Trained scenario_engine ∧
  ∃ recs,
    HybridRecommendationEngine.get_recommendations scenario_engine "u_unknown" 3 = Ok recs ∧
    length recs = 3%nat ∧ NoDup (rec_item_id <$> recs).
Proof.
  destruct (HybridRecommendationEngine.get_recommendations scenario_engine "u_unknown" 3)
    as [recs|x] eqn:Hrecs; [|vm_compute in Hrecs; discriminate Hrecs].
  split; [exact scenario_engine_trained|]. exists recs. split; [reflexivity|]. split.
  - vm_compute in Hrecs. injection Hrecs as <-. reflexivity.
  - exact (recommendations_are_distinct scenario_engine "u_unknown" 3 recs
             scenario_engine_trained Hrecs).
Defined.

Lemma undecodable_candidate_raises_witness :
  wide_catalog_engine.(HybridRecommendationEngine.is_trained) = true ∧
  wide_catalog_engine.(HybridRecommendationEngine.data_processor).(DataProcessor.user_encoder)
    !! "u1"%string = Some 0 ∧
  HybridRecommendationEngine.cf_candidates wide_catalog_engine 0 3
    = Ok {[ 1 := (14940 # 2700)%Q ]} ∧
  HybridRecommendationEngine.cb_candidates wide_catalog_engine 0
    = Ok {[ 1 := (1 # 1)%Q; 2 := (1 # 2)%Q ]} ∧
  wide_catalog_engine.(HybridRecommendationEngine.data_processor).(DataProcessor.item_decoder)
    !! 2 = None ∧
  HybridRecommendationEngine.get_recommendations wide_catalog_engine "u1" 3 = Raise KeyError.
Proof.
  assert (Hflag : wide_catalog_engine.(HybridRecommendationEngine.is_trained) = true)
    by (vm_compute; reflexivity).
  assert (Huser : wide_catalog_engine.(HybridRecommendationEngine.data_processor)
                    .(DataProcessor.user_encoder) !! "u1"%string = Some 0)
    by (vm_compute; reflexivity).
  assert (Hcf : HybridRecommendationEngine.cf_candidates wide_catalog_engine 0 3
                = Ok {[ 1 := (14940 # 2700)%Q ]}) by (vm_compute; reflexivity).
  assert (Hcb : HybridRecommendationEngine.cb_candidates wide_catalog_engine 0
                = Ok {[ 1 := (1 # 1)%Q; 2 := (1 # 2)%Q ]}) by (vm_compute; reflexivity).
  assert (Hnone : wide_catalog_engine.(HybridRecommendationEngine.data_processor)
                    .(DataProcessor.item_decoder) !! 2 = None) by (vm_compute; reflexivity).
  split; [exact Hflag|]. split; [exact Huser|]. split; [exact Hcf|]. split; [exact Hcb|].
  split; [exact Hnone|].
  apply (undecodable_candidate_raises wide_catalog_engine "u1" 0 3 _ _
           (2, (30 # 200)%Q, (0 # 1)%Q, (1 # 2)%Q) Hflag Huser Hcf Hcb); [|exact Hnone].
  apply list_elem_of_In. vm_compute. right. left. reflexivity.
Defined.

(** ** Training twice *)








(** ** What a training call depends on *)

Lemma preprocess_reads_min_interactions (dp1 dp2 : DataProcessor.t) (d : DataFrame) :
  dp1.(DataProcessor.min_interactions) = dp2.(DataProcessor.min_interactions) →
  DataProcessor.preprocess_interactions dp1 d = DataProcessor.preprocess_interactions dp2 d.
Proof. intros Hmin. unfold DataProcessor.preprocess_interactions. by rewrite Hmin. Qed.

Lemma cf_fit_reads_settings `{HR : Runtime} (m1 m2 : CollaborativeFilteringModel.t)
    (mat : csr_matrix) :
  m1.(CollaborativeFilteringModel.n_components) = m2.(CollaborativeFilteringModel.n_components) →
  m1.(CollaborativeFilteringModel.random_state) = m2.(CollaborativeFilteringModel.random_state) →
  (CollaborativeFilteringModel.fit m1 mat).2 = (CollaborativeFilteringModel.fit m2 mat).2 ∧
  ((CollaborativeFilteringModel.fit m1 mat).2 = Ok () →
   (CollaborativeFilteringModel.fit m1 mat).1 = (CollaborativeFilteringModel.fit m2 mat).1).
Proof.
  intros Hk Hseed. unfold CollaborativeFilteringModel.fit. rewrite Hk, Hseed.
  by destruct (truncated_svd _ _ mat) as [[uf itf]|x].
Qed.

Lemma cb_fit_reads_settings `{HR : Runtime} (cb1 cb2 : ContentBasedModel.t)
    (items : ItemsFrame) (features : list string) :
  cb1.(ContentBasedModel.max_features) = cb2.(ContentBasedModel.max_features) →
  (ContentBasedModel.fit cb1 items features).2 = (ContentBasedModel.fit cb2 items features).2 ∧
  ((ContentBasedModel.fit cb1 items features).2 = Ok () →
   (ContentBasedModel.fit cb1 items features).1 = (ContentBasedModel.fit cb2 items features).1).
Proof.
  intros Hmax. unfold ContentBasedModel.fit. rewrite Hmax.
  destruct (mapM_result _ items) as [texts|x]; [|done].
  by destruct (tfidf_cosine _ texts) as [sim|x].
Qed.

(** X13. What a training call rebuilds depends on the tables and on the
    engine's settings only: two engines that agree on [min_interactions],
    [n_components], [random_state] and [max_features] end the same call with
    the same outcome, the same encoders and decoders and the same
    interaction matrix, and, when the call returns normally, with the same
    latent factor model and the same content model, whatever either engine
    had learnt before. *)
Theorem train_rebuilds_from_data `{HR : Runtime} (e1 e2 : HybridRecommendationEngine.t)
    (d : DataFrame) (items : ItemsFrame) (features : list string) :
  e1.(HybridRecommendationEngine.data_processor).(DataProcessor.min_interactions)
    = e2.(HybridRecommendationEngine.data_processor).(DataProcessor.min_interactions) →
  e1.(HybridRecommendationEngine.cf_model).(CollaborativeFilteringModel.n_components)
    = e2.(HybridRecommendationEngine.cf_model).(CollaborativeFilteringModel.n_components) →
  e1.(HybridRecommendationEngine.cf_model).(CollaborativeFilteringModel.random_state)
    = e2.(HybridRecommendationEngine.cf_model).(CollaborativeFilteringModel.random_state) →
  e1.(HybridRecommendationEngine.cb_model).(ContentBasedModel.max_features)
    = e2.(HybridRecommendationEngine.cb_model).(ContentBasedModel.max_features) →
  let t1 := HybridRecommendationEngine.train e1 d items features in
  let t2 := HybridRecommendationEngine.train e2 d items features in
  t1.2 = t2.2 ∧
  t1.1.(HybridRecommendationEngine.data_processor)
    = t2.1.(HybridRecommendationEngine.data_processor) ∧
  t1.1.(HybridRecommendationEngine.interaction_matrix)
    = t2.1.(HybridRecommendationEngine.interaction_matrix) ∧
  (t1.2 = Ok () →
   t1.1.(HybridRecommendationEngine.cf_model) = t2.1.(HybridRecommendationEngine.cf_model) ∧
   t1.1.(HybridRecommendationEngine.cb_model) = t2.1.(HybridRecommendationEngine.cb_model) ∧
   t1.1.(HybridRecommendationEngine.is_trained) = true ∧
   t2.1.(HybridRecommendationEngine.is_trained) = true).
Proof.
  intros Hmin Hk Hseed Hmax. unfold HybridRecommendationEngine.train.
  rewrite (preprocess_reads_min_interactions _ _ d Hmin).
  destruct (DataProcessor.preprocess_interactions _ d) as [dp clean].
  destruct (cf_fit_reads_settings _ _ (DataProcessor.create_interaction_matrix dp clean)
              Hk Hseed) as [Hcf2 Hcf1].
  destruct (cb_fit_reads_settings _ _ items features Hmax) as [Hcb2 Hcb1].
  destruct (CollaborativeFilteringModel.fit e1.(HybridRecommendationEngine.cf_model) _)
    as [cf1 r1], (CollaborativeFilteringModel.fit e2.(HybridRecommendationEngine.cf_model) _)
    as [cf2 r2].
  cbn in Hcf2, Hcf1. subst r2.
  destruct r1 as [[]|x]; [|by cbn].
  specialize (Hcf1 eq_refl) as ->.
  destruct (ContentBasedModel.fit e1.(HybridRecommendationEngine.cb_model) items features)
    as [cb1 q1], (ContentBasedModel.fit e2.(HybridRecommendationEngine.cb_model) items features)
    as [cb2 q2].
  cbn in Hcb2, Hcb1. subst q2.
  destruct q1 as [[]|x]; [|by cbn].
  specialize (Hcb1 eq_refl) as ->. by cbn.
Qed.

Lemma train_rebuilds_from_data_witness :
  (HybridRecommendationEngine.train scenario_engine retrain_interactions
     retrain_items ["title"%string]).2 = Ok () ∧
  retrained_engine.(HybridRecommendationEngine.cf_model)
    = fresh_engine.(HybridRecommendationEngine.cf_model) ∧
  retrained_engine.(HybridRecommendationEngine.cb_model)
    = fresh_engine.(HybridRecommendationEngine.cb_model).
Proof.
  assert (Hok : (HybridRecommendationEngine.train scenario_engine retrain_interactions
                   retrain_items ["title"%string]).2 = Ok ()) by (vm_compute; reflexivity).
  split; [exact Hok|].
  destruct (train_rebuilds_from_data scenario_engine scenario_untrained retrain_interactions
              retrain_items ["title"%string] eq_refl eq_refl eq_refl eq_refl)
    as (_ & _ & _ & Hmodels).
  destruct (Hmodels Hok) as (Hcf & Hcb & _). split; [exact Hcf|exact Hcb].
Defined.

(** ** A feature column the items table lacks *)








(** ** The latent factor model after [fit] *)

Section factor_model.
Context `{HR : Runtime} {HS : RuntimeSpec}.

(** X15. A [fit] that returns normally leaves a fitted model: the factor
    matrices have one row per row and per column of the interaction matrix,
    the bias vectors have the same lengths, the global mean is the mean of
    the stored entries, and the two settings are unchanged. *)
Theorem fit_establishes_fitted (m m' : CollaborativeFilteringModel.t) (mat : csr_matrix) :
  0 ≤ mat.(shape).1 → 0 ≤ mat.(shape).2 →
  CollaborativeFilteringModel.fit m mat = (m', Ok ()) →
  fitted m' ∧ n_users m' = mat.(shape).1 ∧ n_items m' = mat.(shape).2 ∧
  Z.of_nat (length (default [] m'.(CollaborativeFilteringModel.user_biases)))
    = mat.(shape).1 ∧
  Z.of_nat (length (default [] m'.(CollaborativeFilteringModel.item_biases)))
    = mat.(shape).2 ∧
  m'.(CollaborativeFilteringModel.global_mean) = Some (np_mean (matrix_data mat)) ∧
  m'.(CollaborativeFilteringModel.n_components) = m.(CollaborativeFilteringModel.n_components) ∧
  m'.(CollaborativeFilteringModel.random_state) = m.(CollaborativeFilteringModel.random_state).
Proof.
  intros H1 H2 Hfit.
  destruct (fit_Ok_fitted m m' mat H1 H2 Hfit) as (Hfitted & Hnu & Hni).
  do 3 (split; [done|]).
  revert Hfit Hfitted Hnu Hni. unfold CollaborativeFilteringModel.fit.
  destruct (truncated_svd _ _ mat) as [[uf itf]|x]; [|done].
  intros [= <-]. unfold fitted, n_users, n_items. cbn.
  intros (Hub & Hib & _) Hnu Hni. rewrite Hub, Hib. done.
Qed.

(** X16. A [fit] that fails in the decomposition has already replaced the
    global mean and the bias vectors, while the factor matrices are still
    those of the previous fit. On a fitted model and a matrix with another
    number of users, the model is no longer fitted afterwards: its user bias
    vector has one entry per user of the new matrix, its factor matrix one
    row per user of the old one. *)
Theorem failed_fit_leaves_mixed_state (m m' : CollaborativeFilteringModel.t)
    (mat : csr_matrix) (x : exn) :
  fitted m → 0 ≤ mat.(shape).1 → mat.(shape).1 ≠ n_users m →
  CollaborativeFilteringModel.fit m mat = (m', Raise x) →
  m'.(CollaborativeFilteringModel.user_factors) = m.(CollaborativeFilteringModel.user_factors) ∧
  m'.(CollaborativeFilteringModel.item_factors) = m.(CollaborativeFilteringModel.item_factors) ∧
  m'.(CollaborativeFilteringModel.global_mean) = Some (np_mean (matrix_data mat)) ∧
  Z.of_nat (length (default [] m'.(CollaborativeFilteringModel.user_biases)))
    = mat.(shape).1 ∧
  ¬ fitted m'.
Proof.
  intros Hm H1 Hne. unfold CollaborativeFilteringModel.fit.
  destruct (truncated_svd _ _ mat) as [[uf itf]|x']; [done|].
  intros [= <- _]. cbn.
  assert (Hlen : Z.of_nat (length ((λ y : Q, (y - np_mean (matrix_data mat))%Q) <$>
                   np_divide_where (sum_axis1 mat) (positive_axis1 mat))) = mat.(shape).1).
  { rewrite length_fmap. unfold np_divide_where, sum_axis1, positive_axis1.
    rewrite length_zip_with, !length_fmap, !length_indices. lia. }
  do 3 (split; [done|]). split; [exact Hlen|].
  unfold fitted, n_users in *. cbn.
  destruct (CollaborativeFilteringModel.user_factors m) as [uf|]; [|done].
  destruct (CollaborativeFilteringModel.item_factors m) as [itf|]; [|done].
  intros (Hub & _). cbn in Hne. lia.
Qed.

End factor_model.

Lemma fit_establishes_fitted_witness :
  fitted (CollaborativeFilteringModel.fit (CollaborativeFilteringModel.init 1 42)
            one_item_matrix).1.
Proof.
  destruct (CollaborativeFilteringModel.fit (CollaborativeFilteringModel.init 1 42)
              one_item_matrix) as [m' r] eqn:Hfit.
  assert (Hr : r = Ok ()) by (vm_compute in Hfit; congruence).
  subst r.
  assert (H1 : 0 ≤ one_item_matrix.(shape).1) by (cbn; lia).
  assert (H2 : 0 ≤ one_item_matrix.(shape).2) by (cbn; lia).
  exact (proj1 (fit_establishes_fitted _ m' one_item_matrix H1 H2 Hfit)).
Defined.

Lemma failed_fit_leaves_mixed_state_witness :
  ¬ fitted (CollaborativeFilteringModel.fit
              scenario_engine.(HybridRecommendationEngine.cf_model) one_item_matrix).1.
Proof.
  destruct (CollaborativeFilteringModel.fit
              scenario_engine.(HybridRecommendationEngine.cf_model) one_item_matrix)
    as [m' r] eqn:Hfit.
  assert (Hr : r = Raise ValueError) by (vm_compute in Hfit; congruence).
  subst r.
  assert (Hm : fitted scenario_engine.(HybridRecommendationEngine.cf_model))
    by (apply wt_fitted, fully_trained_well_trained, scenario_engine_fully_trained).
  assert (H1 : 0 ≤ one_item_matrix.(shape).1) by (cbn; lia).
  assert (Hne : one_item_matrix.(shape).1
                ≠ n_users scenario_engine.(HybridRecommendationEngine.cf_model))
    by (vm_compute; discriminate).
  destruct (failed_fit_leaves_mixed_state _ m' one_item_matrix ValueError Hm H1 Hne Hfit)
    as (_ & _ & _ & _ & Hnot).
  exact Hnot.
Defined.

(** ** When a known user gets a result *)

Lemma similar_items_total (cb : ContentBasedModel.t) (sim : list (list Q)) (idx n : Z) :
  cb.(ContentBasedModel.item_similarity_matrix) = Some sim → 0 ≤ idx →
  ∃ sims, ContentBasedModel.get_similar_items cb idx n = Ok sims ∧
    ∀ p, p ∈ sims → ∃ row, row ∈ sim ∧ 0 ≤ p.1 < Z.of_nat (length row).
Proof.
  intros Hsim Hidx. unfold ContentBasedModel.get_similar_items. rewrite Hsim.
  destruct (Z.geb_spec idx (Z.of_nat (length sim))) as [_|Hlt].
  - exists []. split; [done|]. by intros p ?%elem_of_nil.
  - destruct (getitem_in_range sim idx) as (row & Hrow & ->); [lia|]. cbn.
    eexists. split; [done|].
    intros [k s] Hp%elem_of_slice_to%elem_of_sort_desc.
    apply list_elem_of_filter in Hp as [_ (j & -> & Hj)%elem_of_enumerate].
    exists row. split; [by eapply list_elem_of_lookup_2|].
    apply lookup_lt_Some in Hj. cbn. lia.
Qed.

Lemma foldl_add_similar_range (seen : gset Z) (l : list (Z * Q)) (acc : gmap Z Q)
    (P : Z → Prop) :
  (∀ k, k ∈ dom acc → P k) → (∀ p, p ∈ l → P p.1) →
  ∀ k, k ∈ dom (foldl (HybridRecommendationEngine.add_similar seen) acc l) → P k.
Proof.
  revert acc. induction l as [|p l IH]; intros acc Hacc Hl; cbn; [done|].
  apply IH; [|intros q Hq; apply Hl; by right].
  intros k. unfold HybridRecommendationEngine.add_similar.
  destruct (decide (p.1 ∉ seen)) as [_|_]; [|by apply Hacc].
  rewrite dom_insert, elem_of_union, elem_of_singleton.
  intros [->|Hk]; [apply Hl; by left|by apply Hacc].
Qed.

Lemma content_scores_total (cb : ContentBasedModel.t) (sim : list (list Q))
    (seen : gset Z) (seeds : list Z) (acc : gmap Z Q) (N : Z) :
  cb.(ContentBasedModel.item_similarity_matrix) = Some sim →
  Forall (λ row, Z.of_nat (length row) ≤ N) sim →
  (∀ s, s ∈ seeds → 0 ≤ s) →
  (∀ k, k ∈ dom acc → 0 ≤ k < N) →
  ∃ res, HybridRecommendationEngine.content_scores cb seen seeds acc = Ok res ∧
    ∀ k, k ∈ dom res → 0 ≤ k < N.
Proof.
  intros Hsim Hrows. revert acc.
  induction seeds as [|seed seeds IH]; intros acc Hseeds Hacc; cbn.
  - by exists acc.
  - destruct (similar_items_total cb sim seed 20 Hsim) as (sims & -> & Hsims);
      [apply Hseeds; by left|].
    cbn. apply IH; [intros s Hs; apply Hseeds; by right|].
    apply foldl_add_similar_range; [done|].
    intros p (row & Hrow & Hp)%Hsims.
    pose proof (proj1 (Forall_forall _ _) Hrows row Hrow) as Hle. cbn in Hle. lia.
Qed.

Section known_user_result.
Context `{HR : Runtime} {HS : RuntimeSpec}.

(** X17. A known user of a completely trained engine gets a result:
    [get_recommendations] returns normally, for every requested count,
    provided the content similarity matrix has no row longer than the
    number of encoded items and the user's seen set holds no negative
    index. *)
Theorem known_user_gets_recommendations (e : HybridRecommendationEngine.t)
    (user : string) (uidx n : Z) :
  HybridRecommendationEngine.FullyTrained e →
  e.(HybridRecommendationEngine.data_processor).(DataProcessor.user_encoder) !! user
    = Some uidx →
  Forall (λ row, (length row ≤ size e.(HybridRecommendationEngine.data_processor)
                                      .(DataProcessor.item_encoder))%nat)
         (default [] e.(HybridRecommendationEngine.cb_model)
                        .(ContentBasedModel.item_similarity_matrix)) →
  set_Forall (λ j, 0 ≤ j)
             (dict_get e.(HybridRecommendationEngine.user_item_interactions) uidx ∅) →
  ∃ recs, HybridRecommendationEngine.get_recommendations e user n = Ok recs.
Proof.
  intros Hfull Huser Hrows Hseen.
  destruct (fully_trained_well_trained e Hfull)
    as [Hflag [_ (ucol & Husers) (icol & Hitems)] Hfitted Hnu Hni].
  destruct Hfull as (e0 & d & items & features & Htrain).
  destruct (train_inv _ _ _ _ _ _ Htrain) as (_ & _ & _ & _ & _ & _ & Hfit).
  destruct (Hfit (ex_intro _ () eq_refl)) as [_ Hcb].
  assert (∃ sim, e.(HybridRecommendationEngine.cb_model)
                   .(ContentBasedModel.item_similarity_matrix) = Some sim) as [sim Hsim].
  { revert Hcb. unfold ContentBasedModel.fit.
    destruct (mapM_result _ items) as [texts|]; [|done].
    destruct (tfidf_cosine _ texts) as [sim|]; [|done].
    intros [= <-]. by eexists. }
  rewrite Hsim in Hrows. cbn in Hrows.
  set (N := Z.of_nat (size e.(HybridRecommendationEngine.data_processor)
                            .(DataProcessor.item_encoder))) in *.
  pose proof (encodes_range _ _ _ Husers _ _ Huser) as Hur.
  unfold HybridRecommendationEngine.get_recommendations. rewrite Hflag, Huser. cbn [negb].
  (* the collaborative-filtering candidates *)
  assert (∃ cf, HybridRecommendationEngine.cf_candidates e uidx n = Ok cf ∧
                ∀ k, k ∈ dom cf → 0 ≤ k < N) as (cf & -> & Hcf).
  { unfold HybridRecommendationEngine.cf_candidates.
    destruct (recommendations_fitted_shape e.(HybridRecommendationEngine.cf_model) uidx (n * 2)
                (Some (dict_get e.(HybridRecommendationEngine.user_item_interactions) uidx ∅))
                Hfitted) as (scores & Hlen & _ & ->); [lia|].
    cbn. eexists. split; [done|].
    intros k Hk%elem_of_dom%dict_of_dom.
    apply list_elem_of_fmap in Hk as ([k' s] & -> & Hin).
    apply elem_of_slice_to, elem_of_sort_desc, list_elem_of_filter in Hin as [_ Hin].
    apply elem_of_enumerate in Hin as (j & -> & Hj). apply lookup_lt_Some in Hj.
    cbn. unfold N. lia. }
  cbn.
  (* the content-based candidates *)
  assert (∃ cb, HybridRecommendationEngine.cb_candidates e uidx = Ok cb ∧
                ∀ k, k ∈ dom cb → 0 ≤ k < N) as (cb & -> & Hcbs).
  { unfold HybridRecommendationEngine.cb_candidates.
    destruct (decide (_ ≠ ∅)) as [_|_].
    - apply (content_scores_total _ sim); [done| | |].
      + eapply Forall_impl; [exact Hrows|]. intros row Hrow. cbn in Hrow. unfold N. lia.
      + intros s Hs%elem_of_slice_to%elem_of_set_iter. by apply Hseen.
      + intros k. by rewrite dom_empty, elem_of_empty.
    - exists ∅. split; [done|]. intros k. by rewrite dom_empty, elem_of_empty. }
  cbn.
  (* every candidate has an identifier *)
  destruct (mapM_result_Forall2
              (HybridRecommendationEngine.format_hybrid
                 e.(HybridRecommendationEngine.data_processor)) (λ _ _, True)
              (slice_to (HybridRecommendationEngine.hybrid_scores
                           e.(HybridRecommendationEngine.cf_weight)
                           e.(HybridRecommendationEngine.cb_weight) cf cb) n))
    as (recs & Hrecs & _); [|by exists recs].
  intros x Hx%elem_of_slice_to.
  unfold HybridRecommendationEngine.hybrid_scores in Hx.
  apply elem_of_sort_desc, list_elem_of_fmap in Hx as (idx & -> & Hidx).
  apply elem_of_set_iter, elem_of_union in Hidx.
  assert (Hrange : 0 ≤ idx < N) by (destruct Hidx; auto).
  destruct (encodes_onto _ _ _ Hitems idx Hrange) as (id & Hid).
  apply (encodes_inverse _ _ _ Hitems) in Hid.
  unfold HybridRecommendationEngine.format_hybrid, HybridRecommendationEngine.fuse,
    dict_getitem. cbn. rewrite Hid. cbn. by eexists.
Qed.

End known_user_result.

Lemma known_user_gets_recommendations_witness :
  ∃ recs, HybridRecommendationEngine.get_recommendations scenario_engine "u1" 2 = Ok recs.
Proof.
  assert (Huser : scenario_engine.(HybridRecommendationEngine.data_processor)
                    .(DataProcessor.user_encoder) !! "u1"%string = Some 0)
    by (vm_compute; reflexivity).
  assert (Hrows : Forall (λ row, (length row ≤ size scenario_engine
                                      .(HybridRecommendationEngine.data_processor)
                                      .(DataProcessor.item_encoder))%nat)
                    (default [] scenario_engine.(HybridRecommendationEngine.cb_model)
                                  .(ContentBasedModel.item_similarity_matrix)))
    by (apply (bool_decide_unpack _); vm_compute; exact I).
  assert (Hseen : set_Forall (λ j, 0 ≤ j)
                    (dict_get scenario_engine.(HybridRecommendationEngine.user_item_interactions)
                       0 ∅))
    by (apply (bool_decide_unpack _); vm_compute; exact I).
  exact (known_user_gets_recommendations scenario_engine "u1" 0 2
           scenario_engine_fully_trained Huser Hrows Hseen).
Defined.

(** ** What [train] leaves alone, and where the seen sets point *)

(** X18. A training call never changes a setting: whatever its outcome,
    the engine it leaves has the fusion weights, the interaction threshold,
    the number of latent components, the random seed and the vocabulary
    limit it had before. *)
Theorem train_keeps_settings `{HR : Runtime} (e : HybridRecommendationEngine.t)
    (d : DataFrame) (items : ItemsFrame) (features : list string) :
  let e' := (HybridRecommendationEngine.train e d items features).1 in
  e'.(HybridRecommendationEngine.cf_weight) = e.(HybridRecommendationEngine.cf_weight) ∧
  e'.(HybridRecommendationEngine.cb_weight) = e.(HybridRecommendationEngine.cb_weight) ∧
  e'.(HybridRecommendationEngine.data_processor).(DataProcessor.min_interactions)
    = e.(HybridRecommendationEngine.data_processor).(DataProcessor.min_interactions) ∧
  e'.(HybridRecommendationEngine.cf_model).(CollaborativeFilteringModel.n_components)
    = e.(HybridRecommendationEngine.cf_model).(CollaborativeFilteringModel.n_components) ∧
  e'.(HybridRecommendationEngine.cf_model).(CollaborativeFilteringModel.random_state)
    = e.(HybridRecommendationEngine.cf_model).(CollaborativeFilteringModel.random_state) ∧
  e'.(HybridRecommendationEngine.cb_model).(ContentBasedModel.max_features)
    = e.(HybridRecommendationEngine.cb_model).(ContentBasedModel.max_features).
Proof.
  unfold HybridRecommendationEngine.train.
  assert (Hmin : (DataProcessor.preprocess_interactions
                    e.(HybridRecommendationEngine.data_processor) d).1
                   .(DataProcessor.min_interactions)
                 = e.(HybridRecommendationEngine.data_processor)
                     .(DataProcessor.min_interactions)) by reflexivity.
  destruct (DataProcessor.preprocess_interactions _ d) as [dp clean]. cbn [fst] in Hmin.
  assert (Hcf : ∀ mat,
    (CollaborativeFilteringModel.fit e.(HybridRecommendationEngine.cf_model) mat).1
      .(CollaborativeFilteringModel.n_components)
    = e.(HybridRecommendationEngine.cf_model).(CollaborativeFilteringModel.n_components) ∧
    (CollaborativeFilteringModel.fit e.(HybridRecommendationEngine.cf_model) mat).1
      .(CollaborativeFilteringModel.random_state)
    = e.(HybridRecommendationEngine.cf_model).(CollaborativeFilteringModel.random_state)).
  { intros mat. unfold CollaborativeFilteringModel.fit.
    by destruct (truncated_svd _ _ mat) as [[uf itf]|x]. }
  assert (Hcb :
    (ContentBasedModel.fit e.(HybridRecommendationEngine.cb_model) items features).1
      .(ContentBasedModel.max_features)
    = e.(HybridRecommendationEngine.cb_model).(ContentBasedModel.max_features)).
  { unfold ContentBasedModel.fit.
    destruct (mapM_result _ items) as [texts|x]; [|done].
    by destruct (tfidf_cosine _ texts) as [sim|x]. }
  specialize (Hcf (DataProcessor.create_interaction_matrix dp clean)).
  destruct (CollaborativeFilteringModel.fit _ _) as [cf [[]|x]]; cbn in Hcf.
  - destruct (ContentBasedModel.fit _ items features) as [cb [[]|x]]; cbn in Hcb; cbn;
      by destruct Hcf.
  - cbn. by destruct Hcf.
Qed.

(** X19. Every index a training call adds to a seen set is a valid one:
    after [train], an index in the seen set of user [u] was there before
    the call, or [u] is a row and the index a column of the encoders the
    call has built. *)
Theorem seen_indices_in_range `{HR : Runtime} (e0 e : HybridRecommendationEngine.t)
    (d : DataFrame) (items : ItemsFrame) (features : list string) (r : result unit) :
  HybridRecommendationEngine.train e0 d items features = (e, r) →
  ∀ u j, j ∈ dict_get e.(HybridRecommendationEngine.user_item_interactions) u ∅ →
    j ∈ dict_get e0.(HybridRecommendationEngine.user_item_interactions) u ∅ ∨
    (0 ≤ u < Z.of_nat (size e.(HybridRecommendationEngine.data_processor)
                              .(DataProcessor.user_encoder)) ∧
     0 ≤ j < Z.of_nat (size e.(HybridRecommendationEngine.data_processor)
                              .(DataProcessor.item_encoder))).
Proof.
  intros Htrain u j.
  destruct (train_inv _ _ _ _ _ _ Htrain) as (Hdp & _ & Huii & _).
  rewrite Huii, elem_of_store_interactions.
  intros [?|(row & Hrow & <- & <-)]; [by left|right].
  destruct (preprocess_encodes e0.(HybridRecommendationEngine.data_processor) d)
    as (Hu & Hi & _). cbn zeta in Hu, Hi.
  pose proof (preprocess_user_idx _ _ _ Hrow) as Hru.
  pose proof (preprocess_item_idx _ _ _ Hrow) as Hri.
  rewrite Hdp. split.
  - exact (encodes_range _ _ _ Hu _ _ Hru).
  - exact (encodes_range _ _ _ Hi _ _ Hri).
Qed.

Lemma seen_indices_in_range_witness :
  2 ∈ dict_get scenario_engine.(HybridRecommendationEngine.user_item_interactions) 1 ∅ ∧
  (2 ∈ dict_get scenario_untrained.(HybridRecommendationEngine.user_item_interactions) 1 ∅ ∨
   (0 ≤ 1 < Z.of_nat (size scenario_engine.(HybridRecommendationEngine.data_processor)
                             .(DataProcessor.user_encoder)) ∧
    0 ≤ 2 < Z.of_nat (size scenario_engine.(HybridRecommendationEngine.data_processor)
                             .(DataProcessor.item_encoder)))).
Proof.
  assert (Htrain : HybridRecommendationEngine.train scenario_untrained scenario_interactions
                     scenario_items ["title"%string] = (scenario_engine, Ok ()))
    by (vm_compute; reflexivity).
  assert (Hseen : 2 ∈ dict_get scenario_engine.(HybridRecommendationEngine.user_item_interactions)
                         1 ∅)
    by (apply (bool_decide_unpack _); vm_compute; exact I).
  split; [exact Hseen|].
  exact (seen_indices_in_range scenario_untrained scenario_engine scenario_interactions
           scenario_items ["title"%string] (Ok ()) Htrain 1 2 Hseen).
Defined.

(** ** The size of a content score *)

Lemma getitem_Ok_elem {A : Type} (l : list A) (i : Z) (x : A) :
  getitem l i = Ok x → x ∈ l.
Proof.
  unfold getitem. destruct (_ && _); [|done].
  destruct (l !! _) as [a|] eqn:Ha; [|done].
  intros [= <-]. by eapply list_elem_of_lookup_2.
Qed.

Lemma similar_items_rows (cb : ContentBasedModel.t) (sim : list (list Q)) (idx n : Z)
    (sims : list (Z * Q)) :
  cb.(ContentBasedModel.item_similarity_matrix) = Some sim →
  ContentBasedModel.get_similar_items cb idx n = Ok sims →
  NoDup sims.*1 ∧ ∀ p, p ∈ sims → ∃ row, row ∈ sim ∧ p.2 ∈ row.
Proof.
  intros Hsim Hsims. split.
  - destruct (similar_items_shape _ _ _ _ Hsims) as (row & ->).
    by destruct (ranking_sorted (λ p, p.1 ≠ idx) row n) as (_ & Hnd & _).
  - revert Hsims. unfold ContentBasedModel.get_similar_items. rewrite Hsim.
    destruct (idx >=? Z.of_nat (length sim)); [intros [= <-] p ?%elem_of_nil; done|].
    destruct (getitem sim idx) as [row|] eqn:Hrow; cbn; [|done].
    intros [= <-] [k s] Hp%elem_of_slice_to%elem_of_sort_desc.
    apply list_elem_of_filter in Hp as [_ (j & _ & Hj)%elem_of_enumerate].
    exists row. split; [by eapply getitem_Ok_elem|by eapply list_elem_of_lookup_2].
Qed.

Lemma add_similar_other (seen : gset Z) (acc : gmap Z Q) (p : Z * Q) (k : Z) :
  k ≠ p.1 → dict_get (HybridRecommendationEngine.add_similar seen acc p) k (0 # 1)%Q
            = dict_get acc k (0 # 1)%Q.
Proof.
  intros Hne. unfold HybridRecommendationEngine.add_similar.
  destruct (decide (p.1 ∉ seen)); [|done].
  unfold dict_get. by rewrite lookup_insert_ne.
Qed.

Lemma add_similar_same (seen : gset Z) (acc : gmap Z Q) (p : Z * Q) :
  dict_get (HybridRecommendationEngine.add_similar seen acc p) p.1 (0 # 1)%Q
    = (dict_get acc p.1 (0 # 1) + p.2)%Q ∨
  dict_get (HybridRecommendationEngine.add_similar seen acc p) p.1 (0 # 1)%Q
    = dict_get acc p.1 (0 # 1)%Q.
Proof.
  unfold HybridRecommendationEngine.add_similar.
  destruct (decide (p.1 ∉ seen)); [left|by right].
  unfold dict_get at 1. by rewrite lookup_insert_eq.
Qed.

Lemma foldl_add_similar_absent (seen : gset Z) (l : list (Z * Q)) (acc : gmap Z Q) (k : Z) :
  k ∉ l.*1 →
  dict_get (foldl (HybridRecommendationEngine.add_similar seen) acc l) k (0 # 1)%Q
  = dict_get acc k (0 # 1)%Q.
Proof.
  revert acc. induction l as [|p l IH]; intros acc Hk; [done|].
  rewrite fmap_cons, not_elem_of_cons in Hk. destruct Hk as [Hne Hk].
  cbn. rewrite IH by done. by apply add_similar_other.
Qed.

Lemma foldl_add_similar_bound (seen : gset Z) (l : list (Z * Q)) (acc : gmap Z Q)
    (k : Z) (M : Q) :
  (0 <= M)%Q → NoDup l.*1 → (∀ p, p ∈ l → (0 <= p.2 <= M)%Q) →
  (dict_get acc k (0 # 1) <=
     dict_get (foldl (HybridRecommendationEngine.add_similar seen) acc l) k (0 # 1)
   <= dict_get acc k (0 # 1) + M)%Q.
Proof.
  intros HM. revert acc. induction l as [|p l IH]; intros acc Hnd Hl.
  - cbn. lra.
  - rewrite fmap_cons in Hnd. apply NoDup_cons in Hnd as [Hp Hnd]. cbn [foldl].
    destruct (decide (k = p.1)) as [->|Hne].
    + rewrite foldl_add_similar_absent by done.
      pose proof (Hl p ltac:(left)) as Hp2.
      destruct (add_similar_same seen acc p) as [->| ->]; lra.
    + assert (Hrest : ∀ q, q ∈ l → (0 <= q.2 <= M)%Q) by (intros q Hq; apply Hl; by right).
      specialize (IH (HybridRecommendationEngine.add_similar seen acc p) Hnd Hrest).
      rewrite add_similar_other in IH by done. exact IH.
Qed.

Lemma content_scores_bound (cb : ContentBasedModel.t) (sim : list (list Q))
    (seen : gset Z) (seeds : list Z) (acc res : gmap Z Q) (k : Z) (M : Q) :
  cb.(ContentBasedModel.item_similarity_matrix) = Some sim →
  (0 <= M)%Q → Forall (Forall (λ s, (0 <= s <= M)%Q)) sim →
  HybridRecommendationEngine.content_scores cb seen seeds acc = Ok res →
  (dict_get acc k (0 # 1) <= dict_get res k (0 # 1)
   <= dict_get acc k (0 # 1) + inject_Z (Z.of_nat (length seeds)) * M)%Q.
Proof.
  intros Hsim HM Hall. revert acc.
  induction seeds as [|seed seeds IH]; intros acc; cbn [HybridRecommendationEngine.content_scores].
  - intros [= <-]. change (inject_Z (Z.of_nat (length (@nil Z)))) with 0%Q. lra.
  - destruct (ContentBasedModel.get_similar_items cb seed 20) as [sims|] eqn:Hsims;
      cbn; [|done].
    intros Hres%IH.
    destruct (similar_items_rows _ _ _ _ _ Hsim Hsims) as [Hnd Hrows].
    pose proof (foldl_add_similar_bound seen sims acc k M HM Hnd) as Hstep.
    destruct Hstep as [Hlo Hhi].
    { intros p (row & Hrow & Hp)%Hrows.
      pose proof (proj1 (Forall_forall _ _) Hall row Hrow) as Hr.
      exact (proj1 (Forall_forall _ _) Hr _ Hp). }
    assert (Hlen : (inject_Z (Z.of_nat (S (length seeds)))
                    == inject_Z (Z.of_nat (length seeds)) + 1)%Q).
    { rewrite Nat2Z.inj_succ. unfold Z.succ. by rewrite inject_Z_plus. }
    rewrite Hlen. destruct Hres as [Hlo' Hhi']. split; [lra|].
    rewrite Qmult_plus_distr_l. lra.
Qed.

Lemma dict_get_empty (k : Z) (d : Q) : dict_get (∅ : gmap Z Q) k d = d.
Proof. unfold dict_get. by rewrite lookup_empty. Qed.

Section content_score.
Context `{HR : Runtime} {HS : RuntimeSpec}.

(** X20. With similarities between 0 and 1, as cosine similarities of
    TF-IDF vectors are, the content score of a recommendation for a known
    user lies between 0 and 5: at most five seen items are consulted, and
    each contributes any candidate's similarity at most once. *)
Theorem content_score_bounded (e : HybridRecommendationEngine.t) (user : string)
    (uidx n : Z) (sim : list (list Q)) (recs : list Recommendation) :
  e.(HybridRecommendationEngine.data_processor).(DataProcessor.user_encoder) !! user
    = Some uidx →
  e.(HybridRecommendationEngine.cb_model).(ContentBasedModel.item_similarity_matrix)
    = Some sim →
  Forall (Forall (λ s, (0 <= s <= 1)%Q)) sim →
  HybridRecommendationEngine.get_recommendations e user n = Ok recs →
  Forall (λ rec, (0 <= cb_score rec <= 5)%Q) recs.
Proof.
  intros Huser Hsim Hall Hrecs.
  destruct (get_recommendations_known e user uidx n recs Huser Hrecs)
    as (cf & cb & _ & Hcb & Hfmt).
  apply Forall_forall. intros rec (idx & _ & Hrec)%Hfmt.
  apply format_hybrid_inv in Hrec as (_ & _ & _ & ->). cbn.
  revert Hcb. unfold HybridRecommendationEngine.cb_candidates.
  destruct (decide (_ ≠ ∅)) as [_|_]; [|intros [= <-]; rewrite dict_get_empty; lra].
  intros Hres.
  pose proof (content_scores_bound _ sim _ _ _ _ idx 1%Q Hsim ltac:(lra) Hall Hres)
    as [Hlo Hhi].
  rewrite dict_get_empty in Hlo, Hhi.
  split; [lra|].
  assert (Hlen : (inject_Z (Z.of_nat (length (slice_to
                    (set_iter (dict_get e.(HybridRecommendationEngine.user_item_interactions)
                                 uidx ∅)) 5))) <= 5)%Q).
  { rewrite length_slice_to by lia. change 5%Q with (inject_Z 5).
    rewrite <- Zle_Qle. lia. }
  lra.
Qed.

End content_score.

Lemma content_score_bounded_witness :
  ∃ recs, HybridRecommendationEngine.get_recommendations scenario_engine "u1" 2 = Ok recs ∧
    recs ≠ [] ∧ Forall (λ rec, (0 <= cb_score rec <= 5)%Q) recs.
Proof.
  destruct (HybridRecommendationEngine.get_recommendations scenario_engine "u1" 2)
    as [recs|x] eqn:Hrecs; [|vm_compute in Hrecs; discriminate Hrecs].
  exists recs. split; [reflexivity|]. split.
  { intros ->. vm_compute in Hrecs. discriminate Hrecs. }
  assert (Huser : scenario_engine.(HybridRecommendationEngine.data_processor)
                    .(DataProcessor.user_encoder) !! "u1"%string = Some 0)
    by (vm_compute; reflexivity).
  assert (Hsim : scenario_engine.(HybridRecommendationEngine.cb_model)
                   .(ContentBasedModel.item_similarity_matrix)
                 = Some [[1 # 1; 1 # 1; 1 # 2]; [1 # 1; 1 # 1; 1 # 2]; [1 # 2; 1 # 2; 1 # 1]]%Q)
    by (vm_compute; reflexivity).
  assert (Hall : Forall (Forall (λ s, (0 <= s <= 1)%Q))
                   [[1 # 1; 1 # 1; 1 # 2]; [1 # 1; 1 # 1; 1 # 2]; [1 # 2; 1 # 2; 1 # 1]]%Q)
    by (repeat constructor; cbv; discriminate).
  exact (content_score_bounded scenario_engine "u1" 0 2 _ recs Huser Hsim Hall Hrecs).
Defined.
